(** * OpenHantek scope view: cursors, zoom mapping, history buffer

    A shallow embedding of the cursor interaction, zoom mapping, marker
    measurement and waveform history code of [glscope.cpp] and
    [dsowidget.cpp], with the properties the specification states about them.

    Numbers: the program computes with [double].  They are modelled as exact
    rationals [Q]; numeric results are compared with [==] (Qeq), values that
    are only stored and read back with [=].  The one division of the code
    whose divisor is data, the width of the zoom window, is written with a
    checked division [fdiv], whose [None] stands for the non-finite result of
    a floating-point division by zero.  Where the code goes on to compare
    that result, the result itself is kept: [quotient] gives the infinity or
    the NaN that the division of the doubles gives. *)

From Stdlib Require Import QArith Qabs Qminmax Qround ZArith NArith List Lia Lqa Bool String.
From stdpp Require Import base option list.
Import ListNotations.

Local Open Scope Q_scope.

(** ** Rational helpers *)

Definition Qlt_bool (a b : Q) : bool := negb (Qle_bool b a).

(** Division with a data-dependent divisor: [None] when the divisor is zero. *)
Definition fdiv (a b : Q) : option Q :=
  if Qeq_bool b 0 then None else Some (a / b).

(** The value of a quotient of doubles: a number, or, when the divisor is
    zero, the infinity with the sign of the dividend, or no number (NaN) when
    the dividend is zero as well.  The zero divisor is taken as the positive
    zero, which the difference of two equal doubles is (zeros of opposite
    signs apart, which [Q] does not tell from each other). *)
Inductive Quotient :=
| Number (v : Q)
| PlusInfinity
| MinusInfinity
| NotANumber.

Definition quotient (a b : Q) : Quotient :=
  match fdiv a b with
  | Some v => Number v
  | None =>
      if Qlt_bool 0 a then PlusInfinity
      else if Qlt_bool a 0 then MinusInfinity
      else NotANumber
  end.

(** [x < b] for such a value and a number: no comparison with NaN holds. *)
Definition lessThan (x : Quotient) (b : Q) : bool :=
  match x with
  | Number v => Qlt_bool v b
  | MinusInfinity => true
  | PlusInfinity | NotANumber => false
  end.

(** [a <= x && x <= b]. *)
Definition between (a : Q) (x : Quotient) (b : Q) : bool :=
  match x with
  | Number v => Qle_bool a v && Qle_bool v b
  | PlusInfinity | MinusInfinity | NotANumber => false
  end.

(** ** Settings model ([scopesettings.h])

    The header is not part of the sources at hand; the records keep the
    fields the two translation units read and write. *)

Record QPointF := QPoint { px : Q; py : Q }.

Definition setX (p : QPointF) (v : Q) : QPointF := QPoint v (py p).
Definition setY (p : QPointF) (v : Q) : QPointF := QPoint (px p) v.

Inductive CursorShape := NONE | HORIZONTAL | VERTICAL | RECTANGULAR.

(** Modelled from the spec: the number of markers of a cursor, a constant of
    the missing header; "two marker positions", "position indices are exactly
    0 and 1". *)
Definition MARKER_COUNT : N := 2%N.

(** Modelled from the spec: the value of the active marker index that stands
    for "none"; the code keeps it in an [unsigned], taken here as its largest
    value. *)
Definition NO_MARKER : N := 4294967295%N.

(** A cursor: [QPointF position[MARKER_COUNT]] is a fixed array of two
    points, kept as two fields and indexed by [position]. *)
Record DsoSettingsScopeCursor := Cursor {
  shape : CursorShape;
  position0 : QPointF;
  position1 : QPointF
}.

Definition position (c : DsoSettingsScopeCursor) (marker : N) : QPointF :=
  match marker with
  | 0%N => position0 c
  | _ => position1 c
  end.

(** [cursor.position[marker] = p]; the code only writes with
    [marker < MARKER_COUNT], another index leaves the cursor as it is. *)
Definition setPosition (c : DsoSettingsScopeCursor) (marker : N) (p : QPointF)
  : DsoSettingsScopeCursor :=
  match marker with
  | 0%N => Cursor (shape c) p (position1 c)
  | 1%N => Cursor (shape c) (position0 c) p
  | _ => c
  end.

Record DsoSettingsScopeHorizontal := Horizontal {
  h_cursor : DsoSettingsScopeCursor;
  timebase : Q;
  frequencybase : Q
}.

(** Modelled from the spec: the per-channel gain in volts per division that
    [scope->gain(channel)] returns is kept as the field [v_gain]. *)
Record DsoSettingsScopeVoltage := Voltage {
  v_cursor : DsoSettingsScopeCursor;
  v_used : bool;
  v_gain : Q
}.

Record DsoSettingsScopeSpectrum := Spectrum {
  s_cursor : DsoSettingsScopeCursor;
  s_used : bool;
  magnitude : Q
}.

Record DsoSettingsScope := Scope {
  horizontal : DsoSettingsScopeHorizontal;
  voltage : list DsoSettingsScopeVoltage;
  spectrum : list DsoSettingsScopeSpectrum;
  trigger_position : Q
}.

Definition setHorizontalCursor (scope : DsoSettingsScope) (c : DsoSettingsScopeCursor)
  : DsoSettingsScope :=
  Scope (Horizontal c (timebase (horizontal scope)) (frequencybase (horizontal scope)))
        (voltage scope) (spectrum scope) (trigger_position scope).

Definition setVoltageCursor (c : DsoSettingsScopeCursor) (v : DsoSettingsScopeVoltage)
  : DsoSettingsScopeVoltage := Voltage c (v_used v) (v_gain v).

Definition setSpectrumCursor (c : DsoSettingsScopeCursor) (s : DsoSettingsScopeSpectrum)
  : DsoSettingsScopeSpectrum := Spectrum c (s_used s) (magnitude s).

(** Modelled from the spec: [scope->getMarker(marker)], the x position of a
    time marker ("the two time-marker x-positions"). *)
Definition getMarker (scope : DsoSettingsScope) (marker : N) : Q :=
  px (position (h_cursor (horizontal scope)) marker).

(** Modelled from the spec: [scope->setMarker(marker, value)] moves a time
    marker along the x axis. *)
Definition setMarker (scope : DsoSettingsScope) (marker : N) (value : Q) : DsoSettingsScope :=
  let c := h_cursor (horizontal scope) in
  setHorizontalCursor scope (setPosition c marker (setX (position c marker) value)).

(** [scope->gain(channel)]. *)
Definition gain (scope : DsoSettingsScope) (channel : nat) : Q :=
  from_option v_gain 0 (voltage scope !! channel).

(** The cursors are owned by the settings; the view holds pointers to them
    ([cursorInfo]).  A pointer is kept as the place it points to. *)
Inductive CursorRef :=
| HorizontalCursor
| VoltageCursor (channel : nat)
| SpectrumCursor (channel : nat).

Definition deref (scope : DsoSettingsScope) (r : CursorRef) : option DsoSettingsScopeCursor :=
  match r with
  | HorizontalCursor => Some (h_cursor (horizontal scope))
  | VoltageCursor channel => v_cursor <$> voltage scope !! channel
  | SpectrumCursor channel => s_cursor <$> spectrum scope !! channel
  end.

Definition assign (scope : DsoSettingsScope) (r : CursorRef) (c : DsoSettingsScopeCursor)
  : DsoSettingsScope :=
  match r with
  | HorizontalCursor => setHorizontalCursor scope c
  | VoltageCursor channel =>
      Scope (horizontal scope) (alter (setVoltageCursor c) channel (voltage scope))
            (spectrum scope) (trigger_position scope)
  | SpectrumCursor channel =>
      Scope (horizontal scope) (voltage scope)
            (alter (setSpectrumCursor c) channel (spectrum scope)) (trigger_position scope)
  end.

(** ** History of graphs ([GlScope::showData])

    [PPresult] is the sample frame handed to [showData]; a [Graph] is a slot
    of the history. *)

Section History.

Variable PPresult : Type.

(** Modelled from the spec: a slot is either freshly constructed and empty or
    holds the frame [Graph::writeData] wrote into it ("overwrite its contents
    with frame"); the class [Graph] is not part of the sources at hand. *)
Definition Graph : Type := option PPresult.

Definition emptyGraph : Graph := None.

Definition writeData (g : Graph) (data : PPresult) : Graph := Some data.

(** [std::list::pop_back]. *)
Definition pop_back (h : list Graph) : list Graph := removelast h.

(** [while (draws < m_GraphHistory.size()) m_GraphHistory.pop_back();]
    The loop runs at most [size] times; [fuel] bounds the iterations. *)
Fixpoint removeTooMuch (fuel draws : nat) (h : list Graph) : list Graph :=
  match fuel with
  | O => h
  | S fuel' =>
      if (draws <? length h)%nat then removeTooMuch fuel' draws (pop_back h) else h
  end.

(** [if (draws > size) m_GraphHistory.resize(size + 1);] *)
Definition addIfMissing (draws : nat) (h : list Graph) : list Graph :=
  if (length h <? draws)%nat then h ++ [emptyGraph] else h.

(** [m_GraphHistory.splice(begin(), m_GraphHistory, std::prev(end()))]:
    the last slot becomes the first.  On an empty list there is no last slot
    to take ([std::prev(end())] is not an element): [None]. *)
Definition moveLastToFront (h : list Graph) : option (list Graph) :=
  match last h with
  | Some g => Some (g :: removelast h)
  | None => None
  end.

(** [m_GraphHistory.front().writeData(data, ...)]; [front()] of an empty
    list is not an element: [None]. *)
Definition writeFront (data : PPresult) (h : list Graph) : option (list Graph) :=
  match h with
  | g :: h' => Some (writeData g data :: h')
  | [] => None
  end.

(** The part of the view that [showData] reads and writes:
    [view->digitalPhosphorDraws()], [shaderCompileSuccess], [m_GraphHistory]. *)
Record GraphView := mkGraphView {
  digitalPhosphorDraws : nat;
  shaderCompileSuccess : bool;
  m_GraphHistory : list Graph
}.

Definition setHistory (v : GraphView) (h : list Graph) : GraphView :=
  mkGraphView (digitalPhosphorDraws v) (shaderCompileSuccess v) h.

(** [GlScope::showData]; [None] is an access to an element of an empty
    list. *)
Definition showData (data : PPresult) (v : GraphView) : option GraphView :=
  if negb (shaderCompileSuccess v) then Some v
  else
    let h1 := removeTooMuch (length (m_GraphHistory v)) (digitalPhosphorDraws v)
                (m_GraphHistory v) in
    let h2 := addIfMissing (digitalPhosphorDraws v) h1 in
    h3 ← moveLastToFront h2;
    h4 ← writeFront data h3;
    Some (setHistory v h4).

(** The values that the list takes while the loop of [removeTooMuch] runs:
    one after each [pop_back]. *)
Fixpoint removeTooMuchStages (fuel draws : nat) (h : list Graph) : list (list Graph) :=
  match fuel with
  | O => []
  | S fuel' =>
      if (draws <? length h)%nat then
        pop_back h :: removeTooMuchStages fuel' draws (pop_back h)
      else []
  end.

(** The values [m_GraphHistory] takes during one call, statement by
    statement: at entry (the only one when the call returns at its first
    line), after each [pop_back], after the loop, after the resize, after
    the splice and after the write. *)
Definition showDataStages (data : PPresult) (v : GraphView) : list (list Graph) :=
  m_GraphHistory v ::
  if negb (shaderCompileSuccess v) then []
  else
    let h1 := removeTooMuch (length (m_GraphHistory v)) (digitalPhosphorDraws v)
                (m_GraphHistory v) in
    let h2 := addIfMissing (digitalPhosphorDraws v) h1 in
    removeTooMuchStages (length (m_GraphHistory v)) (digitalPhosphorDraws v)
                        (m_GraphHistory v) ++
    [h1; h2] ++
    match moveLastToFront h2 with
    | Some h3 => h3 :: match writeFront data h3 with Some h4 => [h4] | None => [] end
    | None => []
    end.

(** [showData] called once for each frame, oldest frame first. *)
Fixpoint showAll (frames : list PPresult) (v : GraphView) : option GraphView :=
  match frames with
  | [] => Some v
  | data :: frames' => v' ← showData data v; showAll frames' v'
  end.

(** Every value the history takes during those calls. *)
Fixpoint showAllStages (frames : list PPresult) (v : GraphView) : list (list Graph) :=
  match frames with
  | [] => []
  | data :: frames' =>
      showDataStages data v ++
      match showData data v with
      | Some v' => showAllStages frames' v'
      | None => []
      end
  end.

End History.

Arguments emptyGraph {PPresult}.
Arguments mkGraphView {PPresult}.
Arguments digitalPhosphorDraws {PPresult}.
Arguments shaderCompileSuccess {PPresult}.
Arguments m_GraphHistory {PPresult}.
Arguments showData {PPresult}.
Arguments showDataStages {PPresult}.
Arguments showAll {PPresult}.
Arguments showAllStages {PPresult}.
Arguments removeTooMuch {PPresult}.
Arguments removeTooMuchStages {PPresult}.
Arguments addIfMissing {PPresult}.
Arguments moveLastToFront {PPresult}.
Arguments writeFront {PPresult}.
Arguments setHistory {PPresult}.

(** ** The scope view and its widget

    [DIVS_TIME] and [DIVS_VOLTAGE], the numbers of divisions of the two axes,
    are constants of [viewconstants.h], which is not part of the sources at
    hand: they are parameters here, positive as division counts are. *)

Section View.

Variables DIVS_TIME DIVS_VOLTAGE : Q.

(** *** Pointer events ([glscope.cpp]) *)

(** [Qt::LeftButton]; the buttons are bits of a mask. *)
Definition LeftButton : Z := 1%Z.

Record QMouseEvent := MouseEvent {
  ev_x : Z;
  ev_y : Z;
  button : Z;
  buttons : Z
}.

(** What the handlers do to the world outside the view, kept in the order in
    which they do it: a write to a marker of a cursor, given by the index of
    the cursor in [cursorInfo], and the signal [markerMoved(marker)]. *)
Inductive Effect :=
| markerWritten (cursor : nat) (marker : N)
| markerMoved (marker : N).

Definition Vertices : Type := list (Q * Q * Q).

Record GlScope := mkGlScope {
  zoomed : bool;
  width : Z;
  height : Z;
  cursorInfo : list CursorRef;
  selectedCursor : nat;
  selectedMarker : N;
  vaMarker : list Vertices;
  effects : list Effect
}.

Definition setSelectedMarker (gl : GlScope) (marker : N) : GlScope :=
  mkGlScope (zoomed gl) (width gl) (height gl) (cursorInfo gl) (selectedCursor gl)
            marker (vaMarker gl) (effects gl).

Definition addEffect (gl : GlScope) (e : Effect) : GlScope :=
  mkGlScope (zoomed gl) (width gl) (height gl) (cursorInfo gl) (selectedCursor gl)
            (selectedMarker gl) (vaMarker gl) (effects gl ++ [e]).

Definition setVaMarker (gl : GlScope) (va : list Vertices) : GlScope :=
  mkGlScope (zoomed gl) (width gl) (height gl) (cursorInfo gl) (selectedCursor gl)
            (selectedMarker gl) va (effects gl).

(** [GlScope::cursorSelected(index)]. *)
Definition cursorSelected (gl : GlScope) (index : nat) : GlScope :=
  mkGlScope (zoomed gl) (width gl) (height gl) (cursorInfo gl) index
            (selectedMarker gl) (vaMarker gl) (effects gl).

(** The constructor's [cursorInfo]: the time markers, then one cursor for
    each voltage channel, then one for each spectrum channel. *)
Definition makeCursorInfo (scope : DsoSettingsScope) : list CursorRef :=
  HorizontalCursor
    :: (VoltageCursor <$> seq 0 (length (voltage scope)))
    ++ (SpectrumCursor <$> seq 0 (length (spectrum scope))).

(** The view and the settings it points into. *)
Definition World : Type := GlScope * DsoSettingsScope.

(** [emit markerMoved(marker)]: the signal is recorded.  The slot that the
    widget connects to it ([dsowidget.cpp], it calls [markerUpdated]) is not
    part of the handlers and is not run here: [vaMarker] is the array as the
    handlers themselves leave it. *)
Definition emitMarkerMoved (marker : N) (w : World) : World :=
  (addEffect (fst w) (markerMoved marker), snd w).

(** The pointer position in divisions. [width() / 2] is a division of
    integers, the quotient by [width()] one of doubles; a widget that gets
    pointer events has a positive size. *)
Definition eventPosition (gl : GlScope) (event : QMouseEvent) : QPointF :=
  QPoint (inject_Z (ev_x event - Z.quot (width gl) 2) * DIVS_TIME / inject_Z (width gl))
         (inject_Z (Z.quot (height gl) 2 - ev_y event) * DIVS_VOLTAGE / inject_Z (height gl)).

(** [cursorInfo[selectedCursor]]: the selected cursor and where it lives;
    [None] when the index or the pointer is out of range. *)
Definition selectedCursorRef (w : World) : option (CursorRef * DsoSettingsScopeCursor) :=
  r ← cursorInfo (fst w) !! selectedCursor (fst w);
  c ← deref (snd w) r;
  Some (r, c).

(** [cursorInfo[selectedCursor]->position[marker] = p]. *)
Definition writeMarker (marker : N) (p : QPointF) (w : World) : option World :=
  rc ← selectedCursorRef w;
  Some (addEffect (fst w) (markerWritten (selectedCursor (fst w)) marker),
        assign (snd w) (fst rc) (setPosition (snd rc) marker p)).

(** The markers a [for (marker = 0; marker < MARKER_COUNT; ++marker)] loop
    visits. *)
Definition markerRange : list N := N.of_nat <$> seq 0 (N.to_nat MARKER_COUNT).

Definition captureX (s : CursorShape) : bool :=
  match s with RECTANGULAR | VERTICAL => true | _ => false end.

Definition captureY (s : CursorShape) : bool :=
  match s with RECTANGULAR | HORIZONTAL => true | _ => false end.

(** One round of the capture loop of [mousePressEvent]: the state is the
    pair of the closest distances so far and the marker selected so far. *)
Definition captureStep (cursor : DsoSettingsScopeCursor) (p : QPointF)
    (acc : QPointF * N) (marker : N) : QPointF * N :=
  let acc :=
    if captureX (shape cursor)
       && Qlt_bool (Qabs (px (position cursor marker) - px p))
                   (Qmin (px (fst acc)) (DIVS_TIME / 100))
    then (setX (fst acc) (Qabs (px (position cursor marker) - px p)), marker)
    else acc in
  if captureY (shape cursor)
     && Qlt_bool (Qabs (py (position cursor marker) - py p))
                 (Qmin (py (fst acc)) (DIVS_VOLTAGE / 100))
  then (setY (fst acc) (Qabs (py (position cursor marker) - py p)), marker)
  else acc.

(** The whole loop, from [distance = (DIVS_TIME, DIVS_VOLTAGE)] and
    [selectedMarker = NO_MARKER]. *)
Definition captureMarker (cursor : DsoSettingsScopeCursor) (p : QPointF) : N :=
  snd (fold_left (captureStep cursor p) markerRange
                 (QPoint DIVS_TIME DIVS_VOLTAGE, NO_MARKER)).

(** [GlScope::mousePressEvent]. *)
Definition mousePressEvent (event : QMouseEvent) (w : World) : option World :=
  if negb (zoomed (fst w)) && (button event =? LeftButton)%Z then
    let p := eventPosition (fst w) event in
    rc ← selectedCursorRef w;
    let marker := captureMarker (snd rc) p in
    let w := (setSelectedMarker (fst w) marker, snd w) in
    if negb (marker =? NO_MARKER)%N then
      w ← writeMarker marker p w;
      Some (if (selectedCursor (fst w) =? 0)%nat then emitMarkerMoved marker w else w)
    else Some w
  else Some w.

(** One round of the loop of [mouseMoveEvent] that moves every marker. *)
Definition moveAllStep (p : QPointF) (w : option World) (marker : N) : option World :=
  w ← w;
  w ← writeMarker marker p w;
  let w := emitMarkerMoved marker w in
  Some (setSelectedMarker (fst w) marker, snd w).

(** [GlScope::mouseMoveEvent]. *)
Definition mouseMoveEvent (event : QMouseEvent) (w : World) : option World :=
  if negb (zoomed (fst w)) && negb (Z.land (buttons event) LeftButton =? 0)%Z then
    let p := eventPosition (fst w) event in
    if (selectedMarker (fst w) =? NO_MARKER)%N then
      fold_left (moveAllStep p) markerRange (Some w)
    else if (selectedMarker (fst w) <? MARKER_COUNT)%N then
      w ← writeMarker (selectedMarker (fst w)) p w;
      Some (emitMarkerMoved (selectedMarker (fst w)) w)
    else Some w
  else Some w.

(** [GlScope::mouseReleaseEvent]. *)
Definition mouseReleaseEvent (event : QMouseEvent) (w : World) : option World :=
  if negb (zoomed (fst w)) && (button event =? LeftButton)%Z then
    let p := eventPosition (fst w) event in
    w ← (if (selectedMarker (fst w) <? MARKER_COUNT)%N then
           w ← writeMarker (selectedMarker (fst w)) p w;
           Some (emitMarkerMoved (selectedMarker (fst w)) w)
         else Some w);
    Some (setSelectedMarker (fst w) NO_MARKER, snd w)
  else Some w.

(** *** Cursor geometry ([GlScope::generateVertices]) *)

(** The four vertices written to [vaMarker[marker]]; [z] is [1.0f]. *)
Definition cursorVertices (cursor : DsoSettingsScopeCursor) : Vertices :=
  match shape cursor with
  | NONE =>
      [ (- DIVS_TIME, - DIVS_VOLTAGE, 1);
        (- DIVS_TIME, DIVS_VOLTAGE, 1);
        (DIVS_TIME, DIVS_VOLTAGE, 1);
        (DIVS_TIME, - DIVS_VOLTAGE, 1) ]
  | VERTICAL =>
      [ (px (position cursor 0), - DIVS_VOLTAGE, 1);
        (px (position cursor 0), DIVS_VOLTAGE, 1);
        (px (position cursor 1), DIVS_VOLTAGE, 1);
        (px (position cursor 1), - DIVS_VOLTAGE, 1) ]
  | HORIZONTAL =>
      [ (- DIVS_TIME, py (position cursor 0), 1);
        (DIVS_TIME, py (position cursor 0), 1);
        (DIVS_TIME, py (position cursor 1), 1);
        (- DIVS_TIME, py (position cursor 1), 1) ]
  | RECTANGULAR =>
      [ (px (position cursor 0), py (position cursor 0), 1);
        (px (position cursor 0), py (position cursor 1), 1);
        (px (position cursor 1), py (position cursor 1), 1);
        (px (position cursor 1), py (position cursor 0), 1) ]
  end.

(** [GlScope::generateVertices(marker, cursor)]: [vaMarker] has one entry for
    each cursor, and the callers stay within it. *)
Definition generateVertices (marker : nat) (cursor : DsoSettingsScopeCursor)
    (gl : GlScope) : GlScope :=
  setVaMarker gl (<[marker := cursorVertices cursor]> (vaMarker gl)).

(** [GlScope::markerUpdated], without the upload to the GPU. *)
Definition markerUpdated (scope : DsoSettingsScope) (gl : GlScope) : GlScope :=
  let gl := generateVertices 0 (h_cursor (horizontal scope)) gl in
  let gl := fold_left (fun gl cv => generateVertices (S (fst cv)) (v_cursor (snd cv)) gl)
                      (imap pair (voltage scope)) gl in
  fold_left (fun gl cs =>
               generateVertices (S (length (voltage scope) + fst cs)) (s_cursor (snd cs)) gl)
            (imap pair (spectrum scope)) gl.

(** *** Zoom mapping ([dsowidget.cpp]) *)

(** The two time markers in increasing order: the first three lines of both
    [mainToZoom] and [zoomToMain]. *)
Definition zoomWindow (scope : DsoSettingsScope) : Q * Q :=
  let m1 := getMarker scope 0 in
  let m2 := getMarker scope 1 in
  if Qlt_bool m2 m1 then (m2, m1) else (m1, m2).

(** [DsoWidget::mainToZoom]: the quotient by the width of the window. *)
Definition mainToZoom (scope : DsoSettingsScope) (pos : Q) : option Q :=
  let '(m1, m2) := zoomWindow scope in
  fdiv ((pos - (1 # 2)) * DIVS_TIME - m1) (m2 - m1).

(** The value that [mainToZoom] returns as a double, an infinity or NaN
    when the window has no width; [mainToZoom] above is its number. *)
Definition mainToZoomValue (scope : DsoSettingsScope) (pos : Q) : Quotient :=
  let '(m1, m2) := zoomWindow scope in
  quotient ((pos - (1 # 2)) * DIVS_TIME - m1) (m2 - m1).

(** [DsoWidget::zoomToMain]: the width of the window is a factor. *)
Definition zoomToMain (scope : DsoSettingsScope) (pos : Q) : Q :=
  let '(m1, m2) := zoomWindow scope in
  (1 # 2) + (m1 + pos * (m2 - m1)) / DIVS_TIME.

(** Modelled from the spec: the one slider of the trigger position control
    of the zoom view, a [LevelSlider], whose class is not part of the sources
    at hand: "the dependent control's declared [min, max] range", its enabled
    flag and its value. *)
Record LevelSlider := Slider {
  minimum : Q;
  maximum : Q;
  enabled : bool;
  value : Q
}.

Definition setEnabled (b : bool) (s : LevelSlider) : LevelSlider :=
  Slider (minimum s) (maximum s) b (value s).

Definition setValue (v : Q) (s : LevelSlider) : LevelSlider :=
  Slider (minimum s) (maximum s) (enabled s) v.

(** [DsoWidget::setupSliders], the slider of the trigger position:
    [setLimits(0, 0.0, 1.0)] and [setValue(0, scope->trigger.position)]. No
    other line of the widget sets its limits. *)
Definition setupTriggerPositionSlider (s : DsoSettingsScope) : LevelSlider :=
  setValue (trigger_position s) (Slider 0 1 true 0).

(** *** Marker measurements ([dsowidget.cpp]) *)

Inductive Unit := UNIT_SECONDS | UNIT_HERTZ | UNIT_VOLTS | UNIT_DECIBEL.

(** The text of a label: empty ([QString()]), a fixed text, or a number
    printed by [valueToString(value, unit, precision)]. *)
Inductive LabelText :=
| Empty
| Text (s : string)
| Value (v : Q) (unit : Unit) (precision : nat).

Record CursorInfo := mkCursorInfo {
  selectorEnabled : bool;
  shapeLabel : LabelText;
  deltaXLabel : LabelText;
  deltaYLabel : LabelText
}.

Definition setSelectorEnabled (b : bool) (info : CursorInfo) : CursorInfo :=
  mkCursorInfo b (shapeLabel info) (deltaXLabel info) (deltaYLabel info).

(** [hideCursorInfo]. *)
Definition hideCursorInfo (info : CursorInfo) : CursorInfo :=
  mkCursorInfo (selectorEnabled info) Empty Empty Empty.

(** [updateCursorInfo]. *)
Definition updateCursorInfo (strX strY : LabelText) (s : CursorShape) (info : CursorInfo)
  : CursorInfo :=
  match s with
  | NONE => mkCursorInfo (selectorEnabled info) (Text "OFF") Empty Empty
  | HORIZONTAL => mkCursorInfo (selectorEnabled info) (Text "=") Empty strY
  | VERTICAL => mkCursorInfo (selectorEnabled info) (Text "||") strX Empty
  | RECTANGULAR => mkCursorInfo (selectorEnabled info) (Text "#") strX strY
  end.

Record DsoWidget := Widget {
  scope : DsoSettingsScope;
  zoomTriggerPositionSlider : LevelSlider;
  markerInfo : CursorInfo;
  voltageCursors : list CursorInfo;
  spectrumCursors : list CursorInfo
}.

Definition setScope (s : DsoSettingsScope) (w : DsoWidget) : DsoWidget :=
  Widget s (zoomTriggerPositionSlider w) (markerInfo w) (voltageCursors w) (spectrumCursors w).

Definition setZoomTriggerPositionSlider (s : LevelSlider) (w : DsoWidget) : DsoWidget :=
  Widget (scope w) s (markerInfo w) (voltageCursors w) (spectrumCursors w).

(** The two numbers [updateMarkerDetails] prints for a voltage channel:
    [(p1.x() - p0.x()) * timebase] and [(p1.y() - p0.y()) * gain(channel)]. *)
Definition voltageDeltas (s : DsoSettingsScope) (channel : nat) (v : DsoSettingsScopeVoltage)
  : Q * Q :=
  let p0 := position (v_cursor v) 0 in
  let p1 := position (v_cursor v) 1 in
  ((px p1 - px p0) * timebase (horizontal s), (py p1 - py p0) * gain s channel).

(** The body of the loop over the voltage channels. *)
Definition updateVoltageCursor (s : DsoSettingsScope) (infos : list CursorInfo)
    (channel : nat) : list CursorInfo :=
  match voltage s !! channel with
  | Some v =>
      if v_used v then
        alter (fun info =>
                 updateCursorInfo (Value (fst (voltageDeltas s channel v)) UNIT_SECONDS 4)
                                  (Value (snd (voltageDeltas s channel v)) UNIT_VOLTS 4)
                                  (shape (v_cursor v))
                                  (setSelectorEnabled true info))
              channel infos
      else alter (fun info => hideCursorInfo (setSelectorEnabled false info)) channel infos
  | None => infos
  end.

(** The body of the loop over the spectrum channels. *)
Definition updateSpectrumCursor (s : DsoSettingsScope) (infos : list CursorInfo)
    (channel : nat) : list CursorInfo :=
  match spectrum s !! channel with
  | Some sp =>
      let p0 := position (s_cursor sp) 0 in
      let p1 := position (s_cursor sp) 1 in
      if s_used sp then
        alter (fun info =>
                 updateCursorInfo
                   (Value ((px p1 - px p0) * frequencybase (horizontal s)) UNIT_HERTZ 4)
                   (Value ((py p1 - py p0) * magnitude sp * DIVS_VOLTAGE) UNIT_DECIBEL 4)
                   (shape (s_cursor sp))
                   (setSelectorEnabled true info))
              channel infos
      else alter (fun info => hideCursorInfo (setSelectorEnabled false info)) channel infos
  | None => infos
  end.

(** [DsoWidget::updateMarkerDetails]: the labels of the time markers' cursor
    and the two loops over the channels (the labels outside the cursor
    table, [markerInfoLabel], [markerTimeLabel], [markerFrequencyLabel] and
    the two of the zoom, are left out). *)
Definition updateMarkerDetails (w : DsoWidget) : DsoWidget :=
  let s := scope w in
  let divs := Qabs (px (position (h_cursor (horizontal s)) 1)
                    - px (position (h_cursor (horizontal s)) 0)) in
  let time := divs * timebase (horizontal s) in
  let freq := divs * frequencybase (horizontal s) in
  Widget s (zoomTriggerPositionSlider w)
         (mkCursorInfo (selectorEnabled (markerInfo w)) (shapeLabel (markerInfo w))
                       (Value time UNIT_SECONDS 4) (Value freq UNIT_HERTZ 4))
         (fold_left (updateVoltageCursor s) (seq 0 (length (voltage s))) (voltageCursors w))
         (fold_left (updateSpectrumCursor s) (seq 0 (length (spectrum s))) (spectrumCursors w)).

(** [DsoWidget::adaptTriggerPositionSlider].  It has a result in every
    state of the widget: a mapped position that is an infinity or NaN fails
    the first test, as the code's comparisons of doubles do, and the slider
    is disabled and set to one of its limits.  In the first branch the value
    is a number. *)
Definition adaptTriggerPositionSlider (w : DsoWidget) : option DsoWidget :=
  let x := mainToZoomValue (scope w) (trigger_position (scope w)) in
  let slider := zoomTriggerPositionSlider w in
  Some (setZoomTriggerPositionSlider
          (if between (minimum slider) x (maximum slider) then
             match x with
             | Number v => setValue v (setEnabled true slider)
             | _ => setEnabled true slider
             end
           else
             let slider := setEnabled false slider in
             if lessThan x (minimum slider) then setValue (minimum slider) slider
             else setValue (maximum slider) slider)
          w).

(** [DsoWidget::updateMarker]; it has a result in every state as well. *)
Definition updateMarker (marker : N) (v : Q) (w : DsoWidget) : option DsoWidget :=
  w ← adaptTriggerPositionSlider (setScope (setMarker (scope w) marker v) w);
  Some (updateMarkerDetails w).

(** *** Vocabulary of the properties *)

Inductive Axis := AxisX | AxisY.

(** The axes on which a cursor of a given shape can be caught. *)
Definition capturable (s : CursorShape) (a : Axis) : bool :=
  match a with AxisX => captureX s | AxisY => captureY s end.

(** The distance along an axis from a marker to the pointer, as
    [mousePressEvent] computes it. *)
Definition axisDistance (c : DsoSettingsScopeCursor) (p : QPointF) (marker : N) (a : Axis) : Q :=
  match a with
  | AxisX => Qabs (px (position c marker) - px p)
  | AxisY => Qabs (py (position c marker) - py p)
  end.

(** One hundredth of the full scale of an axis. *)
Definition snapRadius (a : Axis) : Q :=
  match a with AxisX => DIVS_TIME / 100 | AxisY => DIVS_VOLTAGE / 100 end.

(** What the capture loop does to one marker on one axis: marker 0 is caught
    when it is strictly within the snap radius, marker 1 when it is strictly
    within the snap radius and strictly nearer than marker 0. *)
Definition caught (c : DsoSettingsScopeCursor) (p : QPointF) (marker : N) (a : Axis) : bool :=
  capturable (shape c) a
  && Qlt_bool (axisDistance c p marker a) (snapRadius a)
  && match marker with
     | 0%N => true
     | _ => Qlt_bool (axisDistance c p marker a) (axisDistance c p 0 a)
     end.

(** The slider [slider'] shows the value [v] as the slider [slider] allows:
    enabled and at [v] when [v] is within the limits, disabled and at the
    limit that [v] passed otherwise. *)
Definition sliderFollows (slider slider' : LevelSlider) (v : Q) : Prop :=
  minimum slider' = minimum slider
  /\ maximum slider' = maximum slider
  /\ (minimum slider <= v <= maximum slider ->
      enabled slider' = true /\ value slider' = v)
  /\ (~ minimum slider <= v <= maximum slider -> enabled slider' = false)
  /\ (v < minimum slider -> value slider' = minimum slider)
  /\ (maximum slider < v -> value slider' = maximum slider).

(** The slider [slider'] shows a mapped position [x] that may be no number:
    as [sliderFollows] when [x] is a number; disabled and at the limit on the
    side of [x] when [x] is an infinity; disabled and at the upper limit when
    [x] is NaN. *)
Definition sliderFollowsValue (slider slider' : LevelSlider) (x : Quotient) : Prop :=
  match x with
  | Number v => sliderFollows slider slider' v
  | MinusInfinity =>
      minimum slider' = minimum slider /\ maximum slider' = maximum slider
      /\ enabled slider' = false /\ value slider' = minimum slider
  | PlusInfinity | NotANumber =>
      minimum slider' = minimum slider /\ maximum slider' = maximum slider
      /\ enabled slider' = false /\ value slider' = maximum slider
  end.

(** The view as its constructor builds it over the settings, with one of its
    cursors selected. *)
Definition validSelection (w : World) : Prop :=
  cursorInfo (fst w) = makeCursorInfo (snd w)
  /\ (selectedCursor (fst w) < length (cursorInfo (fst w)))%nat.

(** The effects a handler added, given the worlds before and after it. *)
Definition newEffects (w w' : World) : list Effect :=
  drop (length (effects (fst w))) (effects (fst w')).

(** Every write to a marker is followed at once by the signal for that
    marker, and no signal comes without a write. *)
Fixpoint notified (t : list Effect) : bool :=
  match t with
  | [] => true
  | markerWritten _ m :: markerMoved m' :: t' => (m =? m')%N && notified t'
  | _ => false
  end.

(** No signal at all. *)
Definition silent (t : list Effect) : bool :=
  forallb (fun e => match e with markerMoved _ => false | _ => true end) t.

(** Four vertices whose edges, the closing edge from the last vertex to the
    first included, are parallel to the axes, in the plane [z = 1]. *)
Definition closedRectangle (vs : Vertices) : Prop :=
  match vs with
  | [(x0, y0, z0); (x1, y1, z1); (x2, y2, z2); (x3, y3, z3)] =>
      ((x0 = x1 /\ y1 = y2 /\ x2 = x3 /\ y3 = y0)
       \/ (y0 = y1 /\ x1 = x2 /\ y2 = y3 /\ x3 = x0))
      /\ z0 = 1 /\ z1 = 1 /\ z2 = 1 /\ z3 = 1
  | _ => False
  end.

End View.

(** ** Further code of the view and the widget *)

Section MoreView.

Variables DIVS_TIME DIVS_VOLTAGE : Q.

(** *** The stream of pointer events

    Qt hands every event of the pointer to the handler of its kind. *)

Inductive PointerEvent :=
| Press (event : QMouseEvent)
| Move (event : QMouseEvent)
| Release (event : QMouseEvent).

Definition handle (ev : PointerEvent) (w : World) : option World :=
  match ev with
  | Press event => mousePressEvent DIVS_TIME DIVS_VOLTAGE event w
  | Move event => mouseMoveEvent DIVS_TIME DIVS_VOLTAGE event w
  | Release event => mouseReleaseEvent DIVS_TIME DIVS_VOLTAGE event w
  end.

(** The events handled one after the other, the first one first. *)
Fixpoint handleAll (evs : list PointerEvent) (w : World) : option World :=
  match evs with
  | [] => Some w
  | ev :: evs' => w' ← handle ev w; handleAll evs' w'
  end.

(** The Qt event of a pointer event. *)
Definition eventOf (ev : PointerEvent) : QMouseEvent :=
  match ev with Press e | Move e | Release e => e end.

(** An event that no handler acts on: the left button is neither the button
    that changed nor among the buttons held. *)
Definition withoutLeftButton (ev : PointerEvent) : bool :=
  match ev with
  | Press e | Release e => negb (button e =? LeftButton)%Z
  | Move e => (Z.land (buttons e) LeftButton =? 0)%Z
  end.

(** The index of the active marker is one of the markers or [NO_MARKER]. *)
Definition markerOrNone (marker : N) : Prop :=
  marker = NO_MARKER \/ (marker < MARKER_COUNT)%N.

(** Two states of the view that differ at most in the active marker and in
    the effects. *)
Definition sameView (gl gl' : GlScope) : Prop :=
  zoomed gl' = zoomed gl
  /\ width gl' = width gl
  /\ height gl' = height gl
  /\ cursorInfo gl' = cursorInfo gl
  /\ selectedCursor gl' = selectedCursor gl
  /\ vaMarker gl' = vaMarker gl.

(** What a write through a pointer leaves as it is: the time bases, the
    trigger position, the number of channels, and of every channel whether it
    is used, its gain and its magnitude. *)
Definition sameChannels (s s' : DsoSettingsScope) : Prop :=
  timebase (horizontal s') = timebase (horizontal s)
  /\ frequencybase (horizontal s') = frequencybase (horizontal s)
  /\ trigger_position s' = trigger_position s
  /\ (v_used <$> voltage s') = (v_used <$> voltage s)
  /\ (v_gain <$> voltage s') = (v_gain <$> voltage s)
  /\ (s_used <$> spectrum s') = (s_used <$> spectrum s)
  /\ (magnitude <$> spectrum s') = (magnitude <$> spectrum s).

(** *** The zoomed view ([GlScope::paintGL])

    The zoomed view draws the graphs through a matrix built by [m.scale] and
    [m.translate], which act along x only.  Such a matrix is kept as the map
    [x |-> factor * x + shift] of the x coordinate.  Both calls of
    [QMatrix4x4] multiply the matrix from the right, so the call made last
    acts on a vertex first.  The quotient of [m.scale] has the distance of
    the time markers as its divisor and is a checked division; the casts to
    [GLfloat] are numbers again and are not written. *)

Record XMap := mkXMap { factor : Q; shift : Q }.

Definition identityX : XMap := mkXMap 1 0.

Definition scaleX (sx : Q) (m : XMap) : XMap := mkXMap (factor m * sx) (shift m).

Definition translateX (tx : Q) (m : XMap) : XMap :=
  mkXMap (factor m) (shift m + factor m * tx).

Definition applyX (m : XMap) (x : Q) : Q := factor m * x + shift m.

(** The matrix [m] of [paintGL]. *)
Definition zoomMatrix (scope : DsoSettingsScope) : option XMap :=
  sx ← fdiv DIVS_TIME (Qabs (getMarker scope 1 - getMarker scope 0));
  Some (translateX (- (getMarker scope 0 + getMarker scope 1) / 2) (scaleX sx identityX)).

(** The x coordinate, in divisions, of a horizontal position of the main
    view, and back: [(position - 0.5) * DIVS_TIME] in [mainToZoom] and
    [0.5 + x / DIVS_TIME] in [zoomToMain]. *)
Definition positionToX (pos : Q) : Q := (pos - (1 # 2)) * DIVS_TIME.

Definition xToPosition (x : Q) : Q := (1 # 2) + x / DIVS_TIME.

(** *** Drawing the cursors ([GlScope::drawMarkers])

    [VERTICES_ARRAY_SIZE], the number of vertices of an entry of [vaMarker],
    is a constant of [glscope.h], which is not part of the sources at hand:
    it is a parameter. *)

Variable VERTICES_ARRAY_SIZE : nat.

Inductive GlMode := GL_POINTS | GL_LINES | GL_LINE_LOOP.

(** The colours of [view->screen] that the cursors are drawn in. *)
Inductive ScreenColor :=
| ColorMarkers
| ColorVoltage (channel : nat)
| ColorSpectrum (channel : nat).

(** The calls that reach the GL context, in the order they are made. *)
Inductive GlCall :=
| setUniformColor (color : ScreenColor)
| glLineWidth (w : Z)
| glDrawArrays (mode : GlMode) (first count : nat).

(** The three calls that draw one cursor. *)
Definition drawCursor (gl : GlScope) (color : ScreenColor) (marker : nat) : list GlCall :=
  [ setUniformColor color;
    glLineWidth (if (marker =? selectedCursor gl)%nat then 3 else 1)%Z;
    glDrawArrays GL_LINE_LOOP (marker * VERTICES_ARRAY_SIZE) VERTICES_ARRAY_SIZE ].

(** [GlScope::drawMarkers]; [marker] is one more than the channel in the
    first loop and goes on counting in the second. *)
Definition drawMarkers (scope : DsoSettingsScope) (gl : GlScope) : list GlCall :=
  drawCursor gl ColorMarkers 0
  ++ mjoin (imap (fun channel v =>
                    if v_used v then drawCursor gl (ColorVoltage channel) (S channel) else [])
                 (voltage scope))
  ++ mjoin (imap (fun channel s =>
                    if s_used s then
                      drawCursor gl (ColorSpectrum channel) (S (length (voltage scope) + channel))
                    else [])
                 (spectrum scope)).

(** What the GL context draws for a list of calls: every [glDrawArrays] with
    the colour and the line width set last. *)
Record Primitive := mkPrimitive {
  prim_mode : GlMode;
  prim_first : nat;
  prim_count : nat;
  prim_color : option ScreenColor;
  prim_width : Z
}.

Fixpoint render (color : option ScreenColor) (w : Z) (calls : list GlCall) : list Primitive :=
  match calls with
  | [] => []
  | setUniformColor c :: calls' => render (Some c) w calls'
  | glLineWidth w' :: calls' => render color w' calls'
  | glDrawArrays mode first count :: calls' =>
      mkPrimitive mode first count color w :: render color w calls'
  end.

(** The vertices a primitive takes from the buffer that [markerUpdated]
    uploads, [vaMarker] laid out entry after entry. *)
Definition verticesOf (p : Primitive) (buffer : list (Q * Q * Q)) : list (Q * Q * Q) :=
  take (prim_count p) (drop (prim_first p) buffer).

(** Whether a cursor is drawn: the time markers always, the cursor of a
    channel when the channel is used. *)
Definition cursorUsed (scope : DsoSettingsScope) (r : CursorRef) : bool :=
  match r with
  | HorizontalCursor => true
  | VoltageCursor channel => from_option v_used false (voltage scope !! channel)
  | SpectrumCursor channel => from_option s_used false (spectrum scope !! channel)
  end.

Definition colorOf (r : CursorRef) : ScreenColor :=
  match r with
  | HorizontalCursor => ColorMarkers
  | VoltageCursor channel => ColorVoltage channel
  | SpectrumCursor channel => ColorSpectrum channel
  end.

(** What the three calls for one cursor draw. *)
Definition cursorPrimitive (gl : GlScope) (b : ScreenColor * nat) : Primitive :=
  mkPrimitive GL_LINE_LOOP (snd b * VERTICES_ARRAY_SIZE) VERTICES_ARRAY_SIZE
              (Some (fst b))
              (if (snd b =? selectedCursor gl)%nat then 3 else 1)%Z.

(** The cursors that [drawMarkers] draws, each with its colour and its index
    in [cursorInfo]. *)
Definition drawnCursors (s : DsoSettingsScope) : list (ScreenColor * nat) :=
  [(ColorMarkers, 0%nat)]
  ++ mjoin (imap (fun ch v => if v_used v then [(ColorVoltage ch, S ch)] else [])
                 (voltage s))
  ++ mjoin (imap (fun ch sp => if s_used sp
                               then [(ColorSpectrum ch, S (length (voltage s) + ch))]
                               else [])
                 (spectrum s)).

(** *** The grid ([GlScope::generateGrid])

    [DIVS_SUB], the number of dots of a division, is an integer constant of
    [viewconstants.h] (the code takes a remainder by it): a parameter. *)

Variable DIVS_SUB : Z.

(** The values that [i] takes in [for (int i = 1; i < bound; ++i)], where
    [bound] is a [double]. *)
Definition intsBelow (bound : Q) : list Z := seqZ 1 (Qceiling bound - 1).

(** [(float)dot / DIVS_SUB], a quotient of floating-point numbers. *)
Definition subPosition (dot : Z) : Q := inject_Z dot / inject_Z DIVS_SUB.

(** The buffer under construction: [gridDrawCounts], [vaGrid], and the
    places in [vaGrid], counted in vertices, where the attribute buffers of
    [m_vaoGrid[1]] and [m_vaoGrid[2]] start. *)
Record Grid := mkGrid {
  gridDrawCounts0 : nat;
  gridDrawCounts1 : nat;
  gridDrawCounts2 : nat;
  vaGrid : list (Q * Q * Q);
  axesStart : nat;
  borderStart : nat
}.

(** [gridDrawCounts[k] += 4] followed by four calls of [push_back]. *)
Definition pushGrid (vs : list (Q * Q * Q)) (g : Grid) : Grid :=
  mkGrid (gridDrawCounts0 g + 4) (gridDrawCounts1 g) (gridDrawCounts2 g)
         (vaGrid g ++ vs) (axesStart g) (borderStart g).

Definition pushAxes (vs : list (Q * Q * Q)) (g : Grid) : Grid :=
  mkGrid (gridDrawCounts0 g) (gridDrawCounts1 g + 4) (gridDrawCounts2 g)
         (vaGrid g ++ vs) (axesStart g) (borderStart g).

Definition pushBorder (vs : list (Q * Q * Q)) (g : Grid) : Grid :=
  mkGrid (gridDrawCounts0 g) (gridDrawCounts1 g) (gridDrawCounts2 g + 4)
         (vaGrid g ++ vs) (axesStart g) (borderStart g).

(** [setAttributeBuffer(..., int(vaGrid.size() * sizeof(QVector3D)), 3)]
    for [m_vaoGrid[1]] and for [m_vaoGrid[2]]. *)
Definition bindAxes (g : Grid) : Grid :=
  mkGrid (gridDrawCounts0 g) (gridDrawCounts1 g) (gridDrawCounts2 g)
         (vaGrid g) (length (vaGrid g)) (borderStart g).

Definition bindBorder (g : Grid) : Grid :=
  mkGrid (gridDrawCounts0 g) (gridDrawCounts1 g) (gridDrawCounts2 g)
         (vaGrid g) (axesStart g) (length (vaGrid g)).

(** The bodies of the four inner loops. *)
Definition verticalLineDots (div : Z) (g : Grid) (dot : Z) : Grid :=
  let dotPosition := subPosition dot in
  pushGrid [ (- inject_Z div, - dotPosition, 0);
             (- inject_Z div, dotPosition, 0);
             (inject_Z div, - dotPosition, 0);
             (inject_Z div, dotPosition, 0) ] g.

Definition horizontalLineDots (div : Z) (g : Grid) (dot : Z) : Grid :=
  if (Z.rem dot DIVS_SUB =? 0)%Z then g
  else
    let dotPosition := subPosition dot in
    pushGrid [ (- dotPosition, - inject_Z div, 0);
               (dotPosition, - inject_Z div, 0);
               (- dotPosition, inject_Z div, 0);
               (dotPosition, inject_Z div, 0) ] g.

Definition horizontalAxisLine (g : Grid) (line : Z) : Grid :=
  let linePosition := subPosition line in
  pushAxes [ (linePosition, - (1 # 20), 0);
             (linePosition, 1 # 20, 0);
             (- linePosition, - (1 # 20), 0);
             (- linePosition, 1 # 20, 0) ] g.

Definition verticalAxisLine (g : Grid) (line : Z) : Grid :=
  let linePosition := subPosition line in
  pushAxes [ (- (1 # 20), linePosition, 0);
             (1 # 20, linePosition, 0);
             (- (1 # 20), - linePosition, 0);
             (1 # 20, - linePosition, 0) ] g.

(** [GlScope::generateGrid], without the calls that create and bind the
    buffer objects. *)
Definition generateGrid : Grid :=
  let g := mkGrid 0 0 0 [] 0 0 in
  let g := fold_left (fun g div =>
                        fold_left (verticalLineDots div)
                                  (intsBelow (DIVS_VOLTAGE / 2 * inject_Z DIVS_SUB)) g)
                     (intsBelow (DIVS_TIME / 2)) g in
  let g := fold_left (fun g div =>
                        fold_left (horizontalLineDots div)
                                  (intsBelow (DIVS_TIME / 2 * inject_Z DIVS_SUB)) g)
                     (intsBelow (DIVS_VOLTAGE / 2)) g in
  let g := bindAxes g in
  let g := pushAxes [ (- DIVS_TIME / 2, 0, 0); (DIVS_TIME / 2, 0, 0);
                      (0, - DIVS_VOLTAGE / 2, 0); (0, DIVS_VOLTAGE / 2, 0) ] g in
  let g := fold_left horizontalAxisLine (intsBelow (DIVS_TIME / 2 * inject_Z DIVS_SUB)) g in
  let g := fold_left verticalAxisLine (intsBelow (DIVS_VOLTAGE / 2 * inject_Z DIVS_SUB)) g in
  let g := bindBorder g in
  pushBorder [ (- DIVS_TIME / 2, - DIVS_VOLTAGE / 2, 0);
               (DIVS_TIME / 2, - DIVS_VOLTAGE / 2, 0);
               (DIVS_TIME / 2, DIVS_VOLTAGE / 2, 0);
               (- DIVS_TIME / 2, DIVS_VOLTAGE / 2, 0) ] g.

(** [GlScope::drawGrid]: each draw reads its own attribute buffer from its
    first vertex. *)
Definition drawGrid (g : Grid) : list (GlMode * nat * nat) :=
  [ (GL_POINTS, 0, gridDrawCounts0 g);
    (GL_LINES, axesStart g, gridDrawCounts1 g);
    (GL_LINE_LOOP, borderStart g, gridDrawCounts2 g) ]%nat.

(** A vertex within the border of the grid, strictly. *)
Definition insideBorder (v : Q * Q * Q) : Prop :=
  Qabs (fst (fst v)) < DIVS_TIME / 2 /\ Qabs (snd (fst v)) < DIVS_VOLTAGE / 2.

(** Two vertices at the same place. *)
Definition samePlace (u v : Q * Q * Q) : Prop :=
  fst (fst u) == fst (fst v) /\ snd (fst u) == snd (fst v) /\ snd u == snd v.

(** *** Vocabulary of the grid *)

(** The vertices that a draw of [drawGrid] reads. *)
Definition drawnVertices (g : Grid) (d : GlMode * nat * nat) : list (Q * Q * Q) :=
  take (snd d) (drop (snd (fst d)) (vaGrid g)).

(** The dots of the grid: the vertices drawn as points. *)
Definition gridDots (g : Grid) : list (Q * Q * Q) :=
  take (gridDrawCounts0 g) (vaGrid g).

(** The place at [sx * x], [sy * y] of the plane of the grid. *)
Definition mirrored (sx sy : Z) (x y : Q) : Q * Q * Q :=
  (inject_Z sx * x, inject_Z sy * y, 0).

(** The two signs. *)
Definition isSign (s : Z) : Prop := s = 1%Z \/ s = (-1)%Z.

(** *** The trigger position ([dsowidget.cpp]) *)

Definition setTriggerPosition (s : DsoSettingsScope) (v : Q) : DsoSettingsScope :=
  Scope (horizontal s) (voltage s) (spectrum s) v.

(** [DsoWidget::updateTriggerPosition], on the trigger position slider of
    the main view and the widget; the third component is the argument of the
    signal [triggerPositionChanged] when it is emitted.
    [updateTriggerDetails] only sets the text and the palette of a label and
    is left out. *)
Definition updateTriggerPosition (index : Z) (v : Q) (mainView : bool)
    (mainSlider : LevelSlider) (w : DsoWidget) : option (LevelSlider * DsoWidget * list Q) :=
  if negb (index =? 0)%Z then Some (mainSlider, w, [])
  else
    r ← (if mainView then
           w ← adaptTriggerPositionSlider DIVS_TIME
                 (setScope (setTriggerPosition (scope w) v) w);
           Some (mainSlider, w)
         else
           let s := setTriggerPosition (scope w) (zoomToMain DIVS_TIME (scope w) v) in
           Some (setValue (trigger_position s) mainSlider, setScope s w));
    let w := updateMarkerDetails DIVS_VOLTAGE (snd r) in
    Some (fst r, w,
          [trigger_position (scope w) * timebase (horizontal (scope w)) * DIVS_TIME]).

(** The range of [int], taken as the 32 bits it has on the platforms of
    Qt. *)
Definition INT_MIN : Z := (-2147483648)%Z.
Definition INT_MAX : Z := 2147483647%Z.

(** [(int)v] for a double [v]: the conversion drops the fraction, and it
    has a defined result only when the number that is left is an [int]. *)
Definition toInt (v : Q) : option Z :=
  let t := Z.quot (Qnum v) (Zpos (Qden v)) in
  if (INT_MIN <=? t)%Z && (t <=? INT_MAX)%Z then Some t else None.

(** The number of [updateTriggerDetails] in front of the percent sign:
    [(int)(scope->trigger.position * 100 + 0.5)]. *)
Definition pretriggerPercent (s : DsoSettingsScope) : option Z :=
  toInt (trigger_position s * 100 + (1 # 2)).

(** *** The shape buttons of the cursor table ([DsoWidget::DsoWidget]) *)

(** The new shape: [RECTANGULAR] when the shape is [NONE], [NONE]
    otherwise. *)
Definition toggleShape (c : DsoSettingsScopeCursor) : DsoSettingsScopeCursor :=
  match shape c with
  | NONE => Cursor RECTANGULAR (position0 c) (position1 c)
  | _ => Cursor NONE (position0 c) (position1 c)
  end.

(** The handler of [clicked] of the shape button of a voltage channel, on
    the view and the widget that share the settings. *)
Definition voltageShapeClicked (channel : nat) (st : GlScope * DsoWidget)
  : option (GlScope * DsoWidget) :=
  v ← voltage (scope (snd st)) !! channel;
  let s := if v_used v then
             assign (scope (snd st)) (VoltageCursor channel) (toggleShape (v_cursor v))
           else scope (snd st) in
  let w := updateMarkerDetails DIVS_VOLTAGE (setScope s (snd st)) in
  Some (markerUpdated DIVS_TIME DIVS_VOLTAGE s (fst st), w).

(** The handler of the shape button of a spectrum channel. *)
Definition spectrumShapeClicked (channel : nat) (st : GlScope * DsoWidget)
  : option (GlScope * DsoWidget) :=
  sp ← spectrum (scope (snd st)) !! channel;
  let s := if s_used sp then
             assign (scope (snd st)) (SpectrumCursor channel) (toggleShape (s_cursor sp))
           else scope (snd st) in
  let w := updateMarkerDetails DIVS_VOLTAGE (setScope s (snd st)) in
  Some (markerUpdated DIVS_TIME DIVS_VOLTAGE s (fst st), w).

(** *** The rows of the cursor table

    What one pass of the loops of [updateMarkerDetails] makes of the row of
    a channel. *)

Definition voltageRow (s : DsoSettingsScope) (channel : nat) (info : CursorInfo) : CursorInfo :=
  match voltage s !! channel with
  | Some v =>
      if v_used v then
        updateCursorInfo (Value (fst (voltageDeltas s channel v)) UNIT_SECONDS 4)
                         (Value (snd (voltageDeltas s channel v)) UNIT_VOLTS 4)
                         (shape (v_cursor v)) (setSelectorEnabled true info)
      else hideCursorInfo (setSelectorEnabled false info)
  | None => info
  end.

Definition spectrumRow (s : DsoSettingsScope) (channel : nat) (info : CursorInfo) : CursorInfo :=
  match spectrum s !! channel with
  | Some sp =>
      let p0 := position (s_cursor sp) 0 in
      let p1 := position (s_cursor sp) 1 in
      if s_used sp then
        updateCursorInfo
          (Value ((px p1 - px p0) * frequencybase (horizontal s)) UNIT_HERTZ 4)
          (Value ((py p1 - py p0) * magnitude sp * DIVS_VOLTAGE) UNIT_DECIBEL 4)
          (shape (s_cursor sp)) (setSelectorEnabled true info)
      else hideCursorInfo (setSelectorEnabled false info)
  | None => info
  end.

End MoreView.

(** ** Settings and views of the examples

    Ten divisions of time and eight of voltage; the time markers at x = 0
    and x = 2 and the trigger at 3/5; three voltage and two spectrum
    channels; a view of 1000 by 800 pixels, so that a pixel is a hundredth of
    a division. *)

Definition exampleCursor : DsoSettingsScopeCursor :=
  Cursor RECTANGULAR (QPoint 0 0) (QPoint 5 (1 # 50)).

Definition exampleScope : DsoSettingsScope :=
  Scope (Horizontal (Cursor VERTICAL (QPoint 0 0) (QPoint 2 0)) (1 # 1000) 1000)
        [Voltage exampleCursor true (1 # 2);
         Voltage (Cursor NONE (QPoint 0 0) (QPoint 2 1)) true (1 # 2);
         Voltage (Cursor RECTANGULAR (QPoint 0 0) (QPoint 2 1)) true (1 # 2)]
        [Spectrum exampleCursor true 20; Spectrum exampleCursor false 20]
        (3 # 5).

(** The example settings with marker 1 moved onto marker 0. *)
Definition collapsedScope : DsoSettingsScope := setMarker exampleScope 1 0.

Definition exampleView (selected : nat) : GlScope :=
  mkGlScope false 1000 800 (makeCursorInfo exampleScope) selected NO_MARKER
            (replicate 6 []) [].

Definition exampleWorld (selected : nat) : World := (exampleView selected, exampleScope).

Definition exampleInfo : CursorInfo := mkCursorInfo false Empty Empty Empty.

Definition exampleWidget : DsoWidget :=
  Widget exampleScope (setupTriggerPositionSlider exampleScope) exampleInfo
         (replicate 3 exampleInfo)
         (replicate 2 exampleInfo).

(** A press with the left button at a pixel, and a move with it held. *)
Definition pressAt (x y : Z) : QMouseEvent := MouseEvent x y LeftButton LeftButton.
Definition moveTo (x y : Z) : QMouseEvent := MouseEvent x y 0 LeftButton.

(** A press on the time marker at x = 0, a move with the button held and the
    release; and two events of the right button. *)
Definition exampleDrag : list PointerEvent :=
  [Press (pressAt 500 400); Move (moveTo 600 300); Release (pressAt 650 300)].

Definition rightButtonEvents : list PointerEvent :=
  [Press (MouseEvent 500 400 2 2); Move (MouseEvent 600 300 0 2);
   Release (MouseEvent 600 300 2 0)].

(** A history of four slots, the last one never written, under a capacity
    that has been lowered to two. *)
Definition shrunkHistory : GraphView nat :=
  mkGraphView 2 true [Some 7%nat; Some 8%nat; Some 9%nat; None].

(** Settings whose channels are not used, and a widget over them; a widget
    over the example settings whose table shows texts of an earlier state. *)
Definition idleScope : DsoSettingsScope :=
  Scope (horizontal exampleScope) [Voltage exampleCursor false (1 # 2)]
        [Spectrum exampleCursor false 20] (3 # 5).

Definition staleInfo : CursorInfo := mkCursorInfo true (Text "#") (Text "1") (Text "2").

Definition idleWidget : DsoWidget :=
  Widget idleScope (setupTriggerPositionSlider idleScope) exampleInfo
         [staleInfo] [staleInfo].

Definition staleWidget : DsoWidget :=
  Widget exampleScope (setupTriggerPositionSlider exampleScope) staleInfo
         (replicate 3 staleInfo)
         (replicate 2 staleInfo).

(** * Properties *)

(** ** Rational helpers *)

Lemma Qlt_bool_iff (a b : Q) : Qlt_bool a b = true <-> a < b.
Proof.
  unfold Qlt_bool. rewrite negb_true_iff. split.
  - intros H. apply Qnot_le_lt. intros Hle.
    apply Qle_bool_iff in Hle. congruence.
  - intros H. destruct (Qle_bool b a) eqn:E; [|reflexivity].
    apply Qle_bool_iff in E. exfalso. apply (Qlt_not_le _ _ H E).
Qed.

Lemma Qlt_bool_false (a b : Q) : Qlt_bool a b = false <-> b <= a.
Proof.
  unfold Qlt_bool. rewrite negb_false_iff. apply Qle_bool_iff.
Qed.

Lemma Qle_bool_false (a b : Q) : Qle_bool a b = false <-> b < a.
Proof.
  rewrite <- Qlt_bool_iff. unfold Qlt_bool. now rewrite negb_true_iff.
Qed.

Lemma fdiv_Some (a b : Q) : ~ b == 0 -> fdiv a b = Some (a / b).
Proof.
  intros H. unfold fdiv. destruct (Qeq_bool b 0) eqn:E; [|reflexivity].
  apply Qeq_bool_eq in E. contradiction.
Qed.

Lemma fdiv_None (a b : Q) : b == 0 -> fdiv a b = None.
Proof.
  intros H. unfold fdiv. apply Qeq_eq_bool in H. now rewrite H.
Qed.

(** ** The history of graphs *)

Section HistoryProperties.

Context {PPresult : Type}.

Implicit Types (h : list (Graph PPresult)) (l frames : list PPresult)
  (v : GraphView PPresult) (data : PPresult).

(** The loop that drops the oldest slots keeps the first [draws] ones. *)
Lemma removeTooMuch_take fuel draws h :
  (length h - draws <= fuel)%nat -> removeTooMuch fuel draws h = take draws h.
Proof.
  revert h. induction fuel as [|fuel IH]; intros h Hfuel; simpl.
  - symmetry. apply take_ge. lia.
  - destruct (Nat.ltb_spec draws (length h)) as [Hlt|Hge].
    + unfold pop_back. rewrite removelast_firstn_len.
      rewrite IH.
      * rewrite take_take. f_equal. lia.
      * rewrite length_take. lia.
    + symmetry. apply take_ge. lia.
Qed.

Lemma length_addIfMissing draws h :
  (length h <= draws)%nat -> (length (addIfMissing draws h) <= draws)%nat.
Proof.
  intros Hle. unfold addIfMissing.
  destruct (Nat.ltb_spec (length h) draws); [rewrite length_app; simpl|]; lia.
Qed.

Lemma moveLastToFront_snoc h g : moveLastToFront (h ++ [g]) = Some (g :: h).
Proof.
  unfold moveLastToFront. now rewrite last_snoc, removelast_last.
Qed.

Lemma moveLastToFront_nil : moveLastToFront (@nil (Graph PPresult)) = None.
Proof. reflexivity. Qed.

Lemma length_moveLastToFront h h' :
  moveLastToFront h = Some h' -> length h' = length h.
Proof.
  destruct h as [|g h] using rev_ind; [discriminate|].
  rewrite moveLastToFront_snoc. intros [= <-].
  rewrite length_app. simpl. lia.
Qed.

Lemma length_writeFront data h h' :
  writeFront data h = Some h' -> length h' = length h.
Proof. destruct h; [discriminate|]. now intros [= <-]. Qed.

(** A history within the capacity is not shortened. *)
Lemma removeTooMuchStages_within fuel draws h :
  (length h <= draws)%nat -> removeTooMuchStages fuel draws h = [].
Proof.
  intros Hle. destruct fuel as [|fuel]; [reflexivity|]. simpl.
  destruct (Nat.ltb_spec draws (length h)); [lia|reflexivity].
Qed.

(** The loop only shortens the history. *)
Lemma removeTooMuchStages_shorter fuel draws h :
  Forall (fun h' => (length h' <= length h)%nat) (removeTooMuchStages fuel draws h).
Proof.
  revert h. induction fuel as [|fuel IH]; intros h; simpl; [constructor|].
  destruct (Nat.ltb_spec draws (length h)) as [Hlt|Hge]; [|constructor].
  unfold pop_back.
  assert (Hpop : (length (removelast h) <= length h)%nat).
  { rewrite removelast_firstn_len, length_take. lia. }
  constructor; [exact Hpop|].
  eapply Forall_impl; [apply IH|]. cbn beta. intros h' Hh'. lia.
Qed.

(** The loop passes through every length from that of the history down to
    the capacity. *)
Lemma removeTooMuchStages_passes fuel draws h (k : nat) :
  (length h - draws <= fuel)%nat ->
  (draws <= k < length h)%nat ->
  take k h ∈ removeTooMuchStages fuel draws h.
Proof.
  revert h. induction fuel as [|fuel IH]; intros h Hfuel Hk; [lia|]. simpl.
  destruct (Nat.ltb_spec draws (length h)) as [Hlt|Hge]; [|lia].
  unfold pop_back. rewrite removelast_firstn_len.
  destruct (Nat.eq_dec k (Nat.pred (length h))) as [->|Hne];
    [apply list_elem_of_here|].
  apply list_elem_of_further.
  replace (take k h) with (take k (take (Nat.pred (length h)) h))
    by (rewrite take_take; f_equal; lia).
  apply IH; rewrite length_take; lia.
Qed.

(** The values after the loop of one call are within the capacity. *)
Lemma showDataStages_tail_bounded data v :
  shaderCompileSuccess v = true ->
  let h1 := removeTooMuch (length (m_GraphHistory v)) (digitalPhosphorDraws v)
              (m_GraphHistory v) in
  let h2 := addIfMissing (digitalPhosphorDraws v) h1 in
  Forall (fun h => (length h <= digitalPhosphorDraws v)%nat)
         ([h1; h2] ++
          match moveLastToFront h2 with
          | Some h3 => h3 :: match writeFront data h3 with Some h4 => [h4] | None => [] end
          | None => []
          end).
Proof.
  intros _ h1 h2.
  assert (H1 : (length h1 <= digitalPhosphorDraws v)%nat).
  { subst h1. rewrite removeTooMuch_take by lia. rewrite length_take. lia. }
  pose proof (length_addIfMissing _ _ H1) as H2. fold h2 in H2.
  simpl. repeat constructor; try assumption.
  destruct (moveLastToFront h2) as [h3|] eqn:E3; [|constructor].
  apply length_moveLastToFront in E3.
  constructor; [lia|].
  destruct (writeFront data h3) as [h4|] eqn:E4; [|constructor].
  apply length_writeFront in E4. repeat constructor. lia.
Qed.

(** Every value the history takes during a call is within the capacity,
    when the history is within it at entry. *)
Lemma showDataStages_bounded data v :
  (length (m_GraphHistory v) <= digitalPhosphorDraws v)%nat ->
  Forall (fun h => (length h <= digitalPhosphorDraws v)%nat) (showDataStages data v).
Proof.
  intros Hentry. unfold showDataStages. constructor; [exact Hentry|].
  destruct (shaderCompileSuccess v) eqn:Hs; cbn [negb]; [|constructor].
  rewrite removeTooMuchStages_within by exact Hentry. cbn [app].
  now apply showDataStages_tail_bounded.
Qed.

(** Whatever the history is at entry, it holds during a call no more slots
    than the larger of its length at entry and the capacity. *)
Lemma showDataStages_bounded_any data v :
  Forall (fun h => (length h <= Nat.max (digitalPhosphorDraws v)
                                        (length (m_GraphHistory v)))%nat)
         (showDataStages data v).
Proof.
  unfold showDataStages. constructor; [lia|].
  destruct (shaderCompileSuccess v) eqn:Hs; cbn [negb]; [|constructor].
  apply Forall_app. split.
  - eapply Forall_impl; [apply removeTooMuchStages_shorter|].
    cbn beta. intros h' Hh'. lia.
  - eapply Forall_impl; [now apply showDataStages_tail_bounded|].
    cbn beta. intros h' Hh'. lia.
Qed.

Lemma showData_fields data v v' :
  showData data v = Some v' ->
  digitalPhosphorDraws v' = digitalPhosphorDraws v
  /\ shaderCompileSuccess v' = shaderCompileSuccess v.
Proof.
  unfold showData. destruct (shaderCompileSuccess v) eqn:E; simpl.
  - destruct (moveLastToFront _); simpl; [|discriminate].
    destruct (writeFront _ _); simpl; [|discriminate].
    intros [= <-]. simpl. auto.
  - intros [= <-]. auto.
Qed.

(** With the shaders compiled a call leaves the history within the
    capacity. *)
Lemma showData_within data v v' :
  showData data v = Some v' ->
  shaderCompileSuccess v = true ->
  (length (m_GraphHistory v') <= digitalPhosphorDraws v)%nat.
Proof.
  unfold showData. intros H Hs. rewrite Hs in H. cbn [negb] in H.
  set (h2 := addIfMissing _ _) in H.
  assert (H2 : (length h2 <= digitalPhosphorDraws v)%nat).
  { subst h2. apply length_addIfMissing.
    rewrite removeTooMuch_take by lia. rewrite length_take. lia. }
  destruct (moveLastToFront h2) as [h3|] eqn:E3; [|discriminate].
  apply length_moveLastToFront in E3. cbn in H.
  destruct (writeFront data h3) as [h4|] eqn:E4; [|discriminate].
  apply length_writeFront in E4. cbn in H. injection H as <-. cbn. lia.
Qed.

Lemma showAllStages_bounded frames v :
  (length (m_GraphHistory v) <= digitalPhosphorDraws v)%nat ->
  Forall (fun h => (length h <= digitalPhosphorDraws v)%nat) (showAllStages frames v).
Proof.
  revert v. induction frames as [|data frames IH]; intros v Hentry;
    cbn [showAllStages]; [constructor|].
  apply Forall_app. split; [now apply showDataStages_bounded|].
  destruct (showData data v) as [v'|] eqn:E; [|constructor].
  pose proof (showData_fields _ _ _ E) as [Hd Hs].
  rewrite <- Hd. apply IH. rewrite Hd.
  destruct (shaderCompileSuccess v) eqn:Hsv.
  - now apply (showData_within data).
  - unfold showData in E. rewrite Hsv in E. cbn in E. injection E as <-. exact Hentry.
Qed.

Lemma showAllStages_bounded_any frames v :
  Forall (fun h => (length h <= Nat.max (digitalPhosphorDraws v)
                                        (length (m_GraphHistory v)))%nat)
         (showAllStages frames v).
Proof.
  revert v. induction frames as [|data frames IH]; intros v;
    cbn [showAllStages]; [constructor|].
  apply Forall_app. split; [apply showDataStages_bounded_any|].
  destruct (showData data v) as [v'|] eqn:E; [|constructor].
  pose proof (showData_fields _ _ _ E) as [Hd Hs].
  destruct (shaderCompileSuccess v) eqn:Hsv.
  - pose proof (showData_within data v v' E Hsv) as Hlen.
    eapply Forall_impl; [apply showAllStages_bounded; lia|].
    cbn beta. intros h' Hh'. lia.
  - unfold showData in E. rewrite Hsv in E. cbn in E. injection E as <-. apply IH.
Qed.

(** One call on a history of written slots that is within a capacity of at
    least one: the new frame is put in front, and the oldest slot is dropped
    when the history was full. *)
Lemma showData_front data l v :
  (1 <= digitalPhosphorDraws v)%nat ->
  shaderCompileSuccess v = true ->
  m_GraphHistory v = Some <$> l ->
  (length l <= digitalPhosphorDraws v)%nat ->
  showData data v = Some (setHistory v (Some <$> take (digitalPhosphorDraws v) (data :: l))).
Proof.
  intros HC Hs Hh Hl. unfold showData. rewrite Hs. simpl.
  rewrite removeTooMuch_take by lia.
  rewrite Hh. rewrite take_ge by (rewrite length_fmap; lia).
  unfold addIfMissing. rewrite length_fmap.
  destruct (Nat.ltb_spec (length l) (digitalPhosphorDraws v)) as [Hlt|Hge].
  - rewrite moveLastToFront_snoc. simpl.
    rewrite (take_ge (data :: l)) by (simpl; lia). reflexivity.
  - assert (Hlen : length l = digitalPhosphorDraws v) by lia.
    destruct l as [|x l] using rev_ind; [simpl in Hlen; lia|]. clear IHl.
    rewrite fmap_app. simpl. rewrite moveLastToFront_snoc. simpl.
    rewrite length_app in Hlen. simpl in Hlen.
    destruct (digitalPhosphorDraws v) as [|n]; [lia|]. simpl.
    rewrite take_app_length' by lia. reflexivity.
Qed.

Lemma take_app_take (A : Type) (n : nat) (l k : list A) :
  take n (l ++ take n k) = take n (l ++ k).
Proof.
  rewrite !take_app, take_take. do 2 f_equal. lia.
Qed.

(** A run of calls puts the frames in front one after the other. *)
Lemma showAll_front frames l v :
  (1 <= digitalPhosphorDraws v)%nat ->
  shaderCompileSuccess v = true ->
  m_GraphHistory v = Some <$> l ->
  (length l <= digitalPhosphorDraws v)%nat ->
  showAll frames v
  = Some (setHistory v (Some <$> take (digitalPhosphorDraws v) (reverse frames ++ l))).
Proof.
  revert l v. induction frames as [|data frames IH]; intros l v HC Hs Hh Hl; simpl.
  - rewrite take_ge by lia. rewrite <- Hh. now destruct v.
  - rewrite (showData_front data l v) by assumption. simpl.
    rewrite (IH (take (digitalPhosphorDraws v) (data :: l))); simpl; try assumption.
    + unfold setHistory. simpl. rewrite take_app_take.
      rewrite reverse_cons, <- app_assoc. reflexivity.
    + reflexivity.
    + rewrite length_take. lia.
Qed.

Lemma showAll_shaders_not_compiled frames v :
  shaderCompileSuccess v = false -> showAll frames v = Some v.
Proof.
  intros Hs. induction frames as [|data frames IH]; simpl; [reflexivity|].
  unfold showData. rewrite Hs. simpl. exact IH.
Qed.

(** C2, as the code has it. With a capacity [C] of at least one and from an
    empty history: when the shaders are compiled, [N] calls of [showData]
    leave the [min N C] newest frames, the newest first (slot [i] holds the
    frame of the call [N - i]), and at no point of any of the calls does the
    history hold more than [C] slots; when they are not, every call returns
    at once and the history stays empty. *)
Theorem history_keeps_newest_frames (C : nat) frames v :
  (1 <= C)%nat ->
  digitalPhosphorDraws v = C ->
  m_GraphHistory v = [] ->
  (shaderCompileSuccess v = true ->
   exists v', showAll frames v = Some v'
     /\ m_GraphHistory v' = Some <$> take C (reverse frames)
     /\ length (m_GraphHistory v') = Nat.min (length frames) C
     /\ (forall i, (i < Nat.min (length frames) C)%nat ->
           exists data, frames !! (length frames - 1 - i)%nat = Some data
                        /\ m_GraphHistory v' !! i = Some (Some data))
     /\ Forall (fun h => (length h <= C)%nat) (showAllStages frames v))
  /\ (shaderCompileSuccess v = false -> showAll frames v = Some v).
Proof.
  intros HC Hdraws Hempty. split; [|apply showAll_shaders_not_compiled].
  intros Hshader.
  pose proof (showAll_front frames [] v) as Hrun.
  rewrite Hdraws, app_nil_r in Hrun.
  specialize (Hrun HC Hshader Hempty (Nat.le_0_l C)).
  eexists. split; [exact Hrun|]. cbn [m_GraphHistory setHistory].
  split; [reflexivity|].
  split; [rewrite length_fmap, length_take, length_reverse; lia|].
  split.
  - intros i Hi.
    assert (Hlt : (length frames - 1 - i < length frames)%nat) by lia.
    destruct (lookup_lt_is_Some_2 _ _ Hlt) as [data Hdata].
    exists data. split; [exact Hdata|].
    rewrite list_lookup_fmap, lookup_take_lt by lia.
    rewrite reverse_lookup by lia.
    replace (length frames - S i)%nat with (length frames - 1 - i)%nat by lia.
    now rewrite Hdata.
  - rewrite <- Hdraws. apply showAllStages_bounded. rewrite Hempty. cbn. lia.
Qed.

(** C8, as the code has it. With the shaders compiled, [showData] with a
    capacity of one is defined whatever the history holds, and leaves the new
    frame alone in it. With a capacity of zero it empties the history and then
    takes the last slot of the empty list: it has no result. *)
Theorem history_of_capacity_one data v :
  shaderCompileSuccess v = true ->
  (digitalPhosphorDraws v = 1%nat -> showData data v = Some (setHistory v [Some data]))
  /\ (digitalPhosphorDraws v = 0%nat -> showData data v = None).
Proof.
  intros Hshader. unfold showData. rewrite Hshader. cbn [negb].
  rewrite removeTooMuch_take by lia.
  split; intros ->.
  - destruct (m_GraphHistory v) as [|g h]; reflexivity.
  - rewrite take_0. reflexivity.
Qed.

End HistoryProperties.

(** ** Zoom mapping *)

Section ZoomProperties.

Variables DIVS_TIME DIVS_VOLTAGE : Q.
Hypothesis DIVS_TIME_pos : 0 < DIVS_TIME.

Lemma zoomWindow_ordered s : fst (zoomWindow s) <= snd (zoomWindow s).
Proof.
  unfold zoomWindow.
  destruct (Qlt_bool _ _) eqn:E; simpl.
  - apply Qlt_bool_iff in E. lra.
  - apply Qlt_bool_false in E. lra.
Qed.

(** The window has no width exactly when the two time markers coincide. *)
Lemma zoomWindow_width_zero s :
  snd (zoomWindow s) - fst (zoomWindow s) == 0 <-> getMarker s 0 == getMarker s 1.
Proof.
  unfold zoomWindow.
  destruct (Qlt_bool _ _) eqn:E; simpl; split; intros H; lra.
Qed.

Lemma mainToZoom_Some s x :
  ~ getMarker s 0 == getMarker s 1 ->
  mainToZoom DIVS_TIME s x
  = Some (((x - (1 # 2)) * DIVS_TIME - fst (zoomWindow s))
          / (snd (zoomWindow s) - fst (zoomWindow s))).
Proof.
  intros Hne. pose proof (zoomWindow_width_zero s) as Hw.
  unfold mainToZoom. destruct (zoomWindow s) as [m1 m2]; simpl in *.
  apply fdiv_Some. intros H. apply Hne, Hw, H.
Qed.

(** [mainToZoom] is the number of [mainToZoomValue]. *)
Lemma mainToZoomValue_Number s x v :
  mainToZoom DIVS_TIME s x = Some v <-> mainToZoomValue DIVS_TIME s x = Number v.
Proof.
  unfold mainToZoom, mainToZoomValue, quotient.
  destruct (zoomWindow s) as [m1 m2].
  destruct (fdiv _ _) as [u|].
  - split; intros [= ->]; reflexivity.
  - split; [discriminate|].
    destruct (Qlt_bool 0 _); [discriminate|]. destruct (Qlt_bool _ 0); discriminate.
Qed.

(** Without a width of the window the mapped position is an infinity on the
    side of the window on which the position lies, or NaN at the window. *)
Lemma mainToZoomValue_without_width s x :
  getMarker s 0 == getMarker s 1 ->
  let d := (x - (1 # 2)) * DIVS_TIME - getMarker s 0 in
  (0 < d -> mainToZoomValue DIVS_TIME s x = PlusInfinity)
  /\ (d < 0 -> mainToZoomValue DIVS_TIME s x = MinusInfinity)
  /\ (d == 0 -> mainToZoomValue DIVS_TIME s x = NotANumber).
Proof.
  intros He d. subst d.
  pose proof (zoomWindow_width_zero s) as Hw. apply Hw in He as Hz. clear Hw.
  assert (Hfst : fst (zoomWindow s) == getMarker s 0).
  { unfold zoomWindow. cbn zeta. destruct (Qlt_bool _ _); cbn [fst]; lra. }
  unfold mainToZoomValue, quotient.
  destruct (zoomWindow s) as [m1 m2]. cbn [fst snd] in *.
  rewrite (fdiv_None _ _ Hz).
  set (d := (x - (1 # 2)) * DIVS_TIME - m1).
  assert (Hd : d == (x - (1 # 2)) * DIVS_TIME - getMarker s 0) by (subst d; lra).
  rewrite <- Hd. clearbody d.
  destruct (Qlt_bool 0 d) eqn:E1;
    [apply Qlt_bool_iff in E1 | apply Qlt_bool_false in E1];
    (destruct (Qlt_bool d 0) eqn:E2;
     [apply Qlt_bool_iff in E2 | apply Qlt_bool_false in E2]);
    repeat split; intros; try reflexivity; exfalso; lra.
Qed.

(** The limits the widget gives the slider are a range. *)
Lemma setupTriggerPositionSlider_range s :
  minimum (setupTriggerPositionSlider s) <= maximum (setupTriggerPositionSlider s).
Proof. simpl. lra. Qed.

(** The slider after [adaptTriggerPositionSlider], from the mapped value. *)
Lemma adaptTriggerPositionSlider_Some (w : DsoWidget) (v : Q) :
  mainToZoom DIVS_TIME (scope w) (trigger_position (scope w)) = Some v ->
  exists w', adaptTriggerPositionSlider DIVS_TIME w = Some w'
    /\ scope w' = scope w
    /\ minimum (zoomTriggerPositionSlider w') = minimum (zoomTriggerPositionSlider w)
    /\ maximum (zoomTriggerPositionSlider w') = maximum (zoomTriggerPositionSlider w)
    /\ (minimum (zoomTriggerPositionSlider w) <= v <= maximum (zoomTriggerPositionSlider w) ->
        enabled (zoomTriggerPositionSlider w') = true
        /\ value (zoomTriggerPositionSlider w') = v)
    /\ (v < minimum (zoomTriggerPositionSlider w) ->
        enabled (zoomTriggerPositionSlider w') = false
        /\ value (zoomTriggerPositionSlider w') = minimum (zoomTriggerPositionSlider w))
    /\ (maximum (zoomTriggerPositionSlider w) < v ->
        minimum (zoomTriggerPositionSlider w) <= maximum (zoomTriggerPositionSlider w) ->
        enabled (zoomTriggerPositionSlider w') = false
        /\ value (zoomTriggerPositionSlider w') = maximum (zoomTriggerPositionSlider w))
    /\ updateMarkerDetails DIVS_VOLTAGE w'
       = setZoomTriggerPositionSlider (zoomTriggerPositionSlider w')
           (updateMarkerDetails DIVS_VOLTAGE w).
Proof.
  intros Hv. apply mainToZoomValue_Number in Hv.
  unfold adaptTriggerPositionSlider. cbn zeta. rewrite Hv. unfold between, lessThan.
  eexists. split; [reflexivity|]. simpl.
  set (sl := zoomTriggerPositionSlider w).
  destruct (Qle_bool (minimum sl) v) eqn:E1;
    [apply Qle_bool_iff in E1 | apply Qle_bool_false in E1];
    (destruct (Qle_bool v (maximum sl)) eqn:E2;
     [apply Qle_bool_iff in E2 | apply Qle_bool_false in E2]); simpl;
    (destruct (Qlt_bool v (minimum sl)) eqn:E3;
     [apply Qlt_bool_iff in E3 | apply Qlt_bool_false in E3]); simpl;
    repeat split; try reflexivity; intros; try reflexivity; exfalso; lra.
Qed.

Lemma adaptTriggerPositionSlider_follows (w : DsoWidget) (v : Q) :
  mainToZoom DIVS_TIME (scope w) (trigger_position (scope w)) = Some v ->
  minimum (zoomTriggerPositionSlider w) <= maximum (zoomTriggerPositionSlider w) ->
  exists w', adaptTriggerPositionSlider DIVS_TIME w = Some w'
    /\ sliderFollows (zoomTriggerPositionSlider w) (zoomTriggerPositionSlider w') v
    /\ zoomTriggerPositionSlider (updateMarkerDetails DIVS_VOLTAGE w')
       = zoomTriggerPositionSlider w'.
Proof.
  intros Hv Hrange.
  destruct (adaptTriggerPositionSlider_Some w v Hv)
    as (w' & Hw' & _ & Hmin & Hmax & Hin & Hlow & Hhigh & _).
  exists w'. split; [exact Hw'|]. split; [|reflexivity].
  unfold sliderFollows.
  split; [exact Hmin|]. split; [exact Hmax|]. split; [exact Hin|].
  split; [|split].
  - intros Hout.
    destruct (Qlt_le_dec v (minimum (zoomTriggerPositionSlider w))) as [Hl|Hl];
      [apply Hlow, Hl|].
    destruct (Qlt_le_dec (maximum (zoomTriggerPositionSlider w)) v) as [Hh|Hh];
      [apply Hhigh; assumption|].
    exfalso. apply Hout. split; assumption.
  - intros Hl. apply Hlow, Hl.
  - intros Hh. apply Hhigh; assumption.
Qed.

(** C1. When the two time markers differ, mapping a position of the main
    view into the zoom view and back gives the position again. *)
Theorem zoom_round_trip (s : DsoSettingsScope) (x : Q) :
  ~ getMarker s 0 == getMarker s 1 ->
  exists z, mainToZoom DIVS_TIME s x = Some z /\ zoomToMain DIVS_TIME s z == x.
Proof.
  intros Hne.
  pose proof (zoomWindow_width_zero s) as Hw.
  rewrite (mainToZoom_Some s x Hne). eexists. split; [reflexivity|].
  unfold zoomToMain.
  destruct (zoomWindow s) as [m1 m2]; simpl in *.
  field. split; [|lra]. intros H. apply Hne, Hw, H.
Qed.

(** C7. When the two time markers coincide, the width of the zoom window,
    which is the divisor of [mainToZoom] and the factor of [zoomToMain], is
    zero: [mainToZoom] divides by zero at every position, nothing in it
    checks the divisor, and [zoomToMain] maps every position to the same
    point. *)
Theorem zoom_window_without_width (s : DsoSettingsScope) (x : Q) :
  getMarker s 0 == getMarker s 1 ->
  snd (zoomWindow s) - fst (zoomWindow s) == 0
  /\ mainToZoom DIVS_TIME s x = None
  /\ zoomToMain DIVS_TIME s x == (1 # 2) + fst (zoomWindow s) / DIVS_TIME.
Proof.
  intros He.
  pose proof (zoomWindow_width_zero s) as Hw. apply Hw in He. clear Hw.
  unfold mainToZoom, zoomToMain.
  destruct (zoomWindow s) as [m1 m2]; simpl in *.
  split; [assumption|]. split.
  - apply fdiv_None, He.
  - assert (Hm : m2 == m1) by lra. rewrite Hm. unfold Qdiv. ring.
Qed.

(** The slider after [adaptTriggerPositionSlider], in every state. *)
Lemma adaptTriggerPositionSlider_value (w : DsoWidget) :
  minimum (zoomTriggerPositionSlider w) <= maximum (zoomTriggerPositionSlider w) ->
  exists w', adaptTriggerPositionSlider DIVS_TIME w = Some w'
    /\ scope w' = scope w
    /\ sliderFollowsValue (zoomTriggerPositionSlider w) (zoomTriggerPositionSlider w')
         (mainToZoomValue DIVS_TIME (scope w) (trigger_position (scope w)))
    /\ zoomTriggerPositionSlider (updateMarkerDetails DIVS_VOLTAGE w')
       = zoomTriggerPositionSlider w'.
Proof.
  intros Hrange.
  destruct (mainToZoomValue DIVS_TIME (scope w) (trigger_position (scope w))) as [v| | |]
    eqn:E.
  - apply mainToZoomValue_Number in E.
    destruct (adaptTriggerPositionSlider_Some w v E) as (w1 & Hw1 & Hs1 & _).
    destruct (adaptTriggerPositionSlider_follows w v E Hrange) as (w' & Hw' & Hf & Hkeep).
    rewrite Hw1 in Hw'. injection Hw' as <-.
    exists w1. split; [exact Hw1|]. split; [exact Hs1|]. split; [exact Hf|exact Hkeep].
  - unfold adaptTriggerPositionSlider. cbn zeta. rewrite E.
    eexists. split; [reflexivity|]. cbn. repeat split.
  - unfold adaptTriggerPositionSlider. cbn zeta. rewrite E.
    eexists. split; [reflexivity|]. cbn. repeat split.
  - unfold adaptTriggerPositionSlider. cbn zeta. rewrite E.
    eexists. split; [reflexivity|]. cbn. repeat split.
Qed.

(** C6. [adaptTriggerPositionSlider] maps the trigger position into the zoom
    view and sets the slider of the zoom view from the mapped value, in
    every state of the widget: enabled and at the value when the value is
    within the limits of the slider, disabled otherwise, at the lower limit
    when the value is below it and at the upper limit when it is above it.
    [updateMarker] does so after every move of a time marker, with the value
    mapped through the moved markers, also when the move puts one marker
    onto the other: the mapped value is then an infinity on the side on
    which the trigger lies, or NaN when the trigger lies on the markers,
    which is within no limits and leaves the slider at the upper one. *)
Theorem trigger_position_slider_follows_zoom (w : DsoWidget) :
  minimum (zoomTriggerPositionSlider w) <= maximum (zoomTriggerPositionSlider w) ->
  (exists w', adaptTriggerPositionSlider DIVS_TIME w = Some w'
     /\ sliderFollowsValue (zoomTriggerPositionSlider w) (zoomTriggerPositionSlider w')
          (mainToZoomValue DIVS_TIME (scope w) (trigger_position (scope w))))
  /\ (forall marker x,
        exists w', updateMarker DIVS_TIME DIVS_VOLTAGE marker x w = Some w'
          /\ scope w' = setMarker (scope w) marker x
          /\ sliderFollowsValue (zoomTriggerPositionSlider w) (zoomTriggerPositionSlider w')
               (mainToZoomValue DIVS_TIME (setMarker (scope w) marker x)
                                (trigger_position (scope w))))
  /\ (forall s pos v,
        mainToZoom DIVS_TIME s pos = Some v <-> mainToZoomValue DIVS_TIME s pos = Number v)
  /\ (forall s pos,
        getMarker s 0 == getMarker s 1 ->
        let d := (pos - (1 # 2)) * DIVS_TIME - getMarker s 0 in
        (0 < d -> mainToZoomValue DIVS_TIME s pos = PlusInfinity)
        /\ (d < 0 -> mainToZoomValue DIVS_TIME s pos = MinusInfinity)
        /\ (d == 0 -> mainToZoomValue DIVS_TIME s pos = NotANumber)).
Proof.
  intros Hrange. split; [|split; [|split]].
  - destruct (adaptTriggerPositionSlider_value w Hrange) as (w' & Hw' & _ & Hf & _).
    exists w'. auto.
  - intros marker x.
    destruct (adaptTriggerPositionSlider_value
                (setScope (setMarker (scope w) marker x) w) Hrange)
      as (w1 & Hw1 & Hs1 & Hf & Hkeep).
    exists (updateMarkerDetails DIVS_VOLTAGE w1).
    unfold updateMarker. rewrite Hw1. split; [reflexivity|].
    split; [exact Hs1|]. rewrite Hkeep. exact Hf.
  - apply mainToZoomValue_Number.
  - apply mainToZoomValue_without_width.
Qed.

End ZoomProperties.

(** ** Pointer events *)

Lemma deref_assign (s : DsoSettingsScope) (r : CursorRef) (c0 c : DsoSettingsScopeCursor) :
  deref s r = Some c0 -> deref (assign s r c) r = Some c.
Proof.
  destruct r as [|channel|channel]; simpl.
  - reflexivity.
  - rewrite list_lookup_alter_eq. destruct (voltage s !! channel); [reflexivity|discriminate].
  - rewrite list_lookup_alter_eq. destruct (spectrum s !! channel); [reflexivity|discriminate].
Qed.

Lemma assign_same (s : DsoSettingsScope) (r : CursorRef) (c : DsoSettingsScopeCursor) :
  deref s r = Some c -> assign s r c = s.
Proof.
  destruct s as [[hc tb fb] vs ss tp]. destruct r as [|channel|channel]; simpl.
  - now intros [= ->].
  - intros H. f_equal. apply list_eq. intros i.
    destruct (decide (channel = i)) as [->|Hne].
    + rewrite list_lookup_alter_eq. destruct (vs !! i) as [[vc vu vg]|]; [|reflexivity].
      simpl in *. now injection H as ->.
    + now rewrite list_lookup_alter_ne.
  - intros H. f_equal. apply list_eq. intros i.
    destruct (decide (channel = i)) as [->|Hne].
    + rewrite list_lookup_alter_eq. destruct (ss !! i) as [[sc su sm]|]; [|reflexivity].
      simpl in *. now injection H as ->.
    + now rewrite list_lookup_alter_ne.
Qed.

(** A write through a pointer keeps the number of channels, and with it the
    pointers the constructor makes. *)
Lemma makeCursorInfo_assign (s : DsoSettingsScope) (r : CursorRef) (c : DsoSettingsScopeCursor) :
  makeCursorInfo (assign s r c) = makeCursorInfo s.
Proof.
  unfold makeCursorInfo. destruct r; simpl; rewrite ?length_alter; reflexivity.
Qed.

(** Every cursor the constructor points to is there: the hypothesis
    [selectedCursorRef w = Some (r, c)] of the properties below holds for
    every selection of a view built over its settings. *)
Lemma validSelection_selected (w : World) :
  validSelection w -> exists r c, selectedCursorRef w = Some (r, c).
Proof.
  destruct w as [gl s]. unfold validSelection, selectedCursorRef. cbn [fst snd].
  intros [-> Hlt]. unfold makeCursorInfo in *.
  destruct (selectedCursor gl) as [|i]; simpl in *; [eauto|].
  rewrite length_app, !length_fmap, !length_seq in Hlt.
  destruct (Nat.lt_ge_cases i (length (voltage s))) as [Hv|Hv].
  - rewrite lookup_app_l by (rewrite length_fmap, length_seq; exact Hv).
    rewrite list_lookup_fmap, lookup_seq_lt by exact Hv. simpl.
    destruct (lookup_lt_is_Some_2 _ _ Hv) as [v ->]. simpl. eauto.
  - rewrite lookup_app_r by (rewrite length_fmap, length_seq; exact Hv).
    rewrite length_fmap, length_seq.
    assert (Hs : (i - length (voltage s) < length (spectrum s))%nat) by lia.
    rewrite list_lookup_fmap, lookup_seq_lt by exact Hs. simpl.
    destruct (lookup_lt_is_Some_2 _ _ Hs) as [sp ->]. simpl. eauto.
Qed.

Lemma markerRange_eq : markerRange = [0%N; 1%N].
Proof. reflexivity. Qed.

Lemma eventPosition_size (DIVS_TIME DIVS_VOLTAGE : Q) (gl gl' : GlScope) (event : QMouseEvent) :
  width gl' = width gl -> height gl' = height gl ->
  eventPosition DIVS_TIME DIVS_VOLTAGE gl' event = eventPosition DIVS_TIME DIVS_VOLTAGE gl event.
Proof. intros Hw Hh. unfold eventPosition. now rewrite Hw, Hh. Qed.

Section PointerProperties.

Variables DIVS_TIME DIVS_VOLTAGE : Q.

Abbreviation eventPosition := (eventPosition DIVS_TIME DIVS_VOLTAGE).
Abbreviation captureMarker := (captureMarker DIVS_TIME DIVS_VOLTAGE).
Abbreviation mousePressEvent := (mousePressEvent DIVS_TIME DIVS_VOLTAGE).
Abbreviation mouseMoveEvent := (mouseMoveEvent DIVS_TIME DIVS_VOLTAGE).
Abbreviation mouseReleaseEvent := (mouseReleaseEvent DIVS_TIME DIVS_VOLTAGE).
Abbreviation snapRadius := (snapRadius DIVS_TIME DIVS_VOLTAGE).
Abbreviation caught := (caught DIVS_TIME DIVS_VOLTAGE).

Implicit Types (w : World) (r : CursorRef) (c : DsoSettingsScopeCursor)
  (p : QPointF) (m : N) (a : Axis) (event : QMouseEvent).

(** A write through the selected pointer: what is written, and that the
    selection then reads the written cursor. *)
Lemma writeMarker_selected m p w r c :
  selectedCursorRef w = Some (r, c) ->
  writeMarker m p w
  = Some (addEffect (fst w) (markerWritten (selectedCursor (fst w)) m),
          assign (snd w) r (setPosition c m p))
  /\ selectedCursorRef (addEffect (fst w) (markerWritten (selectedCursor (fst w)) m),
                        assign (snd w) r (setPosition c m p))
     = Some (r, setPosition c m p).
Proof.
  intros H. unfold writeMarker. rewrite H. simpl. split; [reflexivity|].
  unfold selectedCursorRef in *. simpl.
  destruct (cursorInfo (fst w) !! selectedCursor (fst w)) as [r'|]; simpl in *; [|discriminate].
  destruct (deref (snd w) r') as [c'|] eqn:E; simpl in *; [|discriminate].
  injection H as -> ->. now rewrite (deref_assign _ _ _ _ E).
Qed.

(** *** The capture loop in closed form *)

Lemma Qlt_bool_min (d u v : Q) : Qlt_bool d (Qmin u v) = Qlt_bool d u && Qlt_bool d v.
Proof.
  apply eq_true_iff_eq. rewrite andb_true_iff, !Qlt_bool_iff.
  apply Q.min_glb_lt_iff.
Qed.

Hypothesis DIVS_TIME_pos : 0 < DIVS_TIME.
Hypothesis DIVS_VOLTAGE_pos : 0 < DIVS_VOLTAGE.

Lemma snapRadius_lt_scale_X : DIVS_TIME / 100 < DIVS_TIME.
Proof.
  apply Qlt_shift_div_r; lra.
Qed.

Lemma snapRadius_lt_scale_Y : DIVS_VOLTAGE / 100 < DIVS_VOLTAGE.
Proof.
  apply Qlt_shift_div_r; lra.
Qed.

Ltac by_comparisons :=
  repeat match goal with
         | |- context [Qlt_bool ?u ?v] =>
             is_var u; is_var v;
             let E := fresh "E" in
             destruct (Qlt_bool u v) eqn:E;
             [apply Qlt_bool_iff in E | apply Qlt_bool_false in E];
             cbn [andb orb negb fst snd px py setX setY]
         end;
  try reflexivity; exfalso; lra.

Lemma captureMarker_closed_form c p :
  captureMarker c p
  = if caught c p 1 AxisX || caught c p 1 AxisY then 1%N
    else if caught c p 0 AxisX || caught c p 0 AxisY then 0%N
    else NO_MARKER.
Proof.
  pose proof snapRadius_lt_scale_X as HX. pose proof snapRadius_lt_scale_Y as HY.
  unfold captureMarker, caught, capturable, axisDistance, snapRadius.
  rewrite markerRange_eq. cbn [fold_left]. unfold captureStep.
  generalize dependent (DIVS_TIME / 100). intros sx HX.
  generalize dependent (DIVS_VOLTAGE / 100). intros sy HY.
  set (d0x := Qabs (px (position c 0) - px p)).
  set (d1x := Qabs (px (position c 1) - px p)).
  set (d0y := Qabs (py (position c 0) - py p)).
  set (d1y := Qabs (py (position c 1) - py p)).
  clearbody d0x d1x d0y d1y.
  destruct (captureX (shape c)), (captureY (shape c));
    cbn [andb orb negb fst snd px py setX setY];
    rewrite ?Qlt_bool_min; cbn [andb orb negb fst snd px py setX setY].
  all: by_comparisons.
Qed.

(** *** What each handler does *)

Lemma mousePressEvent_outcome event w r c :
  zoomed (fst w) = false ->
  button event = LeftButton ->
  selectedCursorRef w = Some (r, c) ->
  mousePressEvent event w
  = Some (let p := eventPosition (fst w) event in
          let m := captureMarker c p in
          if (m =? NO_MARKER)%N then (setSelectedMarker (fst w) m, snd w)
          else
            let gl := addEffect (setSelectedMarker (fst w) m)
                                (markerWritten (selectedCursor (fst w)) m) in
            (if (selectedCursor (fst w) =? 0)%nat then addEffect gl (markerMoved m) else gl,
             assign (snd w) r (setPosition c m p))).
Proof.
  intros Hz Hb Hsel. unfold mousePressEvent. rewrite Hz, Hb, Hsel. simpl.
  destruct (captureMarker c _ =? NO_MARKER)%N eqn:E; simpl; [reflexivity|].
  set (m := captureMarker c _) in *.
  destruct (writeMarker_selected m (eventPosition (fst w) event)
              (setSelectedMarker (fst w) m, snd w) r c Hsel) as [-> _].
  simpl. now destruct (selectedCursor (fst w) =? 0)%nat.
Qed.

(** The loop of [mouseMoveEvent] over the markers. *)
Lemma moveAll_outcome p w r c :
  selectedCursorRef w = Some (r, c) ->
  exists w', fold_left (moveAllStep p) markerRange (Some w) = Some w'
    /\ selectedMarker (fst w') = 1%N
    /\ selectedCursorRef w' = Some (r, Cursor (shape c) p p)
    /\ effects (fst w')
       = effects (fst w)
         ++ [markerWritten (selectedCursor (fst w)) 0; markerMoved 0;
             markerWritten (selectedCursor (fst w)) 1; markerMoved 1]
    /\ zoomed (fst w') = zoomed (fst w)
    /\ width (fst w') = width (fst w) /\ height (fst w') = height (fst w)
    /\ selectedCursor (fst w') = selectedCursor (fst w).
Proof.
  intros Hsel. rewrite markerRange_eq. cbn [fold_left].
  unfold moveAllStep at 2. cbn [mbind option_bind].
  destruct (writeMarker_selected 0 p w r c Hsel) as [-> Hsel0].
  unfold moveAllStep. cbn [mbind option_bind].
  unfold emitMarkerMoved. cbn [fst snd].
  match goal with
  | |- context [writeMarker 1 p ?w0] =>
      destruct (writeMarker_selected 1 p w0 r (setPosition c 0 p)) as [-> Hsel'];
      [exact Hsel0|]
  end.
  eexists. split; [reflexivity|]. cbn [fst snd].
  repeat split; try reflexivity.
  - exact Hsel'.
  - simpl. rewrite <- !app_assoc. reflexivity.
Qed.

Lemma mouseMoveEvent_unanchored event w :
  zoomed (fst w) = false ->
  Z.land (buttons event) LeftButton <> 0%Z ->
  selectedMarker (fst w) = NO_MARKER ->
  mouseMoveEvent event w
  = fold_left (moveAllStep (eventPosition (fst w) event)) markerRange (Some w).
Proof.
  intros Hz Hb Hm. unfold mouseMoveEvent. rewrite Hz, Hm.
  apply Z.eqb_neq in Hb. rewrite Hb. reflexivity.
Qed.

Lemma mouseMoveEvent_anchored event w r c :
  zoomed (fst w) = false ->
  Z.land (buttons event) LeftButton <> 0%Z ->
  selectedCursorRef w = Some (r, c) ->
  (selectedMarker (fst w) < MARKER_COUNT)%N ->
  let m := selectedMarker (fst w) in
  let p := eventPosition (fst w) event in
  let w' := (addEffect (addEffect (fst w) (markerWritten (selectedCursor (fst w)) m))
                       (markerMoved m),
             assign (snd w) r (setPosition c m p)) in
  mouseMoveEvent event w = Some w'
  /\ selectedCursorRef w' = Some (r, setPosition c m p).
Proof.
  intros Hz Hb Hsel Hm m p w'. unfold mouseMoveEvent. rewrite Hz.
  apply Z.eqb_neq in Hb. rewrite Hb. cbn [negb andb].
  assert (Hno : (selectedMarker (fst w) =? NO_MARKER)%N = false).
  { apply N.eqb_neq. unfold MARKER_COUNT, NO_MARKER in *. lia. }
  rewrite Hno. apply N.ltb_lt in Hm. rewrite Hm.
  destruct (writeMarker_selected m p w r c Hsel) as [Hw Hsel'].
  fold m p. rewrite Hw. split; [reflexivity|]. exact Hsel'.
Qed.

Lemma mouseReleaseEvent_anchored event w r c :
  zoomed (fst w) = false ->
  button event = LeftButton ->
  selectedCursorRef w = Some (r, c) ->
  (selectedMarker (fst w) < MARKER_COUNT)%N ->
  let m := selectedMarker (fst w) in
  let p := eventPosition (fst w) event in
  mouseReleaseEvent event w
  = Some (setSelectedMarker
            (addEffect (addEffect (fst w) (markerWritten (selectedCursor (fst w)) m))
                       (markerMoved m))
            NO_MARKER,
          assign (snd w) r (setPosition c m p)).
Proof.
  intros Hz Hb Hsel Hm m p. unfold mouseReleaseEvent. rewrite Hz, Hb.
  apply N.ltb_lt in Hm. rewrite Hm. cbn [negb andb Z.eqb LeftButton Pos.eqb].
  destruct (writeMarker_selected m p w r c Hsel) as [Hw _].
  fold m p. rewrite Hw. reflexivity.
Qed.

Lemma mouseReleaseEvent_unanchored event w :
  (selectedMarker (fst w) <? MARKER_COUNT)%N = false ->
  mouseReleaseEvent event w
  = Some (if negb (zoomed (fst w)) && (button event =? LeftButton)%Z
          then (setSelectedMarker (fst w) NO_MARKER, snd w) else w).
Proof.
  intros Hm. unfold mouseReleaseEvent. rewrite Hm.
  now destruct (negb (zoomed (fst w)) && (button event =? LeftButton)%Z).
Qed.

Lemma selectedCursorRef_assign (gl gl' : GlScope) (s : DsoSettingsScope) r c c' :
  selectedCursorRef (gl, s) = Some (r, c) ->
  cursorInfo gl' = cursorInfo gl ->
  selectedCursor gl' = selectedCursor gl ->
  selectedCursorRef (gl', assign s r c') = Some (r, c').
Proof.
  unfold selectedCursorRef. cbn [fst snd]. intros H -> ->.
  destruct (cursorInfo gl !! selectedCursor gl) as [r'|]; simpl in *; [|discriminate].
  destruct (deref s r') as [c0|] eqn:E; simpl in *; [|discriminate].
  injection H as -> ->. now rewrite (deref_assign _ _ _ _ E).
Qed.

Lemma marker_cases m : (m < MARKER_COUNT)%N -> m = 0%N \/ m = 1%N.
Proof. unfold MARKER_COUNT. lia. Qed.

Lemma caught_0 c p a :
  caught c p 0 a = true
  <-> capturable (shape c) a = true /\ axisDistance c p 0 a < snapRadius a.
Proof.
  unfold caught. rewrite andb_true_r, andb_true_iff, Qlt_bool_iff. reflexivity.
Qed.

Lemma caught_1 c p a :
  caught c p 1 a = true
  <-> capturable (shape c) a = true /\ axisDistance c p 1 a < snapRadius a
      /\ axisDistance c p 1 a < axisDistance c p 0 a.
Proof.
  unfold caught. rewrite !andb_true_iff, !Qlt_bool_iff. tauto.
Qed.

(** The marker the loop selects, case by case. *)
Lemma captureMarker_cases c p :
  (captureMarker c p = 1%N /\ exists a, caught c p 1 a = true)
  \/ (captureMarker c p = 0%N /\ (exists a, caught c p 0 a = true)
                              /\ forall a, caught c p 1 a = false)
  \/ (captureMarker c p = NO_MARKER
      /\ forall a, caught c p 0 a = false /\ caught c p 1 a = false).
Proof.
  rewrite captureMarker_closed_form.
  destruct (caught c p 1 AxisX) eqn:E1x; [left; split; [reflexivity|eauto]|].
  destruct (caught c p 1 AxisY) eqn:E1y; [left; split; [reflexivity|eauto]|].
  right. cbn [orb].
  destruct (caught c p 0 AxisX) eqn:E0x;
    [left; split; [reflexivity|split; [eauto|intros []; assumption]]|].
  destruct (caught c p 0 AxisY) eqn:E0y;
    [left; split; [reflexivity|split; [eauto|intros []; assumption]]|].
  right. split; [reflexivity|]. intros []; split; assumption.
Qed.

(** No marker strictly within the snap radius of an axis on which the
    cursor can be caught: the loop selects none. *)
Lemma captureMarker_far c p :
  (forall m a, (m < MARKER_COUNT)%N -> capturable (shape c) a = true ->
               snapRadius a <= axisDistance c p m a) ->
  captureMarker c p = NO_MARKER.
Proof.
  intros Hfar.
  assert (H0lt : (0 < MARKER_COUNT)%N) by (unfold MARKER_COUNT; lia).
  assert (H1lt : (1 < MARKER_COUNT)%N) by (unfold MARKER_COUNT; lia).
  destruct (captureMarker_cases c p)
    as [[_ [a H]] | [[_ [[a H] _]] | [E _]]]; [exfalso|exfalso|exact E].
  - apply caught_1 in H as (Hc & Hs & _). specialize (Hfar 1%N a H1lt Hc). lra.
  - apply caught_0 in H as (Hc & Hs). specialize (Hfar 0%N a H0lt Hc). lra.
Qed.

Lemma newEffects_app w w' (k : list Effect) :
  effects (fst w') = effects (fst w) ++ k -> newEffects w w' = k.
Proof. intros H. unfold newEffects. rewrite H. apply drop_app_length. Qed.

Lemma newEffects_same w w' :
  effects (fst w') = effects (fst w) -> newEffects w w' = [].
Proof. intros H. unfold newEffects. rewrite H. apply drop_all. Qed.

(** A press selects the marker the loop found; a found marker is moved to
    the pointer, and nothing else happens to the settings. *)
Lemma mousePressEvent_selected event w r c :
  zoomed (fst w) = false ->
  button event = LeftButton ->
  selectedCursorRef w = Some (r, c) ->
  let p := eventPosition (fst w) event in
  let m := captureMarker c p in
  exists w', mousePressEvent event w = Some w'
    /\ selectedMarker (fst w') = m
    /\ (m <> NO_MARKER -> selectedCursorRef w' = Some (r, setPosition c m p))
    /\ (m = NO_MARKER ->
        snd w' = snd w /\ effects (fst w') = effects (fst w)
        /\ selectedCursorRef w' = Some (r, c))
    /\ zoomed (fst w') = zoomed (fst w)
    /\ width (fst w') = width (fst w) /\ height (fst w') = height (fst w).
Proof.
  intros Hz Hb Hsel p m.
  rewrite (mousePressEvent_outcome event w r c Hz Hb Hsel).
  eexists. split; [reflexivity|]. subst m p. cbn zeta.
  set (m := captureMarker c _).
  destruct (N.eqb_spec m NO_MARKER) as [E|E].
  - cbn [fst snd].
    split; [reflexivity|]. split; [congruence|].
    split; [intros _; split; [reflexivity|split; [reflexivity|exact Hsel]]|].
    split; [reflexivity|]. split; reflexivity.
  - split; [destruct (selectedCursor (fst w) =? 0)%nat; reflexivity|].
    split.
    { intros _. destruct w as [gl s].
      apply (selectedCursorRef_assign gl _ s r c); [exact Hsel| |];
        cbn [fst]; destruct (selectedCursor gl =? 0)%nat; reflexivity. }
    split; [congruence|].
    split; [|split]; destruct (selectedCursor (fst w) =? 0)%nat; reflexivity.
Qed.

(** C3, as the code has it. On a press of the left button in the main view,
    with [p] the pointer position and the axes on which the shape of the
    selected cursor can be caught: (1) when some marker is strictly within
    one hundredth of the full scale of such an axis, a marker is anchored and
    moved to [p] (the other marker stays), and the anchored marker is itself
    strictly within that radius on such an axis and the nearest marker on
    that axis; (2) for a cursor that can be caught on one axis only, the
    marker strictly within the radius that is nearest on that axis, the
    first one when both are as near, is the anchored one; (3) when every
    marker is at one hundredth of the full scale or farther on every such
    axis, no marker is anchored, and neither the settings nor the effects
    change. *)
Theorem press_anchors_marker_in_snap_area event w r c :
  zoomed (fst w) = false ->
  button event = LeftButton ->
  selectedCursorRef w = Some (r, c) ->
  let p := eventPosition (fst w) event in
  exists w', mousePressEvent event w = Some w'
    /\ ((exists m a, (m < MARKER_COUNT)%N /\ capturable (shape c) a = true
                     /\ axisDistance c p m a < snapRadius a) ->
        exists m a, (m < MARKER_COUNT)%N /\ capturable (shape c) a = true
          /\ axisDistance c p m a < snapRadius a
          /\ (forall m', (m' < MARKER_COUNT)%N ->
                         axisDistance c p m a <= axisDistance c p m' a)
          /\ selectedMarker (fst w') = m
          /\ selectedCursorRef w' = Some (r, setPosition c m p))
    /\ (forall m a,
          shape c <> RECTANGULAR ->
          (m < MARKER_COUNT)%N ->
          capturable (shape c) a = true ->
          axisDistance c p m a < snapRadius a ->
          (forall m', (m' < m)%N -> axisDistance c p m a < axisDistance c p m' a) ->
          (forall m', (m < m' < MARKER_COUNT)%N ->
                      axisDistance c p m a <= axisDistance c p m' a) ->
          selectedMarker (fst w') = m
          /\ selectedCursorRef w' = Some (r, setPosition c m p))
    /\ ((forall m a, (m < MARKER_COUNT)%N -> capturable (shape c) a = true ->
                     snapRadius a <= axisDistance c p m a) ->
        selectedMarker (fst w') = NO_MARKER
        /\ snd w' = snd w /\ effects (fst w') = effects (fst w)).
Proof.
  intros Hz Hb Hsel p.
  destruct (mousePressEvent_selected event w r c Hz Hb Hsel)
    as (w' & Hpress & Hm & Hhit & Hmiss & _).
  fold p in Hm, Hhit, Hmiss.
  exists w'. split; [exact Hpress|].
  assert (H0lt : (0 < MARKER_COUNT)%N) by (unfold MARKER_COUNT; lia).
  assert (H1lt : (1 < MARKER_COUNT)%N) by (unfold MARKER_COUNT; lia).
  assert (Hno0 : 0%N <> NO_MARKER) by discriminate.
  assert (Hno1 : 1%N <> NO_MARKER) by discriminate.
  destruct (captureMarker_cases c p)
    as [[E [a1 H1]] | [[E [[a0 H0] Hn1]] | [E Hn]]]; rewrite E in *.
  - (* marker 1 was caught *)
    apply caught_1 in H1 as (Hc1 & Hs1 & Hlt1).
    split; [|split].
    + intros _. exists 1%N, a1. repeat split; auto.
      intros m' Hm'. destruct (marker_cases m' Hm') as [-> | ->]; lra.
    + intros m a Hshape Hlt Hcap Hin Hbefore Hafter.
      destruct (marker_cases m Hlt) as [-> | ->]; [exfalso|auto].
      assert (a = a1) as ->.
      { destruct (shape c), a, a1; simpl in *; congruence. }
      specialize (Hafter 1%N). unfold MARKER_COUNT in Hafter.
      assert (axisDistance c p 0 a1 <= axisDistance c p 1 a1) by (apply Hafter; lia).
      lra.
    + intros Hfar. exfalso. specialize (Hfar 1%N a1 H1lt Hc1). lra.
  - (* marker 0 was caught, marker 1 was not *)
    apply caught_0 in H0 as (Hc0 & Hs0).
    assert (Hnear : forall a, capturable (shape c) a = true ->
                              axisDistance c p 0 a < snapRadius a ->
                              axisDistance c p 0 a <= axisDistance c p 1 a).
    { intros a Hc Hs. apply Qnot_lt_le. intros Hlt.
      assert (caught c p 1 a = true) as Hyes by (apply caught_1; repeat split; auto; lra).
      rewrite Hn1 in Hyes. discriminate. }
    split; [|split].
    + intros _. exists 0%N, a0. repeat split; auto.
      intros m' Hm'. destruct (marker_cases m' Hm') as [-> | ->]; [lra|auto].
    + intros m a Hshape Hlt Hcap Hin Hbefore Hafter.
      destruct (marker_cases m Hlt) as [-> | ->]; [auto|exfalso].
      assert (caught c p 1 a = true) as Hyes.
      { apply caught_1. split; [assumption|]. split; [assumption|]. apply Hbefore. lia. }
      rewrite Hn1 in Hyes. discriminate.
    + intros Hfar. exfalso. specialize (Hfar 0%N a0 H0lt Hc0). lra.
  - (* no marker was caught *)
    assert (Hout : forall m a, (m < MARKER_COUNT)%N -> capturable (shape c) a = true ->
                               snapRadius a <= axisDistance c p m a).
    { intros m a Hlt Hc. apply Qnot_lt_le. intros Hs.
      destruct (Hn a) as [Hn0 Hn1].
      assert (caught c p 0 a = false -> snapRadius a <= axisDistance c p 0 a) as H0.
      { intros Hf. apply Qnot_lt_le. intros Hs0.
        assert (caught c p 0 a = true) as Hyes by (apply caught_0; auto).
        congruence. }
      specialize (H0 Hn0).
      destruct (marker_cases m Hlt) as [-> | ->]; [lra|].
      assert (caught c p 1 a = true) as Hyes by (apply caught_1; repeat split; auto; lra).
      congruence. }
    split; [|split].
    + intros (m & a & Hlt & Hc & Hs). exfalso. specialize (Hout m a Hlt Hc). lra.
    + intros m a _ Hlt Hc Hs. exfalso. specialize (Hout m a Hlt Hc). lra.
    + intros _. destruct (Hmiss eq_refl) as (Hs & He & _). auto.
Qed.

(** C4. A press of the left button in the main view outside every snap zone
    of the selected cursor, then a move to [p1], then a move to [p2], the
    left button held: after the first move both markers are at [p1] and
    marker 1 is anchored; after the second move marker 1 is at [p2] and
    marker 0 still at [p1]. *)
Theorem unanchored_drag event0 event1 event2 w r c :
  zoomed (fst w) = false ->
  button event0 = LeftButton ->
  Z.land (buttons event1) LeftButton <> 0%Z ->
  Z.land (buttons event2) LeftButton <> 0%Z ->
  selectedCursorRef w = Some (r, c) ->
  (forall m a, (m < MARKER_COUNT)%N -> capturable (shape c) a = true ->
               snapRadius a <= axisDistance c (eventPosition (fst w) event0) m a) ->
  let p1 := eventPosition (fst w) event1 in
  let p2 := eventPosition (fst w) event2 in
  exists w0 w1 w2,
    mousePressEvent event0 w = Some w0
    /\ mouseMoveEvent event1 w0 = Some w1
    /\ mouseMoveEvent event2 w1 = Some w2
    /\ selectedMarker (fst w0) = NO_MARKER
    /\ selectedCursorRef w1 = Some (r, Cursor (shape c) p1 p1)
    /\ selectedMarker (fst w1) = 1%N
    /\ selectedCursorRef w2 = Some (r, Cursor (shape c) p1 p2).
Proof.
  intros Hz Hb0 Hb1 Hb2 Hsel Hfar p1 p2.
  apply captureMarker_far in Hfar.
  destruct (mousePressEvent_selected event0 w r c Hz Hb0 Hsel)
    as (w0 & Hpress & Hm0 & _ & Hmiss & Hz0 & Hw0 & Hh0).
  rewrite Hfar in Hm0. destruct (Hmiss Hfar) as (_ & _ & Hsel0).
  rewrite Hz in Hz0.
  destruct (moveAll_outcome (eventPosition (fst w0) event1) w0 r c Hsel0)
    as (w1 & Hmove1 & Hm1 & Hsel1 & _ & Hz1 & Hw1 & Hh1 & _).
  rewrite <- (mouseMoveEvent_unanchored event1 w0 Hz0 Hb1 Hm0) in Hmove1.
  rewrite (eventPosition_size _ _ (fst w) (fst w0) event1 Hw0 Hh0) in Hsel1. fold p1 in Hsel1.
  rewrite Hz0 in Hz1.
  assert (Hlt : (selectedMarker (fst w1) < MARKER_COUNT)%N)
    by (rewrite Hm1; unfold MARKER_COUNT; lia).
  destruct (mouseMoveEvent_anchored event2 w1 r _ Hz1 Hb2 Hsel1 Hlt) as [Hmove2 Hsel2].
  rewrite Hm1 in Hsel2, Hmove2.
  rewrite (eventPosition_size _ _ (fst w) (fst w1) event2) in Hsel2, Hmove2 by congruence.
  fold p2 in Hsel2, Hmove2.
  exists w0, w1. eexists.
  split; [exact Hpress|]. split; [exact Hmove1|]. split; [exact Hmove2|].
  split; [exact Hm0|]. split; [exact Hsel1|]. split; [exact Hm1|]. exact Hsel2.
Qed.

(** C10, as the code has it. Whatever cursor is selected, every write to a
    marker by [mouseMoveEvent] and by [mouseReleaseEvent] is followed at once
    by the signal [markerMoved] for that marker. The write of
    [mousePressEvent] to the marker it caught is followed by the signal when
    the selected cursor is that of the time markers (index 0), and by no
    signal otherwise. A handler that added no effect left the settings as
    they were. *)
Theorem marker_writes_are_signalled event w r c :
  selectedCursorRef w = Some (r, c) ->
  (exists w', mouseMoveEvent event w = Some w'
     /\ notified (newEffects w w') = true
     /\ (newEffects w w' = [] -> snd w' = snd w))
  /\ (exists w', mouseReleaseEvent event w = Some w'
     /\ notified (newEffects w w') = true
     /\ (newEffects w w' = [] -> snd w' = snd w))
  /\ (exists w', mousePressEvent event w = Some w'
     /\ (selectedCursor (fst w) = 0%nat -> notified (newEffects w w') = true)
     /\ (selectedCursor (fst w) <> 0%nat -> silent (newEffects w w') = true)
     /\ (newEffects w w' = [] -> snd w' = snd w)).
Proof.
  intros Hsel.
  assert (Hstay : exists w', Some w = Some w' /\ notified (newEffects w w') = true
                             /\ (newEffects w w' = [] -> snd w' = snd w)).
  { exists w. rewrite newEffects_same by reflexivity. auto. }
  split; [|split].
  - (* move *)
    destruct (zoomed (fst w)) eqn:Hz;
      [unfold mouseMoveEvent; rewrite Hz; exact Hstay|].
    destruct (Z.eq_dec (Z.land (buttons event) LeftButton) 0%Z) as [Hb|Hb];
      [unfold mouseMoveEvent; rewrite Hz, Hb; exact Hstay|].
    destruct (N.eq_dec (selectedMarker (fst w)) NO_MARKER) as [Hm|Hm].
    + rewrite (mouseMoveEvent_unanchored event w Hz Hb Hm).
      destruct (moveAll_outcome (eventPosition (fst w) event) w r c Hsel)
        as (w' & -> & _ & _ & He & _).
      exists w'. rewrite (newEffects_app _ _ _ He).
      split; [reflexivity|]. split; [reflexivity|discriminate].
    + destruct (N.ltb_spec (selectedMarker (fst w)) MARKER_COUNT) as [Hlt|Hge].
      * destruct (mouseMoveEvent_anchored event w r c Hz Hb Hsel Hlt) as [-> _].
        eexists. split; [reflexivity|].
        rewrite (newEffects_app _ _ [markerWritten (selectedCursor (fst w)) (selectedMarker (fst w));
                                     markerMoved (selectedMarker (fst w))])
          by (simpl; now rewrite <- app_assoc).
        simpl. rewrite N.eqb_refl. split; [reflexivity|discriminate].
      * unfold mouseMoveEvent. rewrite Hz.
        apply Z.eqb_neq in Hb. rewrite Hb.
        apply N.eqb_neq in Hm. rewrite Hm.
        apply N.ltb_ge in Hge. rewrite Hge. exact Hstay.
  - (* release *)
    destruct (zoomed (fst w)) eqn:Hz;
      [unfold mouseReleaseEvent; rewrite Hz; exact Hstay|].
    destruct (Z.eq_dec (button event) LeftButton) as [Hb|Hb].
    + destruct (N.ltb_spec (selectedMarker (fst w)) MARKER_COUNT) as [Hlt|Hge].
      * rewrite (mouseReleaseEvent_anchored event w r c Hz Hb Hsel Hlt).
        eexists. split; [reflexivity|].
        rewrite (newEffects_app _ _ [markerWritten (selectedCursor (fst w)) (selectedMarker (fst w));
                                     markerMoved (selectedMarker (fst w))])
          by (simpl; now rewrite <- app_assoc).
        simpl. rewrite N.eqb_refl. split; [reflexivity|discriminate].
      * apply N.ltb_ge in Hge. rewrite (mouseReleaseEvent_unanchored event w Hge).
        eexists. split; [reflexivity|].
        rewrite newEffects_same by (destruct (_ && _); reflexivity).
        split; [reflexivity|]. intros _. destruct (_ && _); reflexivity.
    + unfold mouseReleaseEvent. apply Z.eqb_neq in Hb. rewrite Hb, andb_false_r.
      exact Hstay.
  - (* press *)
    assert (Hstay' : exists w', Some w = Some w'
              /\ (selectedCursor (fst w) = 0%nat -> notified (newEffects w w') = true)
              /\ (selectedCursor (fst w) <> 0%nat -> silent (newEffects w w') = true)
              /\ (newEffects w w' = [] -> snd w' = snd w)).
    { exists w. rewrite newEffects_same by reflexivity. auto. }
    destruct (zoomed (fst w)) eqn:Hz;
      [unfold mousePressEvent; rewrite Hz; exact Hstay'|].
    destruct (Z.eq_dec (button event) LeftButton) as [Hb|Hb].
    + rewrite (mousePressEvent_outcome event w r c Hz Hb Hsel). cbn zeta.
      set (m := captureMarker c _).
      eexists. split; [reflexivity|].
      destruct (m =? NO_MARKER)%N.
      * rewrite newEffects_same by reflexivity. auto.
      * destruct (Nat.eqb_spec (selectedCursor (fst w)) 0) as [E|E].
        -- rewrite (newEffects_app _ _ [markerWritten (selectedCursor (fst w)) m; markerMoved m])
             by (simpl; now rewrite <- app_assoc).
           simpl. rewrite N.eqb_refl. split; [reflexivity|].
           split; [congruence|discriminate].
        -- rewrite (newEffects_app _ _ [markerWritten (selectedCursor (fst w)) m])
             by reflexivity.
           split; [congruence|]. split; [reflexivity|discriminate].
    + unfold mousePressEvent. apply Z.eqb_neq in Hb. rewrite Hb, andb_false_r.
      exact Hstay'.
Qed.

End PointerProperties.

(** ** Cursor geometry *)

Section GeometryProperties.

Variables DIVS_TIME DIVS_VOLTAGE : Q.

Lemma vaMarker_generateVertices (marker : nat) (cursor : DsoSettingsScopeCursor) (gl : GlScope) :
  (marker < length (vaMarker gl))%nat ->
  vaMarker (generateVertices DIVS_TIME DIVS_VOLTAGE marker cursor gl) !! marker
  = Some (cursorVertices DIVS_TIME DIVS_VOLTAGE cursor).
Proof.
  intros Hlt. unfold generateVertices. simpl. now apply list_lookup_insert_eq.
Qed.

Lemma cursorVertices_closedRectangle (cursor : DsoSettingsScopeCursor) :
  closedRectangle (cursorVertices DIVS_TIME DIVS_VOLTAGE cursor).
Proof.
  unfold cursorVertices. destruct (shape cursor); simpl; tauto.
Qed.

(** C5. [generateVertices] writes, at the place of the cursor, four vertices
    that form a closed loop with sides parallel to the axes: for [NONE] the
    rectangle over the whole scale, from [(-DIVS_TIME, -DIVS_VOLTAGE)] to
    [(DIVS_TIME, DIVS_VOLTAGE)]; for [VERTICAL] the rectangle over the whole
    vertical extent between [x = pos0.x] and [x = pos1.x]; for [HORIZONTAL]
    the rectangle over the whole horizontal extent between [y = pos0.y] and
    [y = pos1.y]; for [RECTANGULAR] the corners [(pos0.x, pos0.y)],
    [(pos0.x, pos1.y)], [(pos1.x, pos1.y)], [(pos1.x, pos0.y)]; so a
    rectangular cursor from [(-1, -1)] to [(1, 1)] has the corners [(-1, -1)],
    [(-1, 1)], [(1, 1)], [(1, -1)]. *)
Theorem cursor_geometry (marker : nat) (cursor : DsoSettingsScopeCursor) (gl : GlScope) :
  (marker < length (vaMarker gl))%nat ->
  let p0 := position cursor 0 in
  let p1 := position cursor 1 in
  exists vs,
    vaMarker (generateVertices DIVS_TIME DIVS_VOLTAGE marker cursor gl) !! marker = Some vs
    /\ length vs = 4%nat
    /\ closedRectangle vs
    /\ (shape cursor = NONE ->
        vs = [(- DIVS_TIME, - DIVS_VOLTAGE, 1); (- DIVS_TIME, DIVS_VOLTAGE, 1);
              (DIVS_TIME, DIVS_VOLTAGE, 1); (DIVS_TIME, - DIVS_VOLTAGE, 1)])
    /\ (shape cursor = VERTICAL ->
        vs = [(px p0, - DIVS_VOLTAGE, 1); (px p0, DIVS_VOLTAGE, 1);
              (px p1, DIVS_VOLTAGE, 1); (px p1, - DIVS_VOLTAGE, 1)])
    /\ (shape cursor = HORIZONTAL ->
        vs = [(- DIVS_TIME, py p0, 1); (DIVS_TIME, py p0, 1);
              (DIVS_TIME, py p1, 1); (- DIVS_TIME, py p1, 1)])
    /\ (shape cursor = RECTANGULAR ->
        vs = [(px p0, py p0, 1); (px p0, py p1, 1); (px p1, py p1, 1); (px p1, py p0, 1)])
    /\ (cursor = Cursor RECTANGULAR (QPoint (-1) (-1)) (QPoint 1 1) ->
        vs = [(-1, -1, 1); (-1, 1, 1); (1, 1, 1); (1, -1, 1)]).
Proof.
  intros Hlt p0 p1. exists (cursorVertices DIVS_TIME DIVS_VOLTAGE cursor).
  split; [now apply vaMarker_generateVertices|].
  split; [unfold cursorVertices; now destruct (shape cursor)|].
  split; [apply cursorVertices_closedRectangle|].
  unfold cursorVertices. subst p0 p1.
  repeat split; intros H; rewrite H; reflexivity.
Qed.

End GeometryProperties.

(** ** Marker measurements *)

Section MeasurementProperties.

Variables DIVS_TIME DIVS_VOLTAGE : Q.

Lemma length_updateVoltageCursor (s : DsoSettingsScope) (infos : list CursorInfo) (ch : nat) :
  length (updateVoltageCursor s infos ch) = length infos.
Proof.
  unfold updateVoltageCursor. destruct (voltage s !! ch) as [v|]; [|reflexivity].
  destruct (v_used v); apply length_alter.
Qed.

Lemma lookup_updateVoltageCursor_ne (s : DsoSettingsScope) (infos : list CursorInfo)
    (ch i : nat) :
  ch <> i -> updateVoltageCursor s infos ch !! i = infos !! i.
Proof.
  intros Hne. unfold updateVoltageCursor. destruct (voltage s !! ch) as [v|]; [|reflexivity].
  destruct (v_used v); now apply list_lookup_alter_ne.
Qed.

(** Channels other than [i] leave the entry [i] as it is. *)
Lemma fold_updateVoltageCursor_other (s : DsoSettingsScope) (chs : list nat)
    (infos : list CursorInfo) (i : nat) :
  i ∉ chs -> fold_left (updateVoltageCursor s) chs infos !! i = infos !! i.
Proof.
  revert infos. induction chs as [|ch chs IH]; intros infos Hnot; simpl; [reflexivity|].
  apply not_elem_of_cons in Hnot as [Hne Hnot].
  rewrite IH by assumption. apply lookup_updateVoltageCursor_ne. congruence.
Qed.

(** The loop over the channels updates the entry of channel [i] once. *)
Lemma fold_updateVoltageCursor_seq (s : DsoSettingsScope) (n : nat)
    (infos : list CursorInfo) (i : nat) :
  (i < n)%nat ->
  fold_left (updateVoltageCursor s) (seq 0 n) infos !! i
  = updateVoltageCursor s infos i !! i.
Proof.
  intros Hlt.
  replace n with (i + S (n - S i))%nat by lia.
  rewrite seq_app, fold_left_app. cbn [seq fold_left].
  rewrite fold_updateVoltageCursor_other
    by (rewrite elem_of_seq; lia).
  unfold updateVoltageCursor at 1 3.
  destruct (voltage s !! (0 + i)%nat) as [v|] eqn:E; simpl in E; rewrite E.
  - destruct (v_used v); rewrite !list_lookup_alter_eq;
      rewrite fold_updateVoltageCursor_other by (rewrite elem_of_seq; lia);
      reflexivity.
  - apply fold_updateVoltageCursor_other. rewrite elem_of_seq. lia.
Qed.

(** C9, as the code has it. For a used voltage channel with the markers of
    its cursor at [p0] and [p1], [updateMarkerDetails] computes the signed
    products [(p1.x - p0.x) * timebase], in seconds, and
    [(p1.y - p0.y) * gain], in volts, and hands them to the labels of the
    channel, which show them by the shape of the cursor: both for
    [RECTANGULAR], the time only for [VERTICAL], the voltage only for
    [HORIZONTAL], neither for [NONE]. With [p0 = (0, 0)], [p1 = (2, 1)], a
    gain of 0.5 and a timebase of 0.001 the two numbers are 0.002 and 0.5. *)
Theorem voltage_cursor_measurements (w : DsoWidget) (ch : nat) (v : DsoSettingsScopeVoltage) :
  voltage (scope w) !! ch = Some v ->
  v_used v = true ->
  (ch < length (voltageCursors w))%nat ->
  let p0 := position (v_cursor v) 0 in
  let p1 := position (v_cursor v) 1 in
  let deltaTime := (px p1 - px p0) * timebase (horizontal (scope w)) in
  let deltaVoltage := (py p1 - py p0) * v_gain v in
  exists info0 info,
    voltageCursors w !! ch = Some info0
    /\ voltageCursors (updateMarkerDetails DIVS_VOLTAGE w) !! ch = Some info
    /\ info = updateCursorInfo (Value deltaTime UNIT_SECONDS 4) (Value deltaVoltage UNIT_VOLTS 4)
                              (shape (v_cursor v)) (setSelectorEnabled true info0)
    /\ selectorEnabled info = true
    /\ (shape (v_cursor v) = RECTANGULAR ->
        deltaXLabel info = Value deltaTime UNIT_SECONDS 4
        /\ deltaYLabel info = Value deltaVoltage UNIT_VOLTS 4)
    /\ (shape (v_cursor v) = VERTICAL ->
        deltaXLabel info = Value deltaTime UNIT_SECONDS 4 /\ deltaYLabel info = Empty)
    /\ (shape (v_cursor v) = HORIZONTAL ->
        deltaXLabel info = Empty /\ deltaYLabel info = Value deltaVoltage UNIT_VOLTS 4)
    /\ (shape (v_cursor v) = NONE ->
        deltaXLabel info = Empty /\ deltaYLabel info = Empty)
    /\ (p0 = QPoint 0 0 -> p1 = QPoint 2 1 -> v_gain v = 1 # 2 ->
        timebase (horizontal (scope w)) = 1 # 1000 ->
        deltaTime == 2 # 1000 /\ deltaVoltage == 1 # 2).
Proof.
  intros Hv Hused Hlt p0 p1 deltaTime deltaVoltage.
  destruct (lookup_lt_is_Some_2 _ _ Hlt) as [info0 Hinfo0].
  exists info0. eexists. split; [exact Hinfo0|].
  split.
  { unfold updateMarkerDetails. cbn [voltageCursors].
    rewrite fold_updateVoltageCursor_seq by (eapply lookup_lt_Some; exact Hv).
    unfold updateVoltageCursor. rewrite Hv, Hused.
    rewrite list_lookup_alter_eq, Hinfo0. reflexivity. }
  unfold voltageDeltas, gain. rewrite Hv. cbn [fst snd from_option].
  fold p0 p1 deltaTime deltaVoltage.
  split; [reflexivity|].
  split; [now destruct (shape (v_cursor v))|].
  split; [intros ->; split; reflexivity|].
  split; [intros ->; split; reflexivity|].
  split; [intros ->; split; reflexivity|].
  split; [intros ->; split; reflexivity|].
  intros E0 E1 Eg Et. subst deltaTime deltaVoltage. rewrite E0, E1, Eg, Et.
  split; reflexivity.
Qed.

End MeasurementProperties.

(** * Further properties *)

(** ** The settings under writes through a pointer *)

Lemma assign_assign (s : DsoSettingsScope) (r : CursorRef) (c1 c2 : DsoSettingsScopeCursor) :
  assign (assign s r c1) r c2 = assign s r c2.
Proof.
  destruct r as [|channel|channel]; unfold assign; simpl.
  - reflexivity.
  - rewrite list_alter_alter_eq. reflexivity.
  - rewrite list_alter_alter_eq. reflexivity.
Qed.

Lemma deref_assign_ne (s : DsoSettingsScope) (r r' : CursorRef) (c : DsoSettingsScopeCursor) :
  r <> r' -> deref (assign s r c) r' = deref s r'.
Proof.
  intros Hne. destruct r as [|i|i], r' as [|j|j]; simpl; try reflexivity; try congruence.
  - destruct (decide (i = j)) as [->|Hij]; [congruence|].
    now rewrite list_lookup_alter_ne.
  - destruct (decide (i = j)) as [->|Hij]; [congruence|].
    now rewrite list_lookup_alter_ne.
Qed.

Lemma fmap_alter_same {A B : Type} (f : A -> B) (g : A -> A) (i : nat) (l : list A) :
  (forall x, f (g x) = f x) -> f <$> alter g i l = f <$> l.
Proof.
  intros H. revert i. induction l as [|x l IH]; intros [|i]; csimpl; f_equal; auto.
Qed.

Lemma sameChannels_assign (s : DsoSettingsScope) (r : CursorRef) (c : DsoSettingsScopeCursor) :
  sameChannels s (assign s r c).
Proof.
  unfold sameChannels.
  destruct r as [|channel|channel]; simpl; rewrite ?fmap_alter_same by reflexivity;
    repeat split; reflexivity.
Qed.

(** ** The stream of pointer events *)

Lemma selectedCursorRef_deref (w : World) (r : CursorRef) (c : DsoSettingsScopeCursor) :
  selectedCursorRef w = Some (r, c) ->
  cursorInfo (fst w) !! selectedCursor (fst w) = Some r /\ deref (snd w) r = Some c.
Proof.
  unfold selectedCursorRef.
  destruct (cursorInfo (fst w) !! selectedCursor (fst w)) as [r'|]; simpl; [|discriminate].
  destruct (deref (snd w) r') as [c'|] eqn:E; simpl; [|discriminate].
  intros [= <- <-]. auto.
Qed.

Lemma sameView_refl (gl : GlScope) : sameView gl gl.
Proof. repeat split. Qed.

Lemma sameView_trans (gl1 gl2 gl3 : GlScope) :
  sameView gl1 gl2 -> sameView gl2 gl3 -> sameView gl1 gl3.
Proof.
  unfold sameView. intros (?&?&?&?&?&?) (?&?&?&?&?&?). repeat split; congruence.
Qed.

Section EventProperties.

Variables DIVS_TIME DIVS_VOLTAGE : Q.

Abbreviation handle := (handle DIVS_TIME DIVS_VOLTAGE).
Abbreviation handleAll := (handleAll DIVS_TIME DIVS_VOLTAGE).
Abbreviation position_of := (eventPosition DIVS_TIME DIVS_VOLTAGE).

Implicit Types (w : World) (r : CursorRef) (c : DsoSettingsScopeCursor)
  (ev : PointerEvent) (evs : list PointerEvent).

(** The capture loop ends with one of the markers or with none. *)
Lemma captureMarker_markerOrNone c (p : QPointF) :
  markerOrNone (captureMarker DIVS_TIME DIVS_VOLTAGE c p).
Proof.
  unfold captureMarker. rewrite markerRange_eq. cbn [fold_left]. unfold captureStep.
  assert (H0 : markerOrNone 0) by (right; reflexivity).
  assert (H1 : markerOrNone 1) by (right; reflexivity).
  assert (HN : markerOrNone NO_MARKER) by (left; reflexivity).
  repeat match goal with
         | |- context [if ?b then _ else _] => destruct b; cbn [fst snd]
         end; assumption.
Qed.

(** The loop of [mouseMoveEvent] over the markers, as a state. *)
Lemma moveAll_world (p : QPointF) w r c :
  selectedCursorRef w = Some (r, c) ->
  exists w', fold_left (moveAllStep p) markerRange (Some w) = Some w'
    /\ sameView (fst w) (fst w')
    /\ selectedMarker (fst w') = 1%N
    /\ snd w' = assign (snd w) r (Cursor (shape c) p p)
    /\ selectedCursorRef w' = Some (r, Cursor (shape c) p p).
Proof.
  intros Hsel. rewrite markerRange_eq. cbn [fold_left].
  unfold moveAllStep at 2. cbn [mbind option_bind].
  destruct (writeMarker_selected 0 p w r c Hsel) as [-> Hsel0].
  unfold moveAllStep. cbn [mbind option_bind].
  unfold emitMarkerMoved. cbn [fst snd].
  match goal with
  | |- context [writeMarker 1 p ?w0] =>
      destruct (writeMarker_selected 1 p w0 r (setPosition c 0 p)) as [-> Hsel'];
      [exact Hsel0|]
  end.
  eexists. split; [reflexivity|]. cbn [fst snd].
  split; [repeat split|]. split; [reflexivity|].
  split; [apply assign_assign|]. exact Hsel'.
Qed.

(** One event: the view keeps its shape, the settings change by a write to
    the selected cursor at most, the written cursor keeps its shape, and each
    of its markers is where it was or where the pointer is. *)
Lemma handle_step ev w r c :
  selectedCursorRef w = Some (r, c) ->
  exists w' c',
    handle ev w = Some w'
    /\ sameView (fst w) (fst w')
    /\ snd w' = assign (snd w) r c'
    /\ selectedCursorRef w' = Some (r, c')
    /\ shape c' = shape c
    /\ (forall m, position c' m = position c m
                  \/ position c' m = position_of (fst w) (eventOf ev))
    /\ (markerOrNone (selectedMarker (fst w)) -> markerOrNone (selectedMarker (fst w'))).
Proof.
  intros Hsel.
  destruct (selectedCursorRef_deref w r c Hsel) as [_ Hderef].
  assert (Hstay : exists w' c',
             Some w = Some w'
             /\ sameView (fst w) (fst w')
             /\ snd w' = assign (snd w) r c'
             /\ selectedCursorRef w' = Some (r, c')
             /\ shape c' = shape c
             /\ (forall m, position c' m = position c m
                           \/ position c' m = position_of (fst w) (eventOf ev))
             /\ (markerOrNone (selectedMarker (fst w))
                 -> markerOrNone (selectedMarker (fst w')))).
  { exists w, c. split; [reflexivity|]. split; [apply sameView_refl|].
    split; [symmetry; apply assign_same, Hderef|]. auto. }
  assert (Hwrite : forall m (gl' : GlScope),
             (m < MARKER_COUNT)%N ->
             sameView (fst w) gl' ->
             sameView (fst w) gl'
             /\ assign (snd w) r (setPosition c m (position_of (fst w) (eventOf ev)))
                = assign (snd w) r (setPosition c m (position_of (fst w) (eventOf ev)))
             /\ selectedCursorRef
                  (gl', assign (snd w) r (setPosition c m (position_of (fst w) (eventOf ev))))
                = Some (r, setPosition c m (position_of (fst w) (eventOf ev)))
             /\ shape (setPosition c m (position_of (fst w) (eventOf ev))) = shape c
             /\ (forall m', position (setPosition c m (position_of (fst w) (eventOf ev))) m'
                            = position c m'
                            \/ position (setPosition c m (position_of (fst w) (eventOf ev))) m'
                               = position_of (fst w) (eventOf ev))).
  { intros m gl' Hm Hview. split; [exact Hview|]. split; [reflexivity|].
    split.
    { destruct w as [gl s]. destruct Hview as (_ & _ & _ & Hci & Hsc & _).
      apply (selectedCursorRef_assign gl gl' s r c); assumption. }
    destruct (marker_cases m Hm) as [-> | ->]; (split; [reflexivity|]);
      intros [|?]; simpl; auto. }
  destruct ev as [event|event|event]; cbn [handle eventOf] in *.
  - (* press *)
    destruct (zoomed (fst w)) eqn:Hz;
      [unfold mousePressEvent; rewrite Hz; exact Hstay|].
    destruct (Z.eq_dec (button event) LeftButton) as [Hb|Hb].
    + rewrite (mousePressEvent_outcome DIVS_TIME DIVS_VOLTAGE event w r c Hz Hb Hsel). cbn zeta.
      pose proof (captureMarker_markerOrNone c (position_of (fst w) event)) as Hcap.
      set (m := captureMarker _ _ c _) in *.
      destruct (N.eqb_spec m NO_MARKER) as [E|E].
      * exists (setSelectedMarker (fst w) m, snd w), c.
        split; [reflexivity|]. split; [repeat split|].
        split; [symmetry; apply assign_same, Hderef|].
        split; [exact Hsel|]. auto.
      * destruct Hcap as [Hcap|Hcap]; [contradiction|].
        eexists. exists (setPosition c m (position_of (fst w) event)).
        split; [reflexivity|]. cbn [fst snd].
        destruct (Hwrite m (if (selectedCursor (fst w) =? 0)%nat
                            then addEffect (addEffect (setSelectedMarker (fst w) m)
                                   (markerWritten (selectedCursor (fst w)) m)) (markerMoved m)
                            else addEffect (setSelectedMarker (fst w) m)
                                   (markerWritten (selectedCursor (fst w)) m)) Hcap)
          as (H1 & H2 & H3 & H4 & H5).
        { destruct (selectedCursor (fst w) =? 0)%nat; repeat split. }
        split; [exact H1|]. split; [exact H2|]. split; [exact H3|].
        split; [exact H4|]. split; [exact H5|].
        intros _. right. destruct (selectedCursor (fst w) =? 0)%nat; exact Hcap.
    + unfold mousePressEvent. apply Z.eqb_neq in Hb. rewrite Hb, andb_false_r.
      exact Hstay.
  - (* move *)
    destruct (zoomed (fst w)) eqn:Hz;
      [unfold mouseMoveEvent; rewrite Hz; exact Hstay|].
    destruct (Z.eq_dec (Z.land (buttons event) LeftButton) 0%Z) as [Hb|Hb];
      [unfold mouseMoveEvent; rewrite Hz, Hb; exact Hstay|].
    destruct (N.eq_dec (selectedMarker (fst w)) NO_MARKER) as [Hm|Hm].
    + rewrite (mouseMoveEvent_unanchored DIVS_TIME DIVS_VOLTAGE event w Hz Hb Hm).
      destruct (moveAll_world (position_of (fst w) event) w r c Hsel)
        as (w' & -> & Hview & Hm' & Hs' & Hsel').
      exists w', (Cursor (shape c) (position_of (fst w) event) (position_of (fst w) event)).
      split; [reflexivity|]. split; [exact Hview|]. split; [exact Hs'|].
      split; [exact Hsel'|]. split; [reflexivity|].
      split; [intros [|?]; right; reflexivity|].
      intros _. right. rewrite Hm'. reflexivity.
    + destruct (N.ltb_spec (selectedMarker (fst w)) MARKER_COUNT) as [Hlt|Hge].
      * destruct (mouseMoveEvent_anchored DIVS_TIME DIVS_VOLTAGE event w r c Hz Hb Hsel Hlt) as [-> _].
        eexists. exists (setPosition c (selectedMarker (fst w)) (position_of (fst w) event)).
        split; [reflexivity|]. cbn [fst snd].
        destruct (Hwrite (selectedMarker (fst w))
                    (addEffect (addEffect (fst w)
                       (markerWritten (selectedCursor (fst w)) (selectedMarker (fst w))))
                       (markerMoved (selectedMarker (fst w)))) Hlt)
          as (H1 & H2 & H3 & H4 & H5); [repeat split|].
        split; [exact H1|]. split; [exact H2|]. split; [exact H3|].
        split; [exact H4|]. split; [exact H5|]. intros _. right. exact Hlt.
      * unfold mouseMoveEvent. rewrite Hz.
        apply Z.eqb_neq in Hb. rewrite Hb.
        apply N.eqb_neq in Hm. rewrite Hm.
        apply N.ltb_ge in Hge. rewrite Hge. exact Hstay.
  - (* release *)
    destruct (zoomed (fst w)) eqn:Hz;
      [unfold mouseReleaseEvent; rewrite Hz; exact Hstay|].
    destruct (Z.eq_dec (button event) LeftButton) as [Hb|Hb].
    + destruct (N.ltb_spec (selectedMarker (fst w)) MARKER_COUNT) as [Hlt|Hge].
      * rewrite (mouseReleaseEvent_anchored DIVS_TIME DIVS_VOLTAGE event w r c Hz Hb Hsel Hlt).
        eexists. exists (setPosition c (selectedMarker (fst w)) (position_of (fst w) event)).
        split; [reflexivity|]. cbn [fst snd].
        destruct (Hwrite (selectedMarker (fst w))
                    (setSelectedMarker
                       (addEffect (addEffect (fst w)
                          (markerWritten (selectedCursor (fst w)) (selectedMarker (fst w))))
                          (markerMoved (selectedMarker (fst w)))) NO_MARKER) Hlt)
          as (H1 & H2 & H3 & H4 & H5); [repeat split|].
        split; [exact H1|]. split; [exact H2|]. split; [exact H3|].
        split; [exact H4|]. split; [exact H5|]. intros _. left. reflexivity.
      * apply N.ltb_ge in Hge. rewrite (mouseReleaseEvent_unanchored DIVS_TIME DIVS_VOLTAGE event w Hge).
        rewrite Hz, Hb. cbn [negb andb Z.eqb LeftButton Pos.eqb].
        exists (setSelectedMarker (fst w) NO_MARKER, snd w), c.
        split; [reflexivity|]. split; [repeat split|].
        split; [symmetry; apply assign_same, Hderef|].
        split; [exact Hsel|]. split; [reflexivity|]. split; [auto|].
        intros _. left. reflexivity.
    + unfold mouseReleaseEvent. apply Z.eqb_neq in Hb. rewrite Hb, andb_false_r.
      exact Hstay.
Qed.

(** Any number of events: as for one event, and each marker of the selected
    cursor is where it was or where the pointer was at one of the events. *)
Lemma handleAll_steps evs w r c :
  selectedCursorRef w = Some (r, c) ->
  exists w' c',
    handleAll evs w = Some w'
    /\ sameView (fst w) (fst w')
    /\ snd w' = assign (snd w) r c'
    /\ selectedCursorRef w' = Some (r, c')
    /\ shape c' = shape c
    /\ (forall m, position c' m = position c m
                  \/ exists ev, ev ∈ evs
                                /\ position c' m = position_of (fst w) (eventOf ev))
    /\ (markerOrNone (selectedMarker (fst w)) -> markerOrNone (selectedMarker (fst w'))).
Proof.
  revert w c. induction evs as [|ev evs IH]; intros w c Hsel.
  - destruct (selectedCursorRef_deref w r c Hsel) as [_ Hderef].
    exists w, c. split; [reflexivity|]. split; [apply sameView_refl|].
    split; [symmetry; apply assign_same, Hderef|]. auto.
  - destruct (handle_step ev w r c Hsel)
      as (w1 & c1 & Hh & Hview1 & Hs1 & Hsel1 & Hshape1 & Hpos1 & Hm1).
    destruct (IH w1 c1 Hsel1)
      as (w2 & c2 & Hh2 & Hview2 & Hs2 & Hsel2 & Hshape2 & Hpos2 & Hm2).
    exists w2, c2. simpl. rewrite Hh. simpl.
    split; [exact Hh2|]. split; [eapply sameView_trans; eassumption|].
    split; [rewrite Hs2, Hs1; apply assign_assign|].
    split; [exact Hsel2|]. split; [congruence|].
    split; [|auto].
    intros m. destruct (Hpos2 m) as [E2|(ev' & Hin & E2)].
    + destruct (Hpos1 m) as [E1|E1].
      * left. congruence.
      * right. exists ev. split; [apply list_elem_of_here|]. congruence.
    + right. exists ev'. split; [apply list_elem_of_further, Hin|].
      rewrite E2. destruct Hview1 as (_ & Hw & Hh' & _).
      apply eventPosition_size; assumption.
Qed.

(** X1. No event makes a handler reach outside [cursorInfo] or the channels: from
    a view built over its settings with one of its cursors selected, every
    stream of pointer events is handled to its end, the view is still the one
    built over the settings with the same cursor selected, and the active
    marker is marker 0, marker 1 or none, so that the branch of
    [mouseMoveEvent] for other indices is never taken. *)
Theorem pointer_events_keep_the_selection_valid evs w :
  validSelection w ->
  markerOrNone (selectedMarker (fst w)) ->
  exists w', handleAll evs w = Some w'
    /\ validSelection w'
    /\ selectedCursor (fst w') = selectedCursor (fst w)
    /\ markerOrNone (selectedMarker (fst w')).
Proof.
  intros Hvalid Hmarker.
  destruct (validSelection_selected w Hvalid) as (r & c & Hsel).
  destruct (handleAll_steps evs w r c Hsel)
    as (w' & c' & Hh & (_ & _ & _ & Hci & Hsc & _) & Hs & _ & _ & _ & Hm).
  exists w'. split; [exact Hh|]. split; [|split; [exact Hsc|auto]].
  destruct Hvalid as [Hinfo Hlt]. unfold validSelection.
  rewrite Hci, Hsc, Hs, makeCursorInfo_assign. auto.
Qed.

(** X2. Pointer events write to the markers of the selected cursor and to
    nothing else of the settings: after any stream of events the selected
    cursor has its shape, every other cursor is as it was, the time bases,
    the trigger position and the channels with their gains and flags are as
    they were, and each marker of the selected cursor is where it was or
    where the pointer was at one of the events.  (Nothing is said of
    [vaMarker]: the widget connects [markerMoved] to [markerUpdated], which
    writes it anew from the settings at every signal.) *)
Theorem pointer_events_move_markers_of_the_selected_cursor_only evs w r c :
  selectedCursorRef w = Some (r, c) ->
  exists w' c',
    handleAll evs w = Some w'
    /\ selectedCursorRef w' = Some (r, c')
    /\ shape c' = shape c
    /\ (forall m, position c' m = position c m
                  \/ exists ev, ev ∈ evs
                                /\ position c' m = position_of (fst w) (eventOf ev))
    /\ (forall r', r' <> r -> deref (snd w') r' = deref (snd w) r')
    /\ sameChannels (snd w) (snd w').
Proof.
  intros Hsel.
  destruct (handleAll_steps evs w r c Hsel)
    as (w' & c' & Hh & Hview & Hs & Hsel' & Hshape & Hpos & _).
  exists w', c'. split; [exact Hh|]. split; [exact Hsel'|]. split; [exact Hshape|].
  split; [exact Hpos|]. rewrite Hs.
  split; [intros r' Hne; apply deref_assign_ne; congruence|].
  apply sameChannels_assign.
Qed.

(** X3. The zoomed view is read only, and so is every view for events without the
    left button: such a stream of events changes neither the view nor the
    settings, and adds no effect. *)
Theorem pointer_events_without_effect evs w :
  (zoomed (fst w) = true \/ Forall (fun ev => withoutLeftButton ev = true) evs) ->
  handleAll evs w = Some w.
Proof.
  intros H. induction evs as [|ev evs IH]; [reflexivity|].
  assert (Hev : handle ev w = Some w).
  { destruct H as [Hz|Hall].
    - destruct ev; simpl;
        [unfold mousePressEvent|unfold mouseMoveEvent|unfold mouseReleaseEvent];
        rewrite Hz; reflexivity.
    - apply Forall_cons in Hall as [Hev _].
      destruct ev; simpl in *;
        [unfold mousePressEvent|unfold mouseMoveEvent|unfold mouseReleaseEvent].
      + apply negb_true_iff in Hev. rewrite Hev, andb_false_r. reflexivity.
      + rewrite Hev, andb_false_r. reflexivity.
      + apply negb_true_iff in Hev. rewrite Hev, andb_false_r. reflexivity. }
  simpl. rewrite Hev. simpl. apply IH.
  destruct H as [Hz|Hall]; [left; exact Hz|right].
  apply Forall_cons in Hall as [_ Hall]. exact Hall.
Qed.

Lemma setPosition_twice c (m : N) (p q : QPointF) :
  setPosition (setPosition c m p) m q = setPosition c m q.
Proof. destruct m as [|[?|?|]]; reflexivity. Qed.

Lemma position_setPosition_other c (m m' : N) (p : QPointF) :
  (m < MARKER_COUNT)%N -> (m' < MARKER_COUNT)%N -> m' <> m ->
  position (setPosition c m p) m' = position c m'.
Proof.
  intros Hm Hm' Hne.
  destruct (marker_cases m Hm) as [-> | ->], (marker_cases m' Hm') as [-> | ->];
    try reflexivity; congruence.
Qed.

(** X4. A drag that starts on a marker moves that marker and no other: when the
    press in the main view anchors a marker, that marker is at the pointer
    after the press, after a move with the left button held and after the
    release, the other marker stays where it was, and the release ends the
    drag. *)
Theorem drag_of_the_anchored_marker event0 event1 event2 w r c :
  zoomed (fst w) = false ->
  button event0 = LeftButton ->
  Z.land (buttons event1) LeftButton <> 0%Z ->
  button event2 = LeftButton ->
  selectedCursorRef w = Some (r, c) ->
  exists w0,
    mousePressEvent DIVS_TIME DIVS_VOLTAGE event0 w = Some w0
    /\ (selectedMarker (fst w0) <> NO_MARKER ->
        (selectedMarker (fst w0) < MARKER_COUNT)%N
        /\ exists w1 w2 c2,
             mouseMoveEvent DIVS_TIME DIVS_VOLTAGE event1 w0 = Some w1
             /\ mouseReleaseEvent DIVS_TIME DIVS_VOLTAGE event2 w1 = Some w2
             /\ selectedCursorRef w0
                = Some (r, setPosition c (selectedMarker (fst w0)) (position_of (fst w) event0))
             /\ selectedCursorRef w1
                = Some (r, setPosition c (selectedMarker (fst w0)) (position_of (fst w) event1))
             /\ selectedMarker (fst w1) = selectedMarker (fst w0)
             /\ selectedCursorRef w2 = Some (r, c2)
             /\ position c2 (selectedMarker (fst w0)) = position_of (fst w) event2
             /\ (forall m, (m < MARKER_COUNT)%N -> m <> selectedMarker (fst w0) ->
                           position c2 m = position c m)
             /\ shape c2 = shape c
             /\ selectedMarker (fst w2) = NO_MARKER).
Proof.
  intros Hz Hb0 Hb1 Hb2 Hsel.
  destruct (mousePressEvent_selected DIVS_TIME DIVS_VOLTAGE event0 w r c Hz Hb0 Hsel)
    as (w0 & Hpress & Hm0 & Hhit & _ & Hz0 & Hw0 & Hh0).
  exists w0. split; [exact Hpress|]. intros Hne.
  pose proof (captureMarker_markerOrNone c (position_of (fst w) event0)) as Hcap.
  rewrite <- Hm0 in Hcap, Hhit. destruct Hcap as [Hcap|Hlt]; [contradiction|].
  split; [exact Hlt|].
  specialize (Hhit Hne). rewrite Hz in Hz0.
  destruct (mouseMoveEvent_anchored DIVS_TIME DIVS_VOLTAGE event1 w0 r _ Hz0 Hb1 Hhit Hlt)
    as [Hmove Hsel1].
  rewrite setPosition_twice in Hsel1, Hmove.
  rewrite (eventPosition_size _ _ (fst w) (fst w0) event1 Hw0 Hh0) in Hsel1, Hmove.
  set (m := selectedMarker (fst w0)) in *.
  match type of Hmove with _ = Some ?x => set (w1 := x) in * end.
  assert (Hm1 : selectedMarker (fst w1) = m) by reflexivity.
  assert (Hlt1 : (selectedMarker (fst w1) < MARKER_COUNT)%N) by (rewrite Hm1; exact Hlt).
  assert (Hz1 : zoomed (fst w1) = false) by exact Hz0.
  pose proof (mouseReleaseEvent_anchored DIVS_TIME DIVS_VOLTAGE event2 w1 r _
                Hz1 Hb2 Hsel1 Hlt1) as Hrel.
  cbn zeta in Hrel. rewrite Hm1, setPosition_twice in Hrel.
  assert (Hsize : position_of (fst w1) event2 = position_of (fst w) event2)
    by (apply eventPosition_size; assumption).
  rewrite Hsize in Hrel.
  eexists w1, _, (setPosition c m (position_of (fst w) event2)).
  split; [exact Hmove|]. split; [exact Hrel|].
  split; [exact Hhit|]. split; [exact Hsel1|]. split; [exact Hm1|].
  split.
  { destruct w as [gl s]. cbn [fst snd] in *.
    apply (selectedCursorRef_assign (fst w1) _ (snd w1) r
             (setPosition c m (position_of gl event1))); [|reflexivity|reflexivity].
    destruct w1; exact Hsel1. }
  split; [destruct (marker_cases m Hlt) as [-> | ->]; reflexivity|].
  split; [intros m' Hm' Hne'; now apply position_setPosition_other|].
  split; [destruct (marker_cases m Hlt) as [-> | ->]; reflexivity|reflexivity].
Qed.

(** A quotient by a positive number between two bounds. *)
Lemma Qdiv_between (a b w : Q) :
  0 < w -> 0 <= b -> - w <= 2 * a <= w ->
  - b / 2 <= a * b / w <= b / 2.
Proof.
  intros Hw Hb [Hlo Hhi]. split.
  - apply Qle_shift_div_l; [exact Hw|].
    assert (0 <= b * (2 * a + w)) by (apply Qmult_le_0_compat; lra).
    setoid_replace (- b / 2 * w) with (- (b * w) * (1 # 2)) using relation Qeq by field. lra.
  - apply Qle_shift_div_r; [exact Hw|].
    assert (0 <= b * (w - 2 * a)) by (apply Qmult_le_0_compat; lra).
    setoid_replace (b / 2 * w) with ((b * w) * (1 # 2)) using relation Qeq by field. lra.
Qed.

(** X5. A pointer inside the view is inside the grid: a pixel of a view of
    positive size is at most half the divisions of time from the centre along
    x and at most half the divisions of voltage along y, and the pixel in the
    middle of the view is the origin. *)
Theorem pointer_in_the_view_is_in_the_grid (gl : GlScope) (event : QMouseEvent) :
  0 < DIVS_TIME ->
  0 < DIVS_VOLTAGE ->
  (0 <= ev_x event < width gl)%Z ->
  (0 <= ev_y event < height gl)%Z ->
  (- DIVS_TIME / 2 <= px (position_of gl event) <= DIVS_TIME / 2)
  /\ (- DIVS_VOLTAGE / 2 <= py (position_of gl event) <= DIVS_VOLTAGE / 2)
  /\ (ev_x event = Z.quot (width gl) 2 -> px (position_of gl event) == 0)
  /\ (ev_y event = Z.quot (height gl) 2 -> py (position_of gl event) == 0).
Proof.
  intros HT HV Hx Hy. unfold eventPosition. cbn [px py].
  assert (Hhalf : forall n k : Z, (0 <= k < n)%Z ->
            (- n <= 2 * (k - Z.quot n 2) <= n)%Z /\ (- n <= 2 * (Z.quot n 2 - k) <= n)%Z).
  { intros n k Hk.
    pose proof (Z.quot_rem' n 2) as Hqr.
    pose proof (Z.rem_bound_pos n 2 ltac:(lia) ltac:(lia)) as Hr. lia. }
  assert (Hinj : forall n a : Z, (0 < n)%Z -> (- n <= 2 * a <= n)%Z ->
            0 < inject_Z n /\ - inject_Z n <= 2 * inject_Z a <= inject_Z n).
  { intros n a Hn [Hlo Hhi]. split; [|split].
    - change 0 with (inject_Z 0). rewrite <- Zlt_Qlt. exact Hn.
    - rewrite <- inject_Z_opp. change 2 with (inject_Z 2).
      rewrite <- inject_Z_mult, <- Zle_Qle. exact Hlo.
    - change 2 with (inject_Z 2). rewrite <- inject_Z_mult, <- Zle_Qle. exact Hhi. }
  destruct (Hhalf (width gl) (ev_x event) Hx) as [Hxa _].
  destruct (Hhalf (height gl) (ev_y event) Hy) as [_ Hya].
  destruct (Hinj (width gl) _ ltac:(lia) Hxa) as [Hw Hxq].
  destruct (Hinj (height gl) _ ltac:(lia) Hya) as [Hh Hyq].
  split; [apply Qdiv_between; [exact Hw|lra|exact Hxq]|].
  split; [apply Qdiv_between; [exact Hh|lra|exact Hyq]|].
  split; intros ->; rewrite Z.sub_diag; unfold Qdiv; ring.
Qed.

End EventProperties.

(** ** The history of graphs after a change of the capacity *)

Section HistoryCapacity.

Context {PPresult : Type}.

Implicit Types (h : list (Graph PPresult)) (frames : list PPresult)
  (v : GraphView PPresult) (data : PPresult).

(** One call on any history, within the capacity or not, whatever its slots
    hold. *)
Lemma showData_any_history data v :
  (1 <= digitalPhosphorDraws v)%nat ->
  shaderCompileSuccess v = true ->
  showData data v
  = Some (setHistory v (Some data :: take (digitalPhosphorDraws v - 1) (m_GraphHistory v))).
Proof.
  intros HC Hs. unfold showData. rewrite Hs. cbn [negb].
  rewrite removeTooMuch_take by lia.
  set (C := digitalPhosphorDraws v) in *. set (h := m_GraphHistory v).
  unfold addIfMissing. rewrite length_take.
  destruct (Nat.ltb_spec (Nat.min C (length h)) C) as [Hlt|Hge].
  - rewrite moveLastToFront_snoc. cbn.
    rewrite !take_ge by lia. reflexivity.
  - assert (Hlen : (C <= length h)%nat) by lia.
    assert (Htake : take C h = take (C - 1) h ++ drop (C - 1) (take C h)).
    { rewrite <- (take_drop (C - 1) (take C h)) at 1.
      rewrite take_take. do 2 f_equal. lia. }
    destruct (drop (C - 1) (take C h)) as [|g [|g' rest]] eqn:Hdrop.
    + apply (f_equal length) in Hdrop. rewrite length_drop, length_take in Hdrop.
      simpl in Hdrop. lia.
    + rewrite Htake, moveLastToFront_snoc. reflexivity.
    + apply (f_equal length) in Hdrop. rewrite length_drop, length_take in Hdrop.
      simpl in Hdrop. lia.
Qed.

(** X6. The capacity is read anew at every call, so it may have been
    lowered or raised since the history was filled. With the shaders
    compiled and a capacity [C] of at least one, a run of one call or more
    on any history [h], longer than [C] or not, leaves the first [C] slots
    of the new frames, newest first, followed by [h]. A history longer than
    [C] is over the capacity while the first call shortens it: it passes
    through every length from its own down to [C], one [pop_back] at a time,
    and never holds more slots than it had; from the end of the first call
    on it stays within [C]. Under a raised capacity it grows by one slot for
    each call. *)
Theorem history_after_a_change_of_capacity frames v :
  (1 <= digitalPhosphorDraws v)%nat ->
  shaderCompileSuccess v = true ->
  frames <> [] ->
  exists v',
    showAll frames v = Some v'
    /\ m_GraphHistory v'
       = take (digitalPhosphorDraws v) ((Some <$> reverse frames) ++ m_GraphHistory v)
    /\ length (m_GraphHistory v')
       = Nat.min (digitalPhosphorDraws v) (length frames + length (m_GraphHistory v))
    /\ digitalPhosphorDraws v' = digitalPhosphorDraws v
    /\ Forall (fun h => (length h <= Nat.max (digitalPhosphorDraws v)
                                             (length (m_GraphHistory v)))%nat)
              (showAllStages frames v)
    /\ (forall k, (digitalPhosphorDraws v <= k <= length (m_GraphHistory v))%nat ->
          take k (m_GraphHistory v) ∈ showAllStages frames v)
    /\ (forall data rest v1,
          frames = data :: rest ->
          showData data v = Some v1 ->
          Forall (fun h => (length h <= digitalPhosphorDraws v)%nat)
                 (showAllStages rest v1)).
Proof.
  intros HC Hs Hne.
  assert (Hrun : showAll frames v
                 = Some (setHistory v (take (digitalPhosphorDraws v)
                                         ((Some <$> reverse frames) ++ m_GraphHistory v)))).
  { clear -HC Hs Hne. revert v HC Hs Hne.
    induction frames as [|data frames IH]; intros v HC Hs Hne; [congruence|].
    cbn [showAll]. rewrite showData_any_history by assumption. cbn [mbind option_bind].
    set (C := digitalPhosphorDraws v) in *.
    assert (Hstep : Some data :: take (C - 1) (m_GraphHistory v)
                    = take C (Some data :: m_GraphHistory v)).
    { destruct C as [|C']; [lia|]. cbn. do 2 f_equal. lia. }
    destruct frames as [|data' frames'].
    - cbn [showAll]. rewrite Hstep. reflexivity.
    - rewrite IH; [|exact HC|exact Hs|discriminate].
      unfold setHistory. cbn [digitalPhosphorDraws shaderCompileSuccess m_GraphHistory].
      fold C. rewrite Hstep, take_app_take.
      rewrite (reverse_cons (data' :: frames') data), fmap_app, <- app_assoc.
      reflexivity. }
  eexists. split; [exact Hrun|]. cbn [m_GraphHistory setHistory digitalPhosphorDraws].
  split; [reflexivity|].
  split; [rewrite length_take, length_app, length_fmap, length_reverse; reflexivity|].
  split; [reflexivity|].
  split; [apply showAllStages_bounded_any|].
  split.
  - intros k Hk. destruct frames as [|data rest]; [congruence|].
    cbn [showAllStages]. apply elem_of_app. left.
    unfold showDataStages. rewrite Hs. cbn [negb].
    destruct (Nat.eq_dec k (length (m_GraphHistory v))) as [->|Hlt].
    + rewrite take_ge by lia. apply list_elem_of_here.
    + apply list_elem_of_further, elem_of_app. left.
      apply removeTooMuchStages_passes; lia.
  - intros data rest v1 _ Hfirst.
    pose proof (showData_fields _ _ _ Hfirst) as [Hd _].
    rewrite <- Hd. apply showAllStages_bounded. rewrite Hd.
    now apply (showData_within data).
Qed.

End HistoryCapacity.

(** ** The zoom window in the view and in the widget *)

Section ZoomWindowProperties.

Variables DIVS_TIME DIVS_VOLTAGE : Q.

Lemma zoomWindow_cases s :
  (zoomWindow s = (getMarker s 0, getMarker s 1) /\ getMarker s 0 <= getMarker s 1)
  \/ (zoomWindow s = (getMarker s 1, getMarker s 0) /\ getMarker s 1 < getMarker s 0).
Proof.
  unfold zoomWindow. cbn zeta.
  destruct (Qlt_bool (getMarker s 1) (getMarker s 0)) eqn:E.
  - right. apply Qlt_bool_iff in E. auto.
  - left. apply Qlt_bool_false in E. auto.
Qed.

Lemma Qabs_distance (a b : Q) :
  (a <= b /\ Qabs (b - a) == b - a) \/ (b < a /\ Qabs (b - a) == a - b).
Proof.
  destruct (Qlt_le_dec b a) as [H|H].
  - right. split; [exact H|]. rewrite Qabs_neg by lra. ring.
  - left. split; [exact H|]. rewrite Qabs_pos by lra. reflexivity.
Qed.

(** X7. The matrix of the zoomed view and the mapping of the widget agree. When
    the time markers differ, [paintGL] has a matrix; it takes the lower edge
    of the zoom window to the left border of the view and the upper edge to
    the right border, and it takes the x coordinate of every position of the
    main view to the x coordinate of the position that [mainToZoom] gives.
    When the time markers coincide, the quotient of the scale is a division
    by zero. *)
Theorem zoomed_view_shows_the_zoom_window (s : DsoSettingsScope) :
  (~ getMarker s 0 == getMarker s 1 ->
   exists m, zoomMatrix DIVS_TIME s = Some m
     /\ applyX m (fst (zoomWindow s)) == - DIVS_TIME / 2
     /\ applyX m (snd (zoomWindow s)) == DIVS_TIME / 2
     /\ forall pos, exists z,
          mainToZoom DIVS_TIME s pos = Some z
          /\ applyX m (positionToX DIVS_TIME pos) == positionToX DIVS_TIME z)
  /\ (getMarker s 0 == getMarker s 1 -> zoomMatrix DIVS_TIME s = None).
Proof.
  split.
  - intros Hne. unfold zoomMatrix.
    set (d := Qabs (getMarker s 1 - getMarker s 0)).
    assert (Hd : ~ d == 0).
    { subst d. destruct (Qabs_distance (getMarker s 0) (getMarker s 1)) as [[? E]|[? E]];
        rewrite E; lra. }
    rewrite (fdiv_Some _ _ Hd). cbn [mbind option_bind].
    eexists. split; [reflexivity|].
    unfold applyX, translateX, scaleX, identityX. cbn [factor shift].
    assert (Hmap : forall x,
               1 * (DIVS_TIME / d) * x
               + (0 + 1 * (DIVS_TIME / d) * (- (getMarker s 0 + getMarker s 1) / 2))
               == DIVS_TIME * ((x - fst (zoomWindow s))
                               / (snd (zoomWindow s) - fst (zoomWindow s)) - (1 # 2))).
    { intros x. subst d.
      destruct (zoomWindow_cases s) as [[-> Hle]|[-> Hlt]]; cbn [fst snd];
        destruct (Qabs_distance (getMarker s 0) (getMarker s 1)) as [[? E]|[? E]];
        try (exfalso; lra); rewrite E; field; lra. }
    split; [rewrite Hmap; field|].
    { pose proof (zoomWindow_width_zero s). tauto. }
    split; [rewrite Hmap; field|].
    { pose proof (zoomWindow_width_zero s). tauto. }
    intros pos. rewrite (mainToZoom_Some DIVS_TIME s pos Hne).
    eexists. split; [reflexivity|].
    rewrite Hmap. unfold positionToX. ring.
  - intros He. unfold zoomMatrix.
    rewrite fdiv_None; [reflexivity|].
    destruct (Qabs_distance (getMarker s 0) (getMarker s 1)) as [[? E]|[? E]];
      rewrite E; lra.
Qed.

(** X8. With the limits 0 and 1 that [setupSliders] gives it, the trigger
    position slider of the zoom view is enabled exactly when the trigger
    lies within the zoom window, edges included; when the trigger lies
    before the window the slider is left at 0, when it lies after the window
    at 1. *)
Theorem zoom_trigger_slider_is_enabled_inside_the_window (w : DsoWidget) :
  ~ getMarker (scope w) 0 == getMarker (scope w) 1 ->
  minimum (zoomTriggerPositionSlider w) = 0 ->
  maximum (zoomTriggerPositionSlider w) = 1 ->
  let x := positionToX DIVS_TIME (trigger_position (scope w)) in
  exists w', adaptTriggerPositionSlider DIVS_TIME w = Some w'
    /\ (fst (zoomWindow (scope w)) <= x <= snd (zoomWindow (scope w)) ->
        enabled (zoomTriggerPositionSlider w') = true)
    /\ (x < fst (zoomWindow (scope w)) ->
        enabled (zoomTriggerPositionSlider w') = false
        /\ value (zoomTriggerPositionSlider w') = 0)
    /\ (snd (zoomWindow (scope w)) < x ->
        enabled (zoomTriggerPositionSlider w') = false
        /\ value (zoomTriggerPositionSlider w') = 1).
Proof.
  intros Hne Hmin Hmax x.
  pose proof (mainToZoom_Some DIVS_TIME (scope w) (trigger_position (scope w)) Hne) as Hv.
  destruct (adaptTriggerPositionSlider_Some DIVS_TIME DIVS_TIME w _ Hv)
    as (w' & Hw' & _ & _ & _ & Hin & Hlow & Hhigh & _).
  rewrite Hmin, Hmax in *.
  exists w'. split; [exact Hw'|].
  pose proof (zoomWindow_ordered (scope w)) as Hord.
  pose proof (zoomWindow_width_zero (scope w)) as Hw0.
  assert (Hpos : 0 < snd (zoomWindow (scope w)) - fst (zoomWindow (scope w))).
  { destruct (Qlt_le_dec 0 (snd (zoomWindow (scope w)) - fst (zoomWindow (scope w))));
      [assumption|]. exfalso. apply Hne, Hw0. lra. }
  subst x. unfold positionToX.
  set (a := (trigger_position (scope w) - (1 # 2)) * DIVS_TIME) in *.
  set (d := snd (zoomWindow (scope w)) - fst (zoomWindow (scope w))) in *.
  split; [|split].
  - intros [Hl Hh]. apply Hin. split.
    + apply Qle_shift_div_l; [exact Hpos|]. lra.
    + apply Qle_shift_div_r; [exact Hpos|]. subst d. lra.
  - intros Hl. apply Hlow. apply Qlt_shift_div_r; [exact Hpos|]. lra.
  - intros Hh. apply Hhigh; [|lra]. apply Qlt_shift_div_l; [exact Hpos|]. subst d. lra.
Qed.

(** X9. A move of the trigger position slider of the zoom view to [z], when the
    time markers differ and there are divisions of time: the trigger is put
    at the position of the main view that [mainToZoom] takes back to [z],
    the slider of the main view is set to that position, the slider of the
    zoom view and the time markers are left as they are, and the signal
    carries the position in seconds; for [z] from 0 to 1 the trigger lies
    within the zoom window. *)
Theorem trigger_position_from_the_zoom_view (z : Q) (mainSlider : LevelSlider)
    (w : DsoWidget) :
  0 < DIVS_TIME ->
  ~ getMarker (scope w) 0 == getMarker (scope w) 1 ->
  exists mainSlider' w' t,
    updateTriggerPosition DIVS_TIME DIVS_VOLTAGE 0 z false mainSlider w
    = Some (mainSlider', w', [t])
    /\ trigger_position (scope w') = zoomToMain DIVS_TIME (scope w) z
    /\ (exists z', mainToZoom DIVS_TIME (scope w') (trigger_position (scope w')) = Some z'
                   /\ z' == z)
    /\ value mainSlider' = trigger_position (scope w')
    /\ zoomTriggerPositionSlider w' = zoomTriggerPositionSlider w
    /\ horizontal (scope w') = horizontal (scope w)
    /\ t == trigger_position (scope w') * timebase (horizontal (scope w)) * DIVS_TIME
    /\ (0 <= z <= 1 ->
        fst (zoomWindow (scope w)) <= positionToX DIVS_TIME (trigger_position (scope w'))
        <= snd (zoomWindow (scope w))).
Proof.
  intros HT Hne. unfold updateTriggerPosition. cbn.
  do 3 eexists. split; [reflexivity|]. cbn.
  split; [reflexivity|].
  pose proof (zoomWindow_ordered (scope w)) as Hord.
  pose proof (zoomWindow_width_zero (scope w)) as Hw0.
  split.
  { set (s' := setTriggerPosition _ _).
    assert (Hne' : ~ getMarker s' 0 == getMarker s' 1) by exact Hne.
    rewrite (mainToZoom_Some DIVS_TIME s' _ Hne').
    eexists. split; [reflexivity|].
    change (zoomWindow s') with (zoomWindow (scope w)).
    unfold zoomToMain. destruct (zoomWindow (scope w)) as [m1 m2]. cbn [fst snd] in *.
    field. split; [lra|]. intros H. apply Hne, Hw0, H. }
  split; [reflexivity|]. split; [reflexivity|]. split; [reflexivity|].
  split; [reflexivity|].
  intros [Hz0 Hz1]. unfold positionToX, zoomToMain.
  destruct (zoomWindow (scope w)) as [m1 m2]. cbn [fst snd] in *.
  assert (E : ((1 # 2) + (m1 + z * (m2 - m1)) / DIVS_TIME - (1 # 2)) * DIVS_TIME
              == m1 + z * (m2 - m1)) by (field; lra).
  rewrite E.
  assert (0 <= z * (m2 - m1)) by (apply Qmult_le_0_compat; lra).
  assert (0 <= (1 - z) * (m2 - m1)) by (apply Qmult_le_0_compat; lra).
  split; lra.
Qed.

(** X10. A move of the trigger position slider of the main view to [v], when the
    time markers differ: the trigger is put at [v], the slider of the zoom
    view follows the position mapped into the zoom view, the slider of the
    main view is left as it is, and the signal carries [v] in seconds. The
    call for a slider index other than 0 changes nothing and emits
    nothing. *)
Theorem trigger_position_from_the_main_view (v : Q) (mainSlider : LevelSlider)
    (w : DsoWidget) :
  ~ getMarker (scope w) 0 == getMarker (scope w) 1 ->
  minimum (zoomTriggerPositionSlider w) <= maximum (zoomTriggerPositionSlider w) ->
  (exists w' z,
     updateTriggerPosition DIVS_TIME DIVS_VOLTAGE 0 v true mainSlider w
     = Some (mainSlider, w', [v * timebase (horizontal (scope w)) * DIVS_TIME])
     /\ scope w' = setTriggerPosition (scope w) v
     /\ mainToZoom DIVS_TIME (scope w) v = Some z
     /\ sliderFollows (zoomTriggerPositionSlider w) (zoomTriggerPositionSlider w') z)
  /\ (forall index mainView, index <> 0%Z ->
        updateTriggerPosition DIVS_TIME DIVS_VOLTAGE index v mainView mainSlider w
        = Some (mainSlider, w, [])).
Proof.
  intros Hne Hrange. split.
  - set (w0 := setScope (setTriggerPosition (scope w) v) w).
    assert (Hne0 : ~ getMarker (scope w0) 0 == getMarker (scope w0) 1) by exact Hne.
    pose proof (mainToZoom_Some DIVS_TIME (scope w0) (trigger_position (scope w0)) Hne0)
      as Hv.
    destruct (adaptTriggerPositionSlider_Some DIVS_TIME DIVS_VOLTAGE w0 _ Hv)
      as (w1 & Hw1 & Hs1 & _).
    destruct (adaptTriggerPositionSlider_follows DIVS_TIME DIVS_VOLTAGE w0 _ Hv Hrange)
      as (w1' & Hw1' & Hf & _).
    rewrite Hw1 in Hw1'. injection Hw1' as <-.
    exists (updateMarkerDetails DIVS_VOLTAGE w1). eexists.
    unfold updateTriggerPosition. cbn [Z.eqb negb]. fold w0. rewrite Hw1.
    cbn [mbind option_bind fst snd updateMarkerDetails scope]. rewrite Hs1.
    split; [reflexivity|]. split; [reflexivity|].
    split; [exact Hv|]. exact Hf.
  - intros index mainView Hindex. unfold updateTriggerPosition.
    destruct (Z.eqb_spec index 0) as [E|_]; [contradiction|]. reflexivity.
Qed.

(** X11. The percentage that [updateTriggerDetails] prints for a trigger
    position that is not negative, as long as the position in percent plus
    a half is below 2^31, is the position in percent rounded to the nearest
    whole number, a half rounded up; for a position from 0 to 1 it is a
    number from 0 to 100. From 2^31 on the number is no [int] and the
    conversion has no defined result. *)
Theorem pretrigger_percent_is_rounded (s : DsoSettingsScope) :
  0 <= trigger_position s ->
  (trigger_position s * 100 + (1 # 2) < inject_Z INT_MAX + 1 ->
   exists percent,
     pretriggerPercent s = Some percent
     /\ (trigger_position s * 100 - (1 # 2) < inject_Z percent
         <= trigger_position s * 100 + (1 # 2))
     /\ (trigger_position s <= 1 -> (0 <= percent <= 100)%Z))
  /\ (inject_Z INT_MAX + 1 <= trigger_position s * 100 + (1 # 2) ->
      pretriggerPercent s = None).
Proof.
  intros Hpos. unfold pretriggerPercent, toInt. cbn zeta.
  set (v := trigger_position s * 100 + (1 # 2)).
  assert (Hv : 0 <= v) by (subst v; lra).
  assert (Hfloor : Z.quot (Qnum v) (Z.pos (Qden v)) = Qfloor v).
  { destruct v as [n d]. cbn [Qnum Qden Qfloor].
    apply Z.quot_div_nonneg; [|lia].
    unfold Qle in Hv. cbn in Hv. lia. }
  rewrite Hfloor.
  pose proof (Qfloor_le v) as Hle. pose proof (Qlt_floor v) as Hlt.
  rewrite inject_Z_plus in Hlt. change (inject_Z 1) with 1 in Hlt.
  assert (H0 : (0 <= Qfloor v)%Z)
    by (change 0%Z with (Qfloor 0); apply Qfloor_resp_le; exact Hv).
  assert (Hmin : (INT_MIN <=? Qfloor v)%Z = true)
    by (apply Z.leb_le; unfold INT_MIN; lia).
  rewrite Hmin. cbn [andb].
  split.
  - intros Hsmall.
    assert (Hmax : (Qfloor v <= INT_MAX)%Z).
    { assert (H : inject_Z (Qfloor v) < inject_Z (INT_MAX + 1)).
      { rewrite inject_Z_plus. change (inject_Z 1) with 1. lra. }
      rewrite <- Zlt_Qlt in H. lia. }
    apply Z.leb_le in Hmax. rewrite Hmax.
    eexists. split; [reflexivity|].
    split; [subst v; split; lra|].
    intros Hone. split; [exact H0|].
    assert (H : inject_Z (Qfloor v) < inject_Z 101).
    { change (inject_Z 101) with 101. subst v. lra. }
    rewrite <- Zlt_Qlt in H. lia.
  - intros Hlarge.
    assert (Hmax : (INT_MAX < Qfloor v)%Z).
    { assert (H : inject_Z (INT_MAX + 1) < inject_Z (Qfloor v) + 1).
      { rewrite inject_Z_plus. change (inject_Z 1) with 1. lra. }
      change 1 with (inject_Z 1) in H. rewrite <- inject_Z_plus, <- Zlt_Qlt in H. lia. }
    apply Z.leb_gt in Hmax. rewrite Hmax. reflexivity.
Qed.

End ZoomWindowProperties.

(** ** The vertices of the cursors and the calls that draw them *)

(** The pointers of the constructor, by index. *)
Lemma makeCursorInfo_lookup (s : DsoSettingsScope) (i : nat) (r : CursorRef) :
  makeCursorInfo s !! i = Some r <->
  (i = 0%nat /\ r = HorizontalCursor)
  \/ (exists ch, i = S ch /\ (ch < length (voltage s))%nat /\ r = VoltageCursor ch)
  \/ (exists ch, i = S (length (voltage s) + ch) /\ (ch < length (spectrum s))%nat
                 /\ r = SpectrumCursor ch).
Proof.
  unfold makeCursorInfo. destruct i as [|i]; simpl.
  - split.
    + intros [= <-]. left. auto.
    + intros [[_ ->]|[(ch & E & _)|(ch & E & _)]]; [reflexivity|discriminate..].
  - destruct (Nat.lt_ge_cases i (length (voltage s))) as [Hv|Hv].
    + rewrite lookup_app_l by (rewrite length_fmap, length_seq; exact Hv).
      rewrite list_lookup_fmap, lookup_seq_lt by exact Hv. cbn. split.
      * intros [= <-]. right. left. exists i. auto.
      * intros [[E _]|[(ch & [= ->] & _ & ->)|(ch & [= ->] & _)]];
          [discriminate|reflexivity|lia].
    + rewrite lookup_app_r by (rewrite length_fmap, length_seq; exact Hv).
      rewrite length_fmap, length_seq, list_lookup_fmap.
      destruct (Nat.lt_ge_cases (i - length (voltage s)) (length (spectrum s))) as [Hs|Hs].
      * rewrite lookup_seq_lt by exact Hs. cbn. split.
        -- intros [= <-]. right. right. exists (i - length (voltage s))%nat.
           split; [f_equal; lia|]. auto.
        -- intros [[E _]|[(ch & [= ->] & ? & _)|(ch & [= ->] & _ & ->)]];
             [discriminate|lia|].
           do 2 f_equal. lia.
      * rewrite lookup_seq_ge by exact Hs. cbn. split; [discriminate|].
        intros [[E _]|[(ch & [= ->] & ? & _)|(ch & [= ->] & ? & _)]];
          [discriminate|lia|lia].
Qed.

Lemma length_makeCursorInfo (s : DsoSettingsScope) :
  length (makeCursorInfo s) = S (length (voltage s) + length (spectrum s)).
Proof.
  unfold makeCursorInfo. cbn [length].
  now rewrite length_app, !length_fmap, !length_seq.
Qed.

(** The entry of a list of equally long entries, in the list laid out entry
    after entry. *)
Lemma take_drop_join (A : Type) (n i : nat) (ls : list (list A)) (e : list A) :
  Forall (fun l => length l = n) ls ->
  ls !! i = Some e ->
  take n (drop (i * n) (mjoin ls)) = e.
Proof.
  intros Hall. revert i. induction Hall as [|l ls Hl Hall IH]; intros i Hi; [discriminate|].
  change (mjoin (l :: ls)) with (l ++ mjoin ls).
  destruct i as [|i].
  - injection Hi as <-. change (0 * n)%nat with 0%nat. rewrite drop_0.
    apply take_app_length'. now symmetry.
  - change (S i * n)%nat with (n + i * n)%nat.
    rewrite drop_app_add' by (now symmetry). apply IH, Hi.
Qed.

Section DrawProperties.

Variables DIVS_TIME DIVS_VOLTAGE : Q.
Variable VERTICES_ARRAY_SIZE : nat.

Abbreviation generateVertices := (generateVertices DIVS_TIME DIVS_VOLTAGE).
Abbreviation markerUpdated := (markerUpdated DIVS_TIME DIVS_VOLTAGE).
Abbreviation drawCursor := (drawCursor VERTICES_ARRAY_SIZE).

(** *** One loop of [markerUpdated] *)

Lemma vaMarker_generateVertices_insert (marker : nat) (c : DsoSettingsScopeCursor)
    (gl : GlScope) :
  vaMarker (generateVertices marker c gl) = <[marker := cursorVertices DIVS_TIME DIVS_VOLTAGE c]> (vaMarker gl).
Proof. reflexivity. Qed.

Section Loop.

Context {A : Type}.
Variable place : nat -> nat.
Variable cursorOf : A -> DsoSettingsScopeCursor.
Hypothesis place_inj : forall i j, place i = place j -> i = j.

Abbreviation loop l gl :=
  (fold_left (fun g cv => generateVertices (place (fst cv)) (cursorOf (snd cv)) g)
             (imap pair l) gl).

Lemma loop_snoc (l : list A) (x : A) (gl : GlScope) :
  loop (l ++ [x]) gl = generateVertices (place (length l)) (cursorOf x) (loop l gl).
Proof.
  rewrite imap_app, fold_left_app. cbn. now rewrite Nat.add_0_r.
Qed.

Lemma loop_fields (l : list A) (gl : GlScope) :
  length (vaMarker (loop l gl)) = length (vaMarker gl)
  /\ zoomed (loop l gl) = zoomed gl
  /\ width (loop l gl) = width gl
  /\ height (loop l gl) = height gl
  /\ cursorInfo (loop l gl) = cursorInfo gl
  /\ selectedCursor (loop l gl) = selectedCursor gl
  /\ selectedMarker (loop l gl) = selectedMarker gl
  /\ effects (loop l gl) = effects gl.
Proof.
  induction l as [|x l IH] using rev_ind; [cbn; tauto|].
  rewrite loop_snoc, vaMarker_generateVertices_insert, length_insert. exact IH.
Qed.

Lemma loop_hit (l : list A) (gl : GlScope) (i : nat) (x : A) :
  l !! i = Some x ->
  (place i < length (vaMarker gl))%nat ->
  vaMarker (loop l gl) !! place i = Some (cursorVertices DIVS_TIME DIVS_VOLTAGE (cursorOf x)).
Proof.
  revert i x. induction l as [|y l IH] using rev_ind; intros i x Hi Hlt; [discriminate|].
  rewrite loop_snoc, vaMarker_generateVertices_insert.
  destruct (Nat.eq_dec i (length l)) as [->|Hne].
  - rewrite lookup_app_r, Nat.sub_diag in Hi by lia. injection Hi as ->.
    apply list_lookup_insert_eq. now rewrite (proj1 (loop_fields l gl)).
  - assert (Hil : (i < length l)%nat).
    { apply lookup_lt_Some in Hi. rewrite length_app in Hi. cbn in Hi. lia. }
    rewrite lookup_app_l in Hi by exact Hil.
    rewrite list_lookup_insert_ne by (intros E; apply place_inj in E; lia).
    now apply IH.
Qed.

Lemma loop_miss (l : list A) (gl : GlScope) (k : nat) :
  (forall i, (i < length l)%nat -> place i <> k) ->
  vaMarker (loop l gl) !! k = vaMarker gl !! k.
Proof.
  induction l as [|y l IH] using rev_ind; intros Hk; [reflexivity|].
  rewrite loop_snoc, vaMarker_generateVertices_insert.
  rewrite list_lookup_insert_ne
    by (apply Hk; rewrite length_app; cbn; lia).
  apply IH. intros i Hi. apply Hk. rewrite length_app. lia.
Qed.

End Loop.

Abbreviation loop place cursorOf l gl :=
  (fold_left (fun g cv => generateVertices (place (fst cv)) (cursorOf (snd cv)) g)
             (imap pair l) gl).

Lemma markerUpdated_loops (s : DsoSettingsScope) (gl : GlScope) :
  markerUpdated s gl
  = loop (fun ch => S (length (voltage s) + ch)) s_cursor (spectrum s)
      (loop S v_cursor (voltage s)
         (generateVertices 0 (h_cursor (horizontal s)) gl)).
Proof. reflexivity. Qed.

Lemma markerUpdated_entries (s : DsoSettingsScope) (gl : GlScope) :
  length (vaMarker gl) = length (makeCursorInfo s) ->
  (forall i r, makeCursorInfo s !! i = Some r ->
     exists c, deref s r = Some c
       /\ vaMarker (markerUpdated s gl) !! i = Some (cursorVertices DIVS_TIME DIVS_VOLTAGE c)
       /\ length (cursorVertices DIVS_TIME DIVS_VOLTAGE c) = 4%nat)
  /\ length (vaMarker (markerUpdated s gl)) = length (vaMarker gl)
  /\ cursorInfo (markerUpdated s gl) = cursorInfo gl
  /\ selectedCursor (markerUpdated s gl) = selectedCursor gl
  /\ selectedMarker (markerUpdated s gl) = selectedMarker gl
  /\ effects (markerUpdated s gl) = effects gl.
Proof.
  intros Hlen. rewrite length_makeCursorInfo in Hlen.
  rewrite markerUpdated_loops.
  set (gl0 := generateVertices 0 (h_cursor (horizontal s)) gl).
  set (gl1 := loop S v_cursor (voltage s) gl0).
  assert (H0 : length (vaMarker gl0) = length (vaMarker gl))
    by (subst gl0; rewrite vaMarker_generateVertices_insert; apply length_insert).
  destruct (loop_fields S v_cursor (voltage s) gl0)
    as (H1 & _ & _ & _ & Hc1 & Hs1 & Hm1 & He1).
  fold gl1 in H1, Hc1, Hs1, Hm1, He1.
  destruct (loop_fields (fun ch => S (length (voltage s) + ch)) s_cursor (spectrum s) gl1)
    as (H2 & _ & _ & _ & Hc2 & Hs2 & Hm2 & He2).
  assert (Hc0 : cursorInfo gl0 = cursorInfo gl) by reflexivity.
  assert (Hs0 : selectedCursor gl0 = selectedCursor gl) by reflexivity.
  assert (Hm0 : selectedMarker gl0 = selectedMarker gl) by reflexivity.
  assert (He0 : effects gl0 = effects gl) by reflexivity.
  split; [|split; [lia|split; [congruence|split; [congruence|split; congruence]]]].
  assert (Hsize : forall c, length (cursorVertices DIVS_TIME DIVS_VOLTAGE c) = 4%nat)
    by (intros c; unfold cursorVertices; now destruct (shape c)).
  intros i r Hr. apply makeCursorInfo_lookup in Hr
    as [[-> ->]|[(ch & -> & Hch & ->)|(ch & -> & Hch & ->)]].
  - exists (h_cursor (horizontal s)). split; [reflexivity|]. split; [|apply Hsize].
    rewrite (loop_miss (fun ch => S (length (voltage s) + ch)) s_cursor)
      by (intros; lia).
    subst gl1. rewrite (loop_miss S v_cursor) by (intros; lia).
    subst gl0. rewrite vaMarker_generateVertices_insert.
    apply list_lookup_insert_eq. lia.
  - destruct (lookup_lt_is_Some_2 _ _ Hch) as [v Hv].
    exists (v_cursor v). cbn [deref]. rewrite Hv. split; [reflexivity|].
    split; [|apply Hsize].
    rewrite (loop_miss (fun ch => S (length (voltage s) + ch)) s_cursor)
      by (intros; lia).
    apply (loop_hit S v_cursor); [intros ? ? [= ?]; assumption|exact Hv|lia].
  - destruct (lookup_lt_is_Some_2 _ _ Hch) as [sp Hsp].
    exists (s_cursor sp). cbn [deref]. rewrite Hsp. split; [reflexivity|].
    split; [|apply Hsize].
    apply (loop_hit (fun ch => S (length (voltage s) + ch)) s_cursor);
      [intros ? ? ?; lia|exact Hsp|lia].
Qed.

(** X12. [markerUpdated] writes the vertices of every cursor, each at the index
    that the cursor has in [cursorInfo]: for a view built over the settings,
    the entry [i] of [vaMarker] holds afterwards the four vertices of the
    cursor that [cursorInfo[i]] points to. The size of [vaMarker], the
    pointers and the selection are left as they are. *)
Theorem marker_update_writes_the_vertices_of_every_cursor
    (s : DsoSettingsScope) (gl : GlScope) :
  length (vaMarker gl) = length (makeCursorInfo s) ->
  (forall i r, makeCursorInfo s !! i = Some r ->
     exists c, deref s r = Some c
       /\ vaMarker (markerUpdated s gl) !! i = Some (cursorVertices DIVS_TIME DIVS_VOLTAGE c)
       /\ length (cursorVertices DIVS_TIME DIVS_VOLTAGE c) = 4%nat)
  /\ length (vaMarker (markerUpdated s gl)) = length (vaMarker gl)
  /\ cursorInfo (markerUpdated s gl) = cursorInfo gl
  /\ selectedCursor (markerUpdated s gl) = selectedCursor gl
  /\ selectedMarker (markerUpdated s gl) = selectedMarker gl
  /\ effects (markerUpdated s gl) = effects gl.
Proof. exact (markerUpdated_entries s gl). Qed.

(** *** The calls of [drawMarkers] *)

Lemma render_drawCursor (gl : GlScope) (bs : list (ScreenColor * nat))
    (color : option ScreenColor) (w : Z) :
  render color w (mjoin ((fun b => drawCursor gl (fst b) (snd b)) <$> bs))
  = cursorPrimitive VERTICES_ARRAY_SIZE gl <$> bs.
Proof.
  revert color w. induction bs as [|b bs IH]; intros color w; [reflexivity|].
  cbn. rewrite IH. reflexivity.
Qed.

Lemma join_imap_blocks (A : Type) (used : A -> bool) (gl : GlScope)
    (block : nat -> ScreenColor * nat) (l : list A) :
  mjoin (imap (fun ch v => if used v then drawCursor gl (fst (block ch)) (snd (block ch))
                           else []) l)
  = mjoin ((fun b => drawCursor gl (fst b) (snd b))
             <$> mjoin (imap (fun ch v => if used v then [block ch] else []) l)).
Proof.
  revert block. induction l as [|v l IH]; intros block; [reflexivity|].
  rewrite !imap_cons.
  change (mjoin (?x :: ?ls)) with (x ++ mjoin ls).
  rewrite fmap_app, join_app.
  f_equal; [destruct (used v); reflexivity|exact (IH (block ∘ S))].
Qed.

Lemma elem_of_join_imap_blocks (A B : Type) (used : A -> bool) (block : nat -> B)
    (l : list A) (b : B) :
  b ∈ mjoin (imap (fun ch v => if used v then [block ch] else []) l)
  <-> exists ch v, l !! ch = Some v /\ used v = true /\ b = block ch.
Proof.
  rewrite list_elem_of_join. split.
  - intros (e & Hb & He). apply elem_of_lookup_imap in He as (ch & v & -> & Hv).
    destruct (used v) eqn:Hu; [|inversion Hb].
    apply list_elem_of_singleton in Hb. eauto.
  - intros (ch & v & Hv & Hu & ->). exists [block ch]. split; [apply list_elem_of_here|].
    apply elem_of_lookup_imap. exists ch, v. rewrite Hu. auto.
Qed.

Lemma drawMarkers_drawnCursors (s : DsoSettingsScope) (gl : GlScope) :
  drawMarkers VERTICES_ARRAY_SIZE s gl = mjoin ((fun b => drawCursor gl (fst b) (snd b)) <$> drawnCursors s).
Proof.
  unfold drawMarkers, drawnCursors.
  rewrite !fmap_app, !join_app.
  apply (f_equal2 app); [reflexivity|apply (f_equal2 app)].
  - exact (join_imap_blocks _ v_used gl (fun ch => (ColorVoltage ch, S ch)) (voltage s)).
  - exact (join_imap_blocks _ s_used gl
             (fun ch => (ColorSpectrum ch, S (length (voltage s) + ch))) (spectrum s)).
Qed.

Lemma elem_of_drawnCursors (s : DsoSettingsScope) (b : ScreenColor * nat) :
  b ∈ drawnCursors s
  <-> exists r, makeCursorInfo s !! snd b = Some r /\ cursorUsed s r = true
                /\ fst b = colorOf r.
Proof.
  unfold drawnCursors. rewrite !elem_of_app, list_elem_of_singleton.
  rewrite !elem_of_join_imap_blocks. split.
  - intros [->|[(ch & v & Hv & Hu & ->)|(ch & sp & Hsp & Hu & ->)]].
    + exists HorizontalCursor. cbn. auto.
    + exists (VoltageCursor ch). cbn [fst snd cursorUsed colorOf]. rewrite Hv.
      split; [|auto]. apply makeCursorInfo_lookup. right. left. exists ch.
      apply lookup_lt_Some in Hv. auto.
    + exists (SpectrumCursor ch). cbn [fst snd cursorUsed colorOf]. rewrite Hsp.
      split; [|auto]. apply makeCursorInfo_lookup. right. right. exists ch.
      apply lookup_lt_Some in Hsp. auto.
  - destruct b as [color i]. cbn [fst snd]. intros (r & Hr & Hu & ->).
    apply makeCursorInfo_lookup in Hr
      as [[-> ->]|[(ch & -> & Hch & ->)|(ch & -> & Hch & ->)]]; cbn [colorOf].
    + left. reflexivity.
    + right. left. cbn in Hu. destruct (voltage s !! ch) as [v|] eqn:Hv; [|discriminate].
      exists ch, v. auto.
    + right. right. cbn in Hu. destruct (spectrum s !! ch) as [sp|] eqn:Hsp; [|discriminate].
      exists ch, sp. auto.
Qed.

(** X13. After [markerUpdated], [drawMarkers] draws exactly the cursors in use:
    the time markers and the cursor of every used channel, and no cursor of
    a channel that is not used. Each is drawn as a closed loop in the colour
    of its channel, from the four vertices that [markerUpdated] wrote for
    it, with a line of width 3 when it is the selected cursor and of width 1
    otherwise, whatever colour and width were set before. *)
Theorem cursors_in_use_are_drawn_from_their_vertices
    (s : DsoSettingsScope) (gl : GlScope) (color0 : option ScreenColor) (w0 : Z) :
  VERTICES_ARRAY_SIZE = 4%nat ->
  length (vaMarker gl) = length (makeCursorInfo s) ->
  let gl' := markerUpdated s gl in
  let drawn := render color0 w0 (drawMarkers VERTICES_ARRAY_SIZE s gl') in
  (forall p, p ∈ drawn ->
     exists i r c,
       makeCursorInfo s !! i = Some r
       /\ cursorUsed s r = true
       /\ deref s r = Some c
       /\ p = mkPrimitive GL_LINE_LOOP (i * VERTICES_ARRAY_SIZE) VERTICES_ARRAY_SIZE
                          (Some (colorOf r))
                          (if (i =? selectedCursor gl)%nat then 3 else 1)%Z
       /\ verticesOf p (mjoin (vaMarker gl')) = cursorVertices DIVS_TIME DIVS_VOLTAGE c)
  /\ (forall i r, makeCursorInfo s !! i = Some r -> cursorUsed s r = true ->
        mkPrimitive GL_LINE_LOOP (i * VERTICES_ARRAY_SIZE) VERTICES_ARRAY_SIZE
                    (Some (colorOf r))
                    (if (i =? selectedCursor gl)%nat then 3 else 1)%Z ∈ drawn).
Proof.
  intros Hsize Hlen gl' drawn.
  destruct (markerUpdated_entries s gl Hlen) as (Hall & Hlen' & _ & Hsel & _).
  subst drawn gl'. rewrite drawMarkers_drawnCursors, render_drawCursor.
  set (gl' := markerUpdated s gl) in *.
  assert (Hfour : Forall (fun v => length v = VERTICES_ARRAY_SIZE) (vaMarker gl')).
  { apply Forall_lookup. intros k v Hk.
    assert (Hlt : (k < length (makeCursorInfo s))%nat)
      by (rewrite <- Hlen, <- Hlen'; exact (lookup_lt_Some _ _ _ Hk)).
    destruct (lookup_lt_is_Some_2 _ _ Hlt) as [r Hr].
    destruct (Hall k r Hr) as (c & _ & Hv & Hc).
    unfold Vertices in *. rewrite Hk in Hv. injection Hv as ->.
    rewrite Hsize. exact Hc. }
  split.
  - intros p Hp. apply list_elem_of_fmap in Hp as ([color i] & -> & Hb).
    apply elem_of_drawnCursors in Hb as (r & Hr & Hu & Hcol). cbn [fst snd] in *.
    destruct (Hall i r Hr) as (c & Hc & Hv & _).
    exists i, r, c. unfold cursorPrimitive. cbn [fst snd]. rewrite Hsel, Hcol.
    split; [exact Hr|]. split; [exact Hu|]. split; [exact Hc|]. split; [reflexivity|].
    unfold verticesOf. cbn [prim_first prim_count].
    now apply take_drop_join.
  - intros i r Hr Hu. apply list_elem_of_fmap.
    exists (colorOf r, i). unfold cursorPrimitive. cbn [fst snd]. rewrite Hsel.
    split; [reflexivity|]. apply elem_of_drawnCursors. exists r. auto.
Qed.

End DrawProperties.

(** ** The cursor table *)

Section CursorTableProperties.

Variables DIVS_TIME DIVS_VOLTAGE : Q.


(** A loop that alters every entry at its own index. *)
Lemma fold_alter_seq (A : Type) (g : nat -> A -> A) (n : nat) (l : list A) (i : nat) :
  fold_left (fun l ch => alter (g ch) ch l) (seq 0 n) l !! i
  = (fun x => if (i <? n)%nat then g i x else x) <$> l !! i.
Proof.
  induction n as [|n IH].
  - cbn. now destruct (l !! i).
  - rewrite seq_S, fold_left_app. cbn [fold_left Nat.add].
    destruct (Nat.eq_dec n i) as [->|Hne].
    + rewrite list_lookup_alter_eq, IH.
      rewrite Nat.ltb_irrefl, (proj2 (Nat.ltb_lt i (S i))) by lia.
      now destruct (l !! i).
    + rewrite list_lookup_alter_ne by exact Hne. rewrite IH.
      destruct (Nat.ltb_spec i n), (Nat.ltb_spec i (S n)); try lia; reflexivity.
Qed.

Lemma updateVoltageCursor_alter (s : DsoSettingsScope) (infos : list CursorInfo) (ch : nat) :
  updateVoltageCursor s infos ch = alter (voltageRow s ch) ch infos.
Proof.
  unfold updateVoltageCursor, voltageRow.
  destruct (voltage s !! ch) as [v|]; [destruct (v_used v); reflexivity|].
  symmetry. apply list_alter_id. reflexivity.
Qed.

Lemma updateSpectrumCursor_alter (s : DsoSettingsScope) (infos : list CursorInfo) (ch : nat) :
  updateSpectrumCursor DIVS_VOLTAGE s infos ch = alter (spectrumRow DIVS_VOLTAGE s ch) ch infos.
Proof.
  unfold updateSpectrumCursor, spectrumRow.
  destruct (spectrum s !! ch) as [sp|]; [destruct (s_used sp); reflexivity|].
  symmetry. apply list_alter_id. reflexivity.
Qed.

Lemma fold_left_ext (A B : Type) (f g : A -> B -> A) (l : list B) (a : A) :
  (forall a b, f a b = g a b) -> fold_left f l a = fold_left g l a.
Proof.
  intros Hfg. revert a. induction l as [|b l IH]; intros a; [reflexivity|].
  cbn. rewrite Hfg. apply IH.
Qed.

(** The rows of the voltage channels after [updateMarkerDetails]. *)
Lemma voltageCursors_updateMarkerDetails (w : DsoWidget) (ch : nat) :
  voltageCursors (updateMarkerDetails DIVS_VOLTAGE w) !! ch
  = voltageRow (scope w) ch <$> voltageCursors w !! ch.
Proof.
  unfold updateMarkerDetails. cbn [voltageCursors].
  rewrite (fold_left_ext _ _ _ (fun l ch => alter (voltageRow (scope w) ch) ch l))
    by apply updateVoltageCursor_alter.
  rewrite fold_alter_seq.
  destruct (Nat.ltb_spec ch (length (voltage (scope w)))) as [Hlt|Hge]; [reflexivity|].
  unfold voltageRow. rewrite (lookup_ge_None_2 (voltage (scope w)) ch Hge). reflexivity.
Qed.

(** The rows of the spectrum channels after [updateMarkerDetails]. *)
Lemma spectrumCursors_updateMarkerDetails (w : DsoWidget) (ch : nat) :
  spectrumCursors (updateMarkerDetails DIVS_VOLTAGE w) !! ch
  = spectrumRow DIVS_VOLTAGE (scope w) ch <$> spectrumCursors w !! ch.
Proof.
  unfold updateMarkerDetails. cbn [spectrumCursors].
  rewrite (fold_left_ext _ _ _ (fun l ch => alter (spectrumRow DIVS_VOLTAGE (scope w) ch) ch l))
    by apply updateSpectrumCursor_alter.
  rewrite fold_alter_seq.
  destruct (Nat.ltb_spec ch (length (spectrum (scope w)))) as [Hlt|Hge]; [reflexivity|].
  unfold spectrumRow. rewrite (lookup_ge_None_2 (spectrum (scope w)) ch Hge).
  reflexivity.
Qed.

(** X14. For a used spectrum channel with the markers of its cursor at [p0] and
    [p1], [updateMarkerDetails] computes the signed products
    [(p1.x - p0.x) * frequencybase], in hertz, and
    [(p1.y - p0.y) * magnitude * DIVS_VOLTAGE], in decibels, enables the
    selector of the channel and shows the numbers by the shape of the
    cursor: both for [RECTANGULAR], the frequency only for [VERTICAL], the
    magnitude only for [HORIZONTAL], neither for [NONE]. *)
Theorem spectrum_cursor_measurements (w : DsoWidget) (ch : nat)
    (sp : DsoSettingsScopeSpectrum) :
  spectrum (scope w) !! ch = Some sp ->
  s_used sp = true ->
  (ch < length (spectrumCursors w))%nat ->
  let p0 := position (s_cursor sp) 0 in
  let p1 := position (s_cursor sp) 1 in
  let deltaFrequency := (px p1 - px p0) * frequencybase (horizontal (scope w)) in
  let deltaMagnitude := (py p1 - py p0) * magnitude sp * DIVS_VOLTAGE in
  exists info,
    spectrumCursors (updateMarkerDetails DIVS_VOLTAGE w) !! ch = Some info
    /\ selectorEnabled info = true
    /\ (shape (s_cursor sp) = RECTANGULAR ->
        shapeLabel info = Text "#"
        /\ deltaXLabel info = Value deltaFrequency UNIT_HERTZ 4
        /\ deltaYLabel info = Value deltaMagnitude UNIT_DECIBEL 4)
    /\ (shape (s_cursor sp) = VERTICAL ->
        shapeLabel info = Text "||"
        /\ deltaXLabel info = Value deltaFrequency UNIT_HERTZ 4
        /\ deltaYLabel info = Empty)
    /\ (shape (s_cursor sp) = HORIZONTAL ->
        shapeLabel info = Text "="
        /\ deltaXLabel info = Empty
        /\ deltaYLabel info = Value deltaMagnitude UNIT_DECIBEL 4)
    /\ (shape (s_cursor sp) = NONE ->
        shapeLabel info = Text "OFF"
        /\ deltaXLabel info = Empty /\ deltaYLabel info = Empty).
Proof.
  intros Hsp Hused Hlt p0 p1 deltaFrequency deltaMagnitude.
  destruct (lookup_lt_is_Some_2 _ _ Hlt) as [info0 Hinfo0].
  rewrite spectrumCursors_updateMarkerDetails, Hinfo0. cbn [fmap option_fmap option_map].
  eexists. split; [reflexivity|].
  unfold spectrumRow. rewrite Hsp, Hused. cbn zeta.
  fold p0 p1 deltaFrequency deltaMagnitude.
  split; [now destruct (shape (s_cursor sp))|].
  split; [intros ->; cbn; auto|].
  split; [intros ->; cbn; auto|].
  split; [intros ->; cbn; auto|].
  intros ->; cbn; auto.
Qed.

(** X15. A channel that is not used shows nothing in the cursor table: after
    [updateMarkerDetails] the selector of its row is disabled and the three
    labels of the row are empty, for a voltage channel and for a spectrum
    channel alike, whatever the shape and the markers of its cursor. *)
Theorem rows_of_unused_channels_are_cleared (w : DsoWidget) (ch : nat) :
  (forall v, voltage (scope w) !! ch = Some v -> v_used v = false ->
     (ch < length (voltageCursors w))%nat ->
     voltageCursors (updateMarkerDetails DIVS_VOLTAGE w) !! ch
     = Some (mkCursorInfo false Empty Empty Empty))
  /\ (forall sp, spectrum (scope w) !! ch = Some sp -> s_used sp = false ->
        (ch < length (spectrumCursors w))%nat ->
        spectrumCursors (updateMarkerDetails DIVS_VOLTAGE w) !! ch
        = Some (mkCursorInfo false Empty Empty Empty)).
Proof.
  split.
  - intros v Hv Hused Hlt.
    destruct (lookup_lt_is_Some_2 _ _ Hlt) as [info0 Hinfo0].
    rewrite voltageCursors_updateMarkerDetails, Hinfo0.
    unfold voltageRow. rewrite Hv, Hused. reflexivity.
  - intros sp Hsp Hused Hlt.
    destruct (lookup_lt_is_Some_2 _ _ Hlt) as [info0 Hinfo0].
    rewrite spectrumCursors_updateMarkerDetails, Hinfo0.
    unfold spectrumRow. rewrite Hsp, Hused. reflexivity.
Qed.

Lemma voltageRow_twice (s : DsoSettingsScope) (ch : nat) (info : CursorInfo) :
  voltageRow s ch (voltageRow s ch info) = voltageRow s ch info.
Proof.
  unfold voltageRow. destruct (voltage s !! ch) as [v|]; [|reflexivity].
  destruct (v_used v); [|reflexivity]. now destruct (shape (v_cursor v)).
Qed.

Lemma spectrumRow_twice (s : DsoSettingsScope) (ch : nat) (info : CursorInfo) :
  spectrumRow DIVS_VOLTAGE s ch (spectrumRow DIVS_VOLTAGE s ch info) = spectrumRow DIVS_VOLTAGE s ch info.
Proof.
  unfold spectrumRow. destruct (spectrum s !! ch) as [sp|]; [|reflexivity].
  destruct (s_used sp); [|reflexivity]. now destruct (shape (s_cursor sp)).
Qed.

Lemma voltageRow_settings_only (s : DsoSettingsScope) (ch : nat) (info info' : CursorInfo) :
  (ch < length (voltage s))%nat -> voltageRow s ch info = voltageRow s ch info'.
Proof.
  intros Hlt. unfold voltageRow.
  destruct (lookup_lt_is_Some_2 _ _ Hlt) as [v ->].
  destruct (v_used v); [|reflexivity]. now destruct (shape (v_cursor v)).
Qed.

Lemma spectrumRow_settings_only (s : DsoSettingsScope) (ch : nat) (info info' : CursorInfo) :
  (ch < length (spectrum s))%nat -> spectrumRow DIVS_VOLTAGE s ch info = spectrumRow DIVS_VOLTAGE s ch info'.
Proof.
  intros Hlt. unfold spectrumRow.
  destruct (lookup_lt_is_Some_2 _ _ Hlt) as [sp ->].
  destruct (s_used sp); [|reflexivity]. now destruct (shape (s_cursor sp)).
Qed.

Lemma length_voltageCursors_updateMarkerDetails (w : DsoWidget) :
  length (voltageCursors (updateMarkerDetails DIVS_VOLTAGE w)) = length (voltageCursors w).
Proof.
  unfold updateMarkerDetails. cbn [voltageCursors].
  generalize (voltageCursors w). generalize (seq 0 (length (voltage (scope w)))).
  intros chs. induction chs as [|ch chs IH]; intros infos; [reflexivity|].
  cbn [fold_left]. rewrite IH. apply length_updateVoltageCursor.
Qed.

Lemma length_spectrumCursors_updateMarkerDetails (w : DsoWidget) :
  length (spectrumCursors (updateMarkerDetails DIVS_VOLTAGE w)) = length (spectrumCursors w).
Proof.
  unfold updateMarkerDetails. cbn [spectrumCursors].
  generalize (spectrumCursors w). generalize (seq 0 (length (spectrum (scope w)))).
  intros chs. induction chs as [|ch chs IH]; intros infos; [reflexivity|].
  cbn [fold_left]. rewrite IH, updateSpectrumCursor_alter. apply length_alter.
Qed.

(** X16. The rows of the channels in the cursor table are a function of the
    settings: two widgets over the same settings whose tables have one row
    for each channel, as the constructor makes them, have the same rows
    after [updateMarkerDetails], whatever the rows showed before; and a
    second call right after the first changes nothing in the widget. *)
Theorem cursor_table_shows_the_settings_only (w w' : DsoWidget) :
  scope w' = scope w ->
  length (voltageCursors w) = length (voltage (scope w)) ->
  length (voltageCursors w') = length (voltage (scope w)) ->
  length (spectrumCursors w) = length (spectrum (scope w)) ->
  length (spectrumCursors w') = length (spectrum (scope w)) ->
  voltageCursors (updateMarkerDetails DIVS_VOLTAGE w') = voltageCursors (updateMarkerDetails DIVS_VOLTAGE w)
  /\ spectrumCursors (updateMarkerDetails DIVS_VOLTAGE w') = spectrumCursors (updateMarkerDetails DIVS_VOLTAGE w)
  /\ deltaXLabel (markerInfo (updateMarkerDetails DIVS_VOLTAGE w'))
     = deltaXLabel (markerInfo (updateMarkerDetails DIVS_VOLTAGE w))
  /\ deltaYLabel (markerInfo (updateMarkerDetails DIVS_VOLTAGE w'))
     = deltaYLabel (markerInfo (updateMarkerDetails DIVS_VOLTAGE w))
  /\ updateMarkerDetails DIVS_VOLTAGE (updateMarkerDetails DIVS_VOLTAGE w) = updateMarkerDetails DIVS_VOLTAGE w.
Proof.
  intros Hs Hv Hv' Hsp Hsp'.
  split; [|split; [|split; [|split]]].
  - apply list_eq. intros ch. rewrite !voltageCursors_updateMarkerDetails, Hs.
    destruct (Nat.lt_ge_cases ch (length (voltage (scope w)))) as [Hlt|Hge].
    + destruct (lookup_lt_is_Some_2 (voltageCursors w) ch ltac:(lia)) as [info ->].
      destruct (lookup_lt_is_Some_2 (voltageCursors w') ch ltac:(lia)) as [info' ->].
      cbn. f_equal. now apply voltageRow_settings_only.
    + rewrite !lookup_ge_None_2 by lia. reflexivity.
  - apply list_eq. intros ch. rewrite !spectrumCursors_updateMarkerDetails, Hs.
    destruct (Nat.lt_ge_cases ch (length (spectrum (scope w)))) as [Hlt|Hge].
    + destruct (lookup_lt_is_Some_2 (spectrumCursors w) ch ltac:(lia)) as [info ->].
      destruct (lookup_lt_is_Some_2 (spectrumCursors w') ch ltac:(lia)) as [info' ->].
      cbn. f_equal. now apply spectrumRow_settings_only.
    + rewrite !lookup_ge_None_2 by lia. reflexivity.
  - unfold updateMarkerDetails. cbn. now rewrite Hs.
  - unfold updateMarkerDetails. cbn. now rewrite Hs.
  - assert (Hscope : scope (updateMarkerDetails DIVS_VOLTAGE w) = scope w) by reflexivity.
    assert (Hvs : voltageCursors (updateMarkerDetails DIVS_VOLTAGE (updateMarkerDetails DIVS_VOLTAGE w))
                  = voltageCursors (updateMarkerDetails DIVS_VOLTAGE w)).
    { apply list_eq. intros ch. rewrite !voltageCursors_updateMarkerDetails, Hscope.
      destruct (voltageCursors w !! ch); [cbn; now rewrite voltageRow_twice|reflexivity]. }
    assert (Hss : spectrumCursors (updateMarkerDetails DIVS_VOLTAGE (updateMarkerDetails DIVS_VOLTAGE w))
                  = spectrumCursors (updateMarkerDetails DIVS_VOLTAGE w)).
    { apply list_eq. intros ch. rewrite !spectrumCursors_updateMarkerDetails, Hscope.
      destruct (spectrumCursors w !! ch); [cbn; now rewrite spectrumRow_twice|reflexivity]. }
    unfold updateMarkerDetails in Hvs, Hss |- *.
    cbn [voltageCursors spectrumCursors scope markerInfo zoomTriggerPositionSlider
         selectorEnabled shapeLabel] in Hvs, Hss |- *.
    rewrite Hvs, Hss. reflexivity.
Qed.

(** X17. After a move of a time marker by its slider, the row of the time
    markers shows the distance from the moved marker to the other one, as a
    time and as a frequency: the absolute difference of the two x positions
    times the time base and times the frequency base, so that neither
    depends on which of the two markers is the left one. *)
Theorem moved_time_marker_measurements (marker : N) (x : Q) (w : DsoWidget) :
  (marker < MARKER_COUNT)%N ->
  let other := getMarker (scope w) (1 - marker) in
  ~ x == other ->
  exists w' time freq,
    updateMarker DIVS_TIME DIVS_VOLTAGE marker x w = Some w'
    /\ getMarker (scope w') marker = x
    /\ getMarker (scope w') (1 - marker) = other
    /\ deltaXLabel (markerInfo w') = Value time UNIT_SECONDS 4
    /\ deltaYLabel (markerInfo w') = Value freq UNIT_HERTZ 4
    /\ time == Qabs (x - other) * timebase (horizontal (scope w))
    /\ freq == Qabs (x - other) * frequencybase (horizontal (scope w))
    /\ selectorEnabled (markerInfo w') = selectorEnabled (markerInfo w)
    /\ shapeLabel (markerInfo w') = shapeLabel (markerInfo w).
Proof.
  intros Hlt other Hne.
  assert (Hm : marker = 0%N \/ marker = 1%N) by (unfold MARKER_COUNT in Hlt; lia).
  set (w0 := setScope (setMarker (scope w) marker x) w).
  assert (Hx : getMarker (scope w0) marker = x /\ getMarker (scope w0) (1 - marker) = other).
  { subst other w0. destruct Hm as [-> | ->]; split; reflexivity. }
  destruct Hx as [Hx Ho].
  assert (Hd : Qabs (getMarker (scope w0) 1 - getMarker (scope w0) 0) == Qabs (x - other)).
  { destruct Hm as [-> | ->].
    - change (1 - 0)%N with 1%N in Ho. rewrite Hx, Ho.
      rewrite <- (Qabs_opp (x - other)). apply Qabs_wd. ring.
    - change (1 - 1)%N with 0%N in Ho. rewrite Hx, Ho. reflexivity. }
  assert (Hne0 : ~ getMarker (scope w0) 0 == getMarker (scope w0) 1).
  { intros E. apply Hne.
    assert (Ez : getMarker (scope w0) 1 - getMarker (scope w0) 0 == 0) by lra.
    assert (H0 : Qabs (x - other) == 0) by (rewrite <- Hd, Ez; reflexivity).
    destruct (Qabs_distance other x) as [[_ Ea]|[_ Ea]]; rewrite Ea in H0; lra. }
  pose proof (mainToZoom_Some DIVS_TIME (scope w0) (trigger_position (scope w0)) Hne0)
    as Hv.
  destruct (adaptTriggerPositionSlider_Some DIVS_TIME DIVS_VOLTAGE w0 _ Hv)
    as (w1 & Hw1 & Hs1 & _ & _ & _ & _ & _ & Hdetails).
  unfold updateMarker. fold w0. rewrite Hw1. cbn [mbind option_bind].
  do 3 eexists. split; [reflexivity|].
  fold (updateMarkerDetails DIVS_VOLTAGE w1). rewrite Hdetails.
  cbn [scope setZoomTriggerPositionSlider updateMarkerDetails markerInfo
       deltaXLabel deltaYLabel selectorEnabled shapeLabel].
  split; [exact Hx|]. split; [exact Ho|].
  split; [reflexivity|]. split; [reflexivity|].
  fold (getMarker (scope w0) 1). fold (getMarker (scope w0) 0).
  assert (Hbase : timebase (horizontal (scope w0)) = timebase (horizontal (scope w))
                  /\ frequencybase (horizontal (scope w0))
                     = frequencybase (horizontal (scope w))).
  { subst w0. split; reflexivity. }
  destruct Hbase as [-> ->].
  split; [rewrite Hd; reflexivity|]. split; [rewrite Hd; reflexivity|].
  split; reflexivity.
Qed.

End CursorTableProperties.

(** ** The shape buttons of the cursor table *)

Lemma toggleShape_shape (c : DsoSettingsScopeCursor) :
  shape (toggleShape c) = match shape c with NONE => RECTANGULAR | _ => NONE end.
Proof. unfold toggleShape. now destruct (shape c). Qed.

Lemma toggleShape_position (c : DsoSettingsScopeCursor) (m : N) :
  position (toggleShape c) m = position c m.
Proof. unfold toggleShape. now destruct (shape c). Qed.

Lemma sameChannels_refl (s : DsoSettingsScope) : sameChannels s s.
Proof. repeat split. Qed.

Section ShapeButtonProperties.

Variables DIVS_TIME DIVS_VOLTAGE : Q.

Abbreviation cursorVertices := (cursorVertices DIVS_TIME DIVS_VOLTAGE).

(** X18. A click on the shape button of a voltage channel. For a used channel
    the cursor becomes [RECTANGULAR] when its shape was [NONE] and [NONE]
    otherwise, so that a cursor that was [HORIZONTAL] or [VERTICAL] is
    switched off; its two markers stay where they are, and no other cursor
    and nothing else of the channels changes. For a channel that is not
    used the settings stay as they are. In both cases the row of the channel
    and the vertices of its cursor are brought up to date: the shape label
    of a used channel reads "#" or "OFF" as the new shape says, and the
    entry of the cursor in [vaMarker] holds the vertices of the cursor as it
    is now. *)
Theorem voltage_shape_button_switches_the_cursor (ch : nat) (gl : GlScope) (w : DsoWidget)
    (v : DsoSettingsScopeVoltage) :
  voltage (scope w) !! ch = Some v ->
  (ch < length (voltageCursors w))%nat ->
  length (vaMarker gl) = length (makeCursorInfo (scope w)) ->
  exists gl' w' v' info,
    voltageShapeClicked DIVS_TIME DIVS_VOLTAGE ch (gl, w) = Some (gl', w')
    /\ voltage (scope w') !! ch = Some v'
    /\ (forall m, position (v_cursor v') m = position (v_cursor v) m)
    /\ (v_used v = true -> shape (v_cursor v) = NONE -> shape (v_cursor v') = RECTANGULAR)
    /\ (v_used v = true -> shape (v_cursor v) <> NONE -> shape (v_cursor v') = NONE)
    /\ (v_used v = false -> scope w' = scope w)
    /\ (forall r, r <> VoltageCursor ch -> deref (scope w') r = deref (scope w) r)
    /\ sameChannels (scope w) (scope w')
    /\ voltageCursors w' !! ch = Some info
    /\ (v_used v = true ->
        shapeLabel info
        = Text (match shape (v_cursor v') with RECTANGULAR => "#" | _ => "OFF" end))
    /\ vaMarker gl' !! S ch = Some (cursorVertices (v_cursor v')).
Proof.
  intros Hv Hrow Hlen.
  unfold voltageShapeClicked. cbn [fst snd]. rewrite Hv. cbn [mbind option_bind].
  set (s' := if v_used v then _ else _).
  set (v' := if v_used v then setVoltageCursor (toggleShape (v_cursor v)) v else v).
  assert (Hv' : voltage s' !! ch = Some v').
  { subst s' v'. destruct (v_used v); [|exact Hv].
    cbn [assign voltage]. rewrite list_lookup_alter_eq, Hv. reflexivity. }
  assert (Hinfo' : makeCursorInfo s' = makeCursorInfo (scope w)).
  { subst s'. destruct (v_used v); [apply makeCursorInfo_assign|reflexivity]. }
  assert (Hused' : v_used v' = v_used v)
    by (subst v'; destruct (v_used v) eqn:E; exact E).
  destruct (lookup_lt_is_Some_2 _ _ Hrow) as [info0 Hinfo0].
  do 2 eexists. exists v'. eexists. split; [reflexivity|].
  cbn [scope updateMarkerDetails].
  change (scope (setScope s' w)) with s'.
  split; [exact Hv'|].
  split; [intros m; subst v'; destruct (v_used v);
          [apply toggleShape_position|reflexivity]|].
  split; [intros Hu Hs; subst v'; rewrite Hu; cbn; now rewrite toggleShape_shape, Hs|].
  split; [intros Hu Hs; subst v'; rewrite Hu; cbn; rewrite toggleShape_shape;
          now destruct (shape (v_cursor v))|].
  split; [intros Hu; subst s'; now rewrite Hu|].
  split; [intros r Hr; subst s'; destruct (v_used v);
          [apply deref_assign_ne; congruence|reflexivity]|].
  split; [subst s'; destruct (v_used v); [apply sameChannels_assign|apply sameChannels_refl]|].
  split.
  { fold (updateMarkerDetails DIVS_VOLTAGE (setScope s' w)).
    rewrite voltageCursors_updateMarkerDetails.
    change (voltageCursors (setScope s' w)) with (voltageCursors w).
    rewrite Hinfo0. reflexivity. }
  split.
  { intros Hu. change (scope (setScope s' w)) with s'.
    unfold voltageRow. rewrite Hv', Hused', Hu.
    assert (Hshape : shape (v_cursor v') = NONE \/ shape (v_cursor v') = RECTANGULAR).
    { subst v'. rewrite Hu. cbn. rewrite toggleShape_shape.
      destruct (shape (v_cursor v)); auto. }
    destruct Hshape as [-> | ->]; reflexivity. }
  assert (Hlen' : length (vaMarker gl) = length (makeCursorInfo s')) by congruence.
  destruct (markerUpdated_entries DIVS_TIME DIVS_VOLTAGE s' gl Hlen') as [Hall _].
  destruct (Hall (S ch) (VoltageCursor ch)) as (c & Hc & Hva & _).
  { apply makeCursorInfo_lookup. right. left. exists ch.
    split; [reflexivity|]. split; [|reflexivity]. eapply lookup_lt_Some, Hv'. }
  cbn [deref] in Hc. rewrite Hv' in Hc. injection Hc as <-. exact Hva.
Qed.

(** X19. A click on the shape button of a spectrum channel does the same to the
    cursor of that channel: in use, [RECTANGULAR] from [NONE] and [NONE]
    from every other shape, with its markers and every other cursor left as
    they are; not in use, no change of the settings; and the row and the
    vertices of the cursor, which come after those of all voltage channels,
    are brought up to date. *)
Theorem spectrum_shape_button_switches_the_cursor (ch : nat) (gl : GlScope) (w : DsoWidget)
    (sp : DsoSettingsScopeSpectrum) :
  spectrum (scope w) !! ch = Some sp ->
  (ch < length (spectrumCursors w))%nat ->
  length (vaMarker gl) = length (makeCursorInfo (scope w)) ->
  exists gl' w' sp' info,
    spectrumShapeClicked DIVS_TIME DIVS_VOLTAGE ch (gl, w) = Some (gl', w')
    /\ spectrum (scope w') !! ch = Some sp'
    /\ (forall m, position (s_cursor sp') m = position (s_cursor sp) m)
    /\ (s_used sp = true -> shape (s_cursor sp) = NONE -> shape (s_cursor sp') = RECTANGULAR)
    /\ (s_used sp = true -> shape (s_cursor sp) <> NONE -> shape (s_cursor sp') = NONE)
    /\ (s_used sp = false -> scope w' = scope w)
    /\ (forall r, r <> SpectrumCursor ch -> deref (scope w') r = deref (scope w) r)
    /\ sameChannels (scope w) (scope w')
    /\ spectrumCursors w' !! ch = Some info
    /\ (s_used sp = true ->
        shapeLabel info
        = Text (match shape (s_cursor sp') with RECTANGULAR => "#" | _ => "OFF" end))
    /\ vaMarker gl' !! S (length (voltage (scope w)) + ch)
       = Some (cursorVertices (s_cursor sp')).
Proof.
  intros Hsp Hrow Hlen.
  unfold spectrumShapeClicked. cbn [fst snd]. rewrite Hsp.
  cbn [mbind option_bind].
  set (s' := if s_used sp then _ else _).
  set (sp' := if s_used sp then setSpectrumCursor (toggleShape (s_cursor sp)) sp else sp).
  assert (Hsp' : spectrum s' !! ch = Some sp').
  { subst s' sp'. destruct (s_used sp); [|exact Hsp].
    cbn [assign spectrum]. rewrite list_lookup_alter_eq, Hsp. reflexivity. }
  assert (Hinfo' : makeCursorInfo s' = makeCursorInfo (scope w)).
  { subst s'. destruct (s_used sp); [apply makeCursorInfo_assign|reflexivity]. }
  assert (Hnv : length (voltage s') = length (voltage (scope w))).
  { subst s'. destruct (s_used sp); reflexivity. }
  assert (Hused' : s_used sp' = s_used sp)
    by (subst sp'; destruct (s_used sp) eqn:E; exact E).
  destruct (lookup_lt_is_Some_2 _ _ Hrow) as [info0 Hinfo0].
  do 2 eexists. exists sp'. eexists. split; [reflexivity|].
  cbn [scope updateMarkerDetails].
  change (scope (setScope s' w)) with s'.
  split; [exact Hsp'|].
  split; [intros m; subst sp'; destruct (s_used sp);
          [apply toggleShape_position|reflexivity]|].
  split; [intros Hu Hs; subst sp'; rewrite Hu; cbn; now rewrite toggleShape_shape, Hs|].
  split; [intros Hu Hs; subst sp'; rewrite Hu; cbn; rewrite toggleShape_shape;
          now destruct (shape (s_cursor sp))|].
  split; [intros Hu; subst s'; now rewrite Hu|].
  split; [intros r Hr; subst s'; destruct (s_used sp);
          [apply deref_assign_ne; congruence|reflexivity]|].
  split; [subst s'; destruct (s_used sp); [apply sameChannels_assign|apply sameChannels_refl]|].
  split.
  { fold (updateMarkerDetails DIVS_VOLTAGE (setScope s' w)).
    rewrite spectrumCursors_updateMarkerDetails.
    change (spectrumCursors (setScope s' w)) with (spectrumCursors w).
    rewrite Hinfo0. reflexivity. }
  split.
  { intros Hu. change (scope (setScope s' w)) with s'.
    unfold spectrumRow. rewrite Hsp', Hused', Hu.
    assert (Hshape : shape (s_cursor sp') = NONE \/ shape (s_cursor sp') = RECTANGULAR).
    { subst sp'. rewrite Hu. cbn. rewrite toggleShape_shape.
      destruct (shape (s_cursor sp)); auto. }
    destruct Hshape as [-> | ->]; reflexivity. }
  assert (Hlen' : length (vaMarker gl) = length (makeCursorInfo s')) by congruence.
  destruct (markerUpdated_entries DIVS_TIME DIVS_VOLTAGE s' gl Hlen') as [Hall _].
  destruct (Hall (S (length (voltage s') + ch)) (SpectrumCursor ch)) as (c & Hc & Hva & _).
  { apply makeCursorInfo_lookup. right. right. exists ch.
    split; [reflexivity|]. split; [|reflexivity]. eapply lookup_lt_Some, Hsp'. }
  cbn [deref] in Hc. rewrite Hsp' in Hc. injection Hc as <-.
  rewrite Hnv in Hva. exact Hva.
Qed.

End ShapeButtonProperties.

(** ** The grid *)

(** The values of the counter of a loop that counts from 1 up to a bound. *)
Lemma elem_of_intsBelow (bound : Q) (i : Z) :
  i ∈ intsBelow bound <-> (1 <= i)%Z /\ inject_Z i < bound.
Proof.
  unfold intsBelow. rewrite elem_of_seqZ.
  pose proof (Qle_ceiling bound) as Hle. pose proof (Qceiling_lt bound) as Hlt.
  split.
  - intros [H1 H2]. split; [exact H1|].
    assert (H3 : (i <= Qceiling bound - 1)%Z) by lia.
    rewrite Zle_Qle in H3. lra.
  - intros [H1 H2]. split; [exact H1|].
    assert (H3 : inject_Z i < inject_Z (Qceiling bound)) by lra.
    rewrite <- Zlt_Qlt in H3. lia.
Qed.

Lemma elem_of_join_fmap (A B : Type) (F : A -> list B) (l : list A) (y : B) :
  y ∈ mjoin (F <$> l) <-> exists x, x ∈ l /\ y ∈ F x.
Proof.
  rewrite list_elem_of_join. split.
  - intros (e & Hy & He). apply list_elem_of_fmap in He as (x & -> & Hx). eauto.
  - intros (x & Hx & Hy). exists (F x). split; [exact Hy|].
    apply list_elem_of_fmap. eauto.
Qed.

Lemma Qabs_below (a b : Q) : 0 <= a -> a < b -> Qabs a < b /\ Qabs (- a) < b.
Proof.
  intros Ha Hb. rewrite Qabs_opp, Qabs_pos by exact Ha. auto.
Qed.

Section GridProperties.

Variables DIVS_TIME DIVS_VOLTAGE : Q.
Variable DIVS_SUB : Z.

Abbreviation insideBorder := (insideBorder DIVS_TIME DIVS_VOLTAGE).

(** A grid with vertices added to the dots, and one with vertices added to
    the axes. *)
Abbreviation grown0 g vs :=
  (mkGrid (gridDrawCounts0 g + length vs) (gridDrawCounts1 g) (gridDrawCounts2 g)
          (vaGrid g ++ vs) (axesStart g) (borderStart g)).

Abbreviation grown1 g vs :=
  (mkGrid (gridDrawCounts0 g) (gridDrawCounts1 g + length vs) (gridDrawCounts2 g)
          (vaGrid g ++ vs) (axesStart g) (borderStart g)).

Lemma fold_grown0 (B : Type) (body : Grid -> B -> Grid) (V : B -> list (Q * Q * Q)) :
  (forall g x, body g x = grown0 g (V x)) ->
  forall l g, fold_left body l g = grown0 g (mjoin (V <$> l)).
Proof.
  intros Hbody l. induction l as [|x l IH]; intros g.
  - destruct g. cbn. now rewrite Nat.add_0_r, app_nil_r.
  - cbn [fold_left]. rewrite Hbody, IH.
    cbn [gridDrawCounts0 gridDrawCounts1 gridDrawCounts2 vaGrid axesStart borderStart].
    change (mjoin (V <$> x :: l)) with (V x ++ mjoin (V <$> l)).
    now rewrite length_app, app_assoc, Nat.add_assoc.
Qed.

Lemma fold_grown1 (B : Type) (body : Grid -> B -> Grid) (V : B -> list (Q * Q * Q)) :
  (forall g x, body g x = grown1 g (V x)) ->
  forall l g, fold_left body l g = grown1 g (mjoin (V <$> l)).
Proof.
  intros Hbody l. induction l as [|x l IH]; intros g.
  - destruct g. cbn. now rewrite Nat.add_0_r, app_nil_r.
  - cbn [fold_left]. rewrite Hbody, IH.
    cbn [gridDrawCounts0 gridDrawCounts1 gridDrawCounts2 vaGrid axesStart borderStart].
    change (mjoin (V <$> x :: l)) with (V x ++ mjoin (V <$> l)).
    now rewrite length_app, app_assoc, Nat.add_assoc.
Qed.

(** The four dots of one pass of the loops of the vertical lines and of the
    horizontal lines. *)
Abbreviation verticalLine div dot :=
  [ (- inject_Z div, - subPosition DIVS_SUB dot, 0);
    (- inject_Z div, subPosition DIVS_SUB dot, 0);
    (inject_Z div, - subPosition DIVS_SUB dot, 0);
    (inject_Z div, subPosition DIVS_SUB dot, 0) ].

Abbreviation horizontalLine div dot :=
  [ (- subPosition DIVS_SUB dot, - inject_Z div, 0);
    (subPosition DIVS_SUB dot, - inject_Z div, 0);
    (- subPosition DIVS_SUB dot, inject_Z div, 0);
    (subPosition DIVS_SUB dot, inject_Z div, 0) ].

Abbreviation verticalPart :=
  (mjoin ((fun div => mjoin ((fun dot => verticalLine div dot)
                               <$> intsBelow (DIVS_VOLTAGE / 2 * inject_Z DIVS_SUB)))
            <$> intsBelow (DIVS_TIME / 2))).

Abbreviation horizontalPart :=
  (mjoin ((fun div => mjoin ((fun dot => if (Z.rem dot DIVS_SUB =? 0)%Z then []
                                         else horizontalLine div dot)
                               <$> intsBelow (DIVS_TIME / 2 * inject_Z DIVS_SUB)))
            <$> intsBelow (DIVS_VOLTAGE / 2))).

Lemma verticalLoops (g : Grid) :
  fold_left (fun g div =>
               fold_left (verticalLineDots DIVS_SUB div)
                         (intsBelow (DIVS_VOLTAGE / 2 * inject_Z DIVS_SUB)) g)
            (intsBelow (DIVS_TIME / 2)) g
  = grown0 g verticalPart.
Proof.
  apply (fold_grown0 _ _ (fun div => mjoin ((fun dot => verticalLine div dot)
                               <$> intsBelow (DIVS_VOLTAGE / 2 * inject_Z DIVS_SUB)))).
  intros g' div. apply (fold_grown0 _ _ (fun dot => verticalLine div dot)).
  intros g'' dot. reflexivity.
Qed.

Lemma horizontalLoops (g : Grid) :
  fold_left (fun g div =>
               fold_left (horizontalLineDots DIVS_SUB div)
                         (intsBelow (DIVS_TIME / 2 * inject_Z DIVS_SUB)) g)
            (intsBelow (DIVS_VOLTAGE / 2)) g
  = grown0 g horizontalPart.
Proof.
  apply (fold_grown0 _ _ (fun div => mjoin ((fun dot => if (Z.rem dot DIVS_SUB =? 0)%Z
                                                        then [] else horizontalLine div dot)
                               <$> intsBelow (DIVS_TIME / 2 * inject_Z DIVS_SUB)))).
  intros g' div.
  apply (fold_grown0 _ _ (fun dot => if (Z.rem dot DIVS_SUB =? 0)%Z
                                     then [] else horizontalLine div dot)).
  intros g'' dot. unfold horizontalLineDots.
  destruct (Z.rem dot DIVS_SUB =? 0)%Z; [|reflexivity].
  destruct g''. cbn. now rewrite Nat.add_0_r, app_nil_r.
Qed.

Lemma horizontalAxisLoop (l : list Z) (g : Grid) :
  exists vs, fold_left (horizontalAxisLine DIVS_SUB) l g = grown1 g vs.
Proof.
  eexists. apply (fold_grown1 _ _ (fun line =>
    [ (subPosition DIVS_SUB line, - (1 # 20), 0); (subPosition DIVS_SUB line, 1 # 20, 0);
      (- subPosition DIVS_SUB line, - (1 # 20), 0); (- subPosition DIVS_SUB line, 1 # 20, 0) ])).
  intros g' line. reflexivity.
Qed.

Lemma verticalAxisLoop (l : list Z) (g : Grid) :
  exists vs, fold_left (verticalAxisLine DIVS_SUB) l g = grown1 g vs.
Proof.
  eexists. apply (fold_grown1 _ _ (fun line =>
    [ (- (1 # 20), subPosition DIVS_SUB line, 0); (1 # 20, subPosition DIVS_SUB line, 0);
      (- (1 # 20), - subPosition DIVS_SUB line, 0); (1 # 20, - subPosition DIVS_SUB line, 0) ])).
  intros g' line. reflexivity.
Qed.

(** The grid in closed form: the dots of the two pairs of loops, then the
    vertices of the axes, then the border. *)
Lemma generateGrid_parts :
  exists axes,
    (generateGrid DIVS_TIME DIVS_VOLTAGE DIVS_SUB)
    = mkGrid (length (verticalPart ++ horizontalPart)) (length axes) 4
             ((verticalPart ++ horizontalPart) ++ axes
              ++ [ (- DIVS_TIME / 2, - DIVS_VOLTAGE / 2, 0);
                   (DIVS_TIME / 2, - DIVS_VOLTAGE / 2, 0);
                   (DIVS_TIME / 2, DIVS_VOLTAGE / 2, 0);
                   (- DIVS_TIME / 2, DIVS_VOLTAGE / 2, 0) ])
             (length (verticalPart ++ horizontalPart))
             (length ((verticalPart ++ horizontalPart) ++ axes))
    /\ take 4 axes = [ (- DIVS_TIME / 2, 0, 0); (DIVS_TIME / 2, 0, 0);
                       (0, - DIVS_VOLTAGE / 2, 0); (0, DIVS_VOLTAGE / 2, 0) ].
Proof.
  unfold generateGrid. cbn zeta.
  rewrite verticalLoops.
  cbn [gridDrawCounts0 gridDrawCounts1 gridDrawCounts2 vaGrid axesStart borderStart
       app Nat.add].
  set (VP := verticalPart).
  rewrite horizontalLoops.
  cbn [gridDrawCounts0 gridDrawCounts1 gridDrawCounts2 vaGrid axesStart borderStart].
  set (HP := horizontalPart).
  unfold bindAxes, pushAxes.
  cbn [gridDrawCounts0 gridDrawCounts1 gridDrawCounts2 vaGrid axesStart borderStart
       Nat.add].
  set (A0 := [ (- DIVS_TIME / 2, 0, 0); _; _; _ ]).
  match goal with
  | |- context [fold_left (horizontalAxisLine DIVS_SUB) ?l ?g] =>
      destruct (horizontalAxisLoop l g) as [hs ->]
  end.
  cbn [gridDrawCounts0 gridDrawCounts1 gridDrawCounts2 vaGrid axesStart borderStart].
  match goal with
  | |- context [fold_left (verticalAxisLine DIVS_SUB) ?l ?g] =>
      destruct (verticalAxisLoop l g) as [vs ->]
  end.
  unfold bindBorder, pushBorder.
  cbn [gridDrawCounts0 gridDrawCounts1 gridDrawCounts2 vaGrid axesStart borderStart
       Nat.add].
  exists (A0 ++ hs ++ vs).
  split; [|reflexivity].
  rewrite <- !app_assoc, !length_app.
  replace (length A0) with 4%nat by reflexivity.
  f_equal; lia.
Qed.

(** X20. The three draws of [drawGrid] share the buffer without a gap and without
    an overlap: the dots are drawn as points from the start of the buffer,
    the axes as lines from where the dots end, and the border as a loop from
    where the axes end, up to the end of the buffer. Every count is the
    number of vertices that were pushed for its draw. The axes begin with
    the two lines through the origin, and the border is the rectangle from
    [(-DIVS_TIME / 2, -DIVS_VOLTAGE / 2)] to [(DIVS_TIME / 2, DIVS_VOLTAGE / 2)]. *)
Theorem grid_draws_share_the_buffer :
  let g := (generateGrid DIVS_TIME DIVS_VOLTAGE DIVS_SUB) in
  drawGrid g
  = [ (GL_POINTS, 0%nat, gridDrawCounts0 g);
      (GL_LINES, gridDrawCounts0 g, gridDrawCounts1 g);
      (GL_LINE_LOOP, (gridDrawCounts0 g + gridDrawCounts1 g)%nat, 4%nat) ]
  /\ length (vaGrid g) = (gridDrawCounts0 g + gridDrawCounts1 g + 4)%nat
  /\ mjoin (drawnVertices g <$> drawGrid g) = vaGrid g
  /\ take 4 (drawnVertices g (GL_LINES, axesStart g, gridDrawCounts1 g))
     = [ (- DIVS_TIME / 2, 0, 0); (DIVS_TIME / 2, 0, 0);
         (0, - DIVS_VOLTAGE / 2, 0); (0, DIVS_VOLTAGE / 2, 0) ]
  /\ drawnVertices g (GL_LINE_LOOP, borderStart g, gridDrawCounts2 g)
     = [ (- DIVS_TIME / 2, - DIVS_VOLTAGE / 2, 0);
         (DIVS_TIME / 2, - DIVS_VOLTAGE / 2, 0);
         (DIVS_TIME / 2, DIVS_VOLTAGE / 2, 0);
         (- DIVS_TIME / 2, DIVS_VOLTAGE / 2, 0) ].
Proof.
  destruct generateGrid_parts as (axes & -> & Haxes). cbn zeta.
  set (dots := verticalPart ++ horizontalPart).
  set (border := [ (- DIVS_TIME / 2, - DIVS_VOLTAGE / 2, 0); _; _; _ ]).
  unfold drawGrid, drawnVertices.
  cbn [gridDrawCounts0 gridDrawCounts1 gridDrawCounts2 vaGrid axesStart borderStart
       fst snd fmap list_fmap mjoin list_join].
  assert (Hdots : take (length dots) (dots ++ axes ++ border) = dots)
    by now apply take_app_length'.
  assert (Haxes' : take (length axes) (drop (length dots) (dots ++ axes ++ border)) = axes).
  { rewrite drop_app_length. now apply take_app_length'. }
  assert (Hborder : drop (length (dots ++ axes)) (dots ++ axes ++ border) = border).
  { rewrite app_assoc. apply drop_app_length. }
  split; [now rewrite length_app|].
  split; [rewrite !length_app; subst border; cbn [length]; lia|].
  split.
  { rewrite drop_0, Hdots, Haxes', Hborder.
    replace (take 4 border) with border by reflexivity.
    now rewrite app_nil_r. }
  split; [rewrite Haxes'; exact Haxes|].
  rewrite Hborder. reflexivity.
Qed.

Lemma gridDots_generateGrid :
  gridDots (generateGrid DIVS_TIME DIVS_VOLTAGE DIVS_SUB) = verticalPart ++ horizontalPart.
Proof.
  destruct generateGrid_parts as (axes & -> & _). unfold gridDots.
  cbn [gridDrawCounts0 vaGrid]. now apply take_app_length'.
Qed.

Lemma subPosition_bounds (dot : Z) (bound : Q) :
  (0 < DIVS_SUB)%Z -> (1 <= dot)%Z -> inject_Z dot < bound * inject_Z DIVS_SUB ->
  0 <= subPosition DIVS_SUB dot /\ subPosition DIVS_SUB dot < bound.
Proof.
  intros Hsub Hdot Hlt. unfold subPosition.
  assert (Hs : 0 < inject_Z DIVS_SUB)
    by (change 0 with (inject_Z 0); now rewrite <- Zlt_Qlt).
  assert (Hd : 0 <= inject_Z dot)
    by (change 0 with (inject_Z 0); rewrite <- Zle_Qle; lia).
  split.
  - apply Qle_shift_div_l; [exact Hs|]. lra.
  - apply Qlt_shift_div_r; [exact Hs|]. exact Hlt.
Qed.

(** X21. With a positive number of dots in a division, every dot of the grid
    lies within the border, strictly: its distance from the vertical axis
    is less than half the divisions of time and its distance from the
    horizontal axis less than half the divisions of voltage. *)
Theorem grid_dots_lie_within_the_border (v : Q * Q * Q) :
  (0 < DIVS_SUB)%Z ->
  v ∈ gridDots (generateGrid DIVS_TIME DIVS_VOLTAGE DIVS_SUB) ->
  insideBorder v.
Proof.
  intros Hsub Hv. rewrite gridDots_generateGrid in Hv.
  apply elem_of_app in Hv as [Hv|Hv];
    apply elem_of_join_fmap in Hv as (div & Hdiv & Hv);
    apply elem_of_join_fmap in Hv as (dot & Hdot & Hv);
    apply elem_of_intsBelow in Hdiv as [Hdiv1 Hdiv2];
    apply elem_of_intsBelow in Hdot as [Hdot1 Hdot2];
    destruct (subPosition_bounds dot _ Hsub Hdot1 Hdot2) as [Hp0 Hp1];
    assert (Hd0 : 0 <= inject_Z div)
      by (change 0 with (inject_Z 0); rewrite <- Zle_Qle; lia);
    destruct (Qabs_below _ _ Hp0 Hp1) as [Hpa Hpb];
    destruct (Qabs_below _ _ Hd0 Hdiv2) as [Hda Hdb].
  - repeat (apply elem_of_cons in Hv as [->|Hv]); [| | | |inversion Hv];
      split; assumption.
  - destruct (Z.rem dot DIVS_SUB =? 0)%Z; [inversion Hv|].
    repeat (apply elem_of_cons in Hv as [->|Hv]); [| | | |inversion Hv];
      split; assumption.
Qed.

Lemma samePlace_mirrored (sx sy : Z) (x y x' y' : Q) :
  isSign sx -> isSign sy -> x' == x -> y' == y ->
  exists u, u ∈ [ (- x', - y', 0); (- x', y', 0); (x', - y', 0); (x', y', 0) ]
            /\ samePlace u (mirrored sx sy x y).
Proof.
  intros [-> | ->] [-> | ->] Hx Hy; unfold samePlace, mirrored.
  - exists (x', y', 0). split; [repeat first [apply list_elem_of_here | apply list_elem_of_further]|].
    cbn [fst snd]. rewrite Hx, Hy.
    split; [ring|split; [ring|reflexivity]].
  - exists (x', - y', 0). split; [repeat first [apply list_elem_of_here | apply list_elem_of_further]|].
    cbn [fst snd]. rewrite Hx, Hy.
    split; [ring|split; [ring|reflexivity]].
  - exists (- x', y', 0). split; [repeat first [apply list_elem_of_here | apply list_elem_of_further]|].
    cbn [fst snd]. rewrite Hx, Hy.
    split; [ring|split; [ring|reflexivity]].
  - exists (- x', - y', 0). split; [repeat first [apply list_elem_of_here | apply list_elem_of_further]|].
    cbn [fst snd]. rewrite Hx, Hy.
    split; [ring|split; [ring|reflexivity]].
Qed.

Lemma samePlace_mirrored_swapped (sx sy : Z) (x y x' y' : Q) :
  isSign sx -> isSign sy -> x' == x -> y' == y ->
  exists u, u ∈ [ (- x', - y', 0); (x', - y', 0); (- x', y', 0); (x', y', 0) ]
            /\ samePlace u (mirrored sx sy x y).
Proof.
  intros Hsx Hsy Hx Hy.
  destruct (samePlace_mirrored sx sy x y x' y' Hsx Hsy Hx Hy) as (u & Hu & Hplace).
  exists u. split; [|exact Hplace].
  repeat (apply elem_of_cons in Hu as [->|Hu]); [| | | |inversion Hu];
    repeat first [apply list_elem_of_here | apply list_elem_of_further].
Qed.

(** X22. With a positive number of dots in a division, every dot of every line
    of the grid is drawn, although the loop of the horizontal lines passes
    over the dots where a horizontal line crosses a vertical one: those are
    among the dots of the loop of the vertical lines. For a horizontal line
    [div] divisions above or below the axis and a dot [dot] subdivisions to
    its left or right, both within the bounds of the loops, the grid has a
    dot at that place; likewise for a dot of a vertical line. *)
Theorem every_dot_of_the_grid_lines_is_drawn (div dot sx sy : Z) :
  (0 < DIVS_SUB)%Z ->
  isSign sx -> isSign sy ->
  (div ∈ intsBelow (DIVS_VOLTAGE / 2) ->
   dot ∈ intsBelow (DIVS_TIME / 2 * inject_Z DIVS_SUB) ->
   exists u, u ∈ gridDots (generateGrid DIVS_TIME DIVS_VOLTAGE DIVS_SUB)
             /\ samePlace u (mirrored sx sy (subPosition DIVS_SUB dot) (inject_Z div)))
  /\ (div ∈ intsBelow (DIVS_TIME / 2) ->
      dot ∈ intsBelow (DIVS_VOLTAGE / 2 * inject_Z DIVS_SUB) ->
      exists u, u ∈ gridDots (generateGrid DIVS_TIME DIVS_VOLTAGE DIVS_SUB)
                /\ samePlace u (mirrored sx sy (inject_Z div) (subPosition DIVS_SUB dot))).
Proof.
  intros Hsub Hsx Hsy. rewrite gridDots_generateGrid.
  assert (Hs : 0 < inject_Z DIVS_SUB)
    by (change 0 with (inject_Z 0); now rewrite <- Zlt_Qlt).
  assert (Hvertical : forall div dot,
            div ∈ intsBelow (DIVS_TIME / 2) ->
            dot ∈ intsBelow (DIVS_VOLTAGE / 2 * inject_Z DIVS_SUB) ->
            forall x y, inject_Z div == x -> subPosition DIVS_SUB dot == y ->
            exists u, u ∈ verticalPart ++ horizontalPart
                      /\ samePlace u (mirrored sx sy x y)).
  { intros div' dot' Hdiv Hdot x y Hx Hy.
    destruct (samePlace_mirrored sx sy x y _ _ Hsx Hsy Hx Hy) as (u & Hu & Hplace).
    exists u. split; [|exact Hplace]. apply elem_of_app. left.
    apply elem_of_join_fmap. exists div'. split; [exact Hdiv|].
    apply elem_of_join_fmap. exists dot'. split; [exact Hdot|exact Hu]. }
  split; [|intros Hdiv Hdot; now apply (Hvertical div dot)].
  intros Hdiv Hdot.
  destruct (Z.rem dot DIVS_SUB =? 0)%Z eqn:Hrem.
  - apply Z.eqb_eq in Hrem.
    apply elem_of_intsBelow in Hdiv as [Hdiv1 Hdiv2].
    apply elem_of_intsBelow in Hdot as [Hdot1 Hdot2].
    pose proof (Z.quot_rem' dot DIVS_SUB) as Hquot. rewrite Hrem, Z.add_0_r in Hquot.
    set (k := Z.quot dot DIVS_SUB) in *.
    assert (Hk : (1 <= k)%Z) by nia.
    assert (Hdotq : inject_Z dot == inject_Z DIVS_SUB * inject_Z k)
      by (rewrite <- inject_Z_mult, <- Hquot; reflexivity).
    apply (Hvertical k (div * DIVS_SUB)%Z).
    + apply elem_of_intsBelow. split; [exact Hk|].
      apply (Qmult_lt_r _ _ (inject_Z DIVS_SUB) Hs).
      assert (E : inject_Z k * inject_Z DIVS_SUB == inject_Z dot) by (rewrite Hdotq; ring).
      rewrite E. exact Hdot2.
    + apply elem_of_intsBelow. split; [nia|].
      rewrite inject_Z_mult. now apply Qmult_lt_r.
    + unfold subPosition. rewrite Hdotq. field. lra.
    + unfold subPosition. rewrite inject_Z_mult. field. lra.
  - destruct (samePlace_mirrored_swapped sx sy (subPosition DIVS_SUB dot) (inject_Z div) _ _
                Hsx Hsy (Qeq_refl _) (Qeq_refl _)) as (u & Hu & Hplace).
    exists u. split; [|exact Hplace]. apply elem_of_app. right.
    apply elem_of_join_fmap. exists div. split; [exact Hdiv|].
    apply elem_of_join_fmap. exists dot. split; [exact Hdot|].
    rewrite Hrem. exact Hu.
Qed.

End GridProperties.

(** * The properties at the settings of the examples *)

(** C1 at the example settings and the position 3/4 of the main view. *)
Lemma zoom_round_trip_example :
  0 < 10
  /\ ~ getMarker exampleScope 0 == getMarker exampleScope 1
  /\ exists z, mainToZoom 10 exampleScope (3 # 4) = Some z
               /\ zoomToMain 10 exampleScope z == 3 # 4.
Proof.
  assert (Hpos : 0 < 10) by reflexivity.
  assert (Hne : ~ getMarker exampleScope 0 == getMarker exampleScope 1)
    by (vm_compute; discriminate).
  split; [exact Hpos|]. split; [exact Hne|].
  exact (zoom_round_trip 10 Hpos exampleScope (3 # 4) Hne).
Defined.

(** C7 with both time markers at x = 0. *)
Lemma zoom_window_without_width_example :
  getMarker collapsedScope 0 == getMarker collapsedScope 1
  /\ snd (zoomWindow collapsedScope) - fst (zoomWindow collapsedScope) == 0
  /\ mainToZoom 10 collapsedScope (3 # 4) = None
  /\ zoomToMain 10 collapsedScope (3 # 4)
     == (1 # 2) + fst (zoomWindow collapsedScope) / 10.
Proof.
  assert (He : getMarker collapsedScope 0 == getMarker collapsedScope 1) by reflexivity.
  split; [exact He|].
  exact (zoom_window_without_width 10 collapsedScope (3 # 4) He).
Defined.

(** C6 at the example widget: the trigger at 3/5 of the main view is in the
    middle of the zoom window, within the limits 0 and 1 of the slider. A
    move of the second time marker onto the first one, at x = 0, leaves the
    trigger to the right of a window without width: the mapped position is
    the positive infinity, and the slider is disabled at its upper limit. *)
Lemma trigger_position_slider_example :
  minimum (zoomTriggerPositionSlider exampleWidget)
  <= maximum (zoomTriggerPositionSlider exampleWidget)
  /\ mainToZoomValue 10 (scope exampleWidget) (trigger_position (scope exampleWidget))
     = Number (10 # 20)
  /\ mainToZoomValue 10 (setMarker (scope exampleWidget) 1 0)
                     (trigger_position (scope exampleWidget))
     = PlusInfinity
  /\ (exists w', adaptTriggerPositionSlider 10 exampleWidget = Some w'
        /\ sliderFollows (zoomTriggerPositionSlider exampleWidget)
                         (zoomTriggerPositionSlider w') (10 # 20))
  /\ (exists w', updateMarker 10 8 1 0 exampleWidget = Some w'
        /\ scope w' = setMarker (scope exampleWidget) 1 0
        /\ enabled (zoomTriggerPositionSlider w') = false
        /\ value (zoomTriggerPositionSlider w')
           = maximum (zoomTriggerPositionSlider exampleWidget)).
Proof.
  assert (Hrange : minimum (zoomTriggerPositionSlider exampleWidget)
                   <= maximum (zoomTriggerPositionSlider exampleWidget))
    by (vm_compute; discriminate).
  assert (E1 : mainToZoomValue 10 (scope exampleWidget)
                 (trigger_position (scope exampleWidget)) = Number (10 # 20))
    by reflexivity.
  assert (E2 : mainToZoomValue 10 (setMarker (scope exampleWidget) 1 0)
                 (trigger_position (scope exampleWidget)) = PlusInfinity)
    by reflexivity.
  split; [exact Hrange|]. split; [exact E1|]. split; [exact E2|].
  destruct (trigger_position_slider_follows_zoom 10 8 exampleWidget Hrange)
    as (Hadapt & Hmove & _).
  split.
  - destruct Hadapt as (w' & Hw' & Hf). rewrite E1 in Hf.
    exists w'. split; [exact Hw'|exact Hf].
  - destruct (Hmove 1%N 0) as (w' & Hw' & Hs & Hf). rewrite E2 in Hf.
    destruct Hf as (_ & _ & He & Hval).
    exists w'. split; [exact Hw'|]. split; [exact Hs|]. split; [exact He|exact Hval].
Defined.

(** C5 for a rectangular cursor from (-1, -1) to (1, 1), written at the
    place of the first voltage channel. *)
Lemma cursor_geometry_example :
  (1 < length (vaMarker (exampleView 0)))%nat
  /\ exists vs,
       vaMarker (generateVertices 10 8 1
                   (Cursor RECTANGULAR (QPoint (-1) (-1)) (QPoint 1 1)) (exampleView 0)) !! 1%nat
       = Some vs
       /\ length vs = 4%nat
       /\ closedRectangle vs
       /\ vs = [(-1, -1, 1); (-1, 1, 1); (1, 1, 1); (1, -1, 1)].
Proof.
  assert (Hlt : (1 < length (vaMarker (exampleView 0)))%nat) by (vm_compute; lia).
  split; [exact Hlt|].
  destruct (cursor_geometry 10 8 1 (Cursor RECTANGULAR (QPoint (-1) (-1)) (QPoint 1 1))
              (exampleView 0) Hlt)
    as (vs & Hvs & Hlen & Hrect & _ & _ & _ & _ & Hex).
  exists vs. split; [exact Hvs|]. split; [exact Hlen|]. split; [exact Hrect|].
  exact (Hex eq_refl).
Defined.

(** C9 for the third voltage channel of the example settings: markers at
    (0, 0) and (2, 1), a gain of 0.5 and a timebase of 0.001. *)
Lemma voltage_cursor_measurements_example :
  voltage (scope exampleWidget) !! 2%nat
  = Some (Voltage (Cursor RECTANGULAR (QPoint 0 0) (QPoint 2 1)) true (1 # 2))
  /\ (2 < length (voltageCursors exampleWidget))%nat
  /\ exists info,
       voltageCursors (updateMarkerDetails 8 exampleWidget) !! 2%nat = Some info
       /\ selectorEnabled info = true
       /\ deltaXLabel info = Value ((2 - 0) * (1 # 1000)) UNIT_SECONDS 4
       /\ deltaYLabel info = Value ((1 - 0) * (1 # 2)) UNIT_VOLTS 4
       /\ (2 - 0) * (1 # 1000) == 2 # 1000
       /\ (1 - 0) * (1 # 2) == 1 # 2.
Proof.
  assert (Hv : voltage (scope exampleWidget) !! 2%nat
               = Some (Voltage (Cursor RECTANGULAR (QPoint 0 0) (QPoint 2 1)) true (1 # 2)))
    by reflexivity.
  assert (Hlt : (2 < length (voltageCursors exampleWidget))%nat) by (vm_compute; lia).
  split; [exact Hv|]. split; [exact Hlt|].
  destruct (voltage_cursor_measurements 8 exampleWidget 2 _ Hv eq_refl Hlt)
    as (info0 & info & _ & Hinfo & _ & Hen & Hrect & _ & _ & _ & Hex).
  destruct (Hrect eq_refl) as [HX HY].
  destruct (Hex eq_refl eq_refl eq_refl eq_refl) as [HT HV].
  exists info. repeat split; assumption.
Defined.

(** C2 with a capacity of two and three frames: the two newest stay. *)
Lemma history_keeps_newest_frames_example :
  (1 <= 2)%nat
  /\ exists v', showAll [1; 2; 3]%nat (mkGraphView 2 true []) = Some v'
       /\ m_GraphHistory v' = [Some 3; Some 2]%nat
       /\ length (m_GraphHistory v') = 2%nat
       /\ Forall (fun h => (length h <= 2)%nat)
                 (showAllStages [1; 2; 3]%nat (mkGraphView 2 true [])).
Proof.
  assert (HC : (1 <= 2)%nat) by lia.
  split; [exact HC|].
  destruct (proj1 (history_keeps_newest_frames 2 [1; 2; 3]%nat (mkGraphView 2 true [])
                     HC eq_refl eq_refl) eq_refl)
    as (v' & Hrun & Hh & Hlen & _ & Hstages).
  exists v'. repeat split; assumption.
Defined.

(** The claim C2 as it is written fails before the shaders are compiled:
    [showData] returns at once, and after one call with a capacity of one
    the history, empty before, holds no frame, not [min 1 1]. *)
Lemma history_before_shaders_compiled :
  (1 <= digitalPhosphorDraws (mkGraphView (PPresult := nat) 1 false []))%nat
  /\ m_GraphHistory (mkGraphView (PPresult := nat) 1 false []) = []
  /\ exists v', showAll [7%nat] (mkGraphView 1 false []) = Some v'
       /\ length (m_GraphHistory v') = 0%nat
       /\ Nat.min (length [7%nat]) 1 = 1%nat.
Proof.
  split; [vm_compute; lia|]. split; [reflexivity|].
  eexists. split; [reflexivity|]. split; reflexivity.
Qed.

(** C8 with a capacity of one, and of zero, on a history of one frame. *)
Lemma history_of_capacity_one_example :
  shaderCompileSuccess (mkGraphView 1 true [Some 4%nat]) = true
  /\ showData 5%nat (mkGraphView 1 true [Some 4%nat])
     = Some (mkGraphView 1 true [Some 5%nat])
  /\ showData 5%nat (mkGraphView 0 true [Some 4%nat]) = None.
Proof.
  split; [reflexivity|]. split.
  - exact (proj1 (history_of_capacity_one 5%nat (mkGraphView 1 true [Some 4%nat]) eq_refl)
                 eq_refl).
  - exact (proj2 (history_of_capacity_one 5%nat (mkGraphView 0 true [Some 4%nat]) eq_refl)
                 eq_refl).
Defined.

(** The claim C8 as it is written fails for a capacity of zero: the call has
    no result, on an empty history and on one that holds a frame. *)
Lemma history_of_capacity_zero :
  digitalPhosphorDraws (mkGraphView (PPresult := nat) 0 true []) = 0%nat
  /\ showData 5%nat (mkGraphView 0 true []) = None
  /\ showData 5%nat (mkGraphView 0 true [Some 4%nat]) = None.
Proof. repeat split. Qed.

(** C4 at the example settings, the cursor of the time markers selected: a
    press at the pixel (800, 400), which is at x = 3, a move to the pixel
    (600, 300) and a move to the pixel (700, 200). *)
Lemma unanchored_drag_example :
  0 < 10 /\ 0 < 8
  /\ zoomed (fst (exampleWorld 0)) = false
  /\ button (pressAt 800 400) = LeftButton
  /\ Z.land (buttons (moveTo 600 300)) LeftButton <> 0%Z
  /\ Z.land (buttons (moveTo 700 200)) LeftButton <> 0%Z
  /\ selectedCursorRef (exampleWorld 0)
     = Some (HorizontalCursor, Cursor VERTICAL (QPoint 0 0) (QPoint 2 0))
  /\ (forall m a, (m < MARKER_COUNT)%N ->
        capturable VERTICAL a = true ->
        snapRadius 10 8 a
        <= axisDistance (Cursor VERTICAL (QPoint 0 0) (QPoint 2 0))
                        (eventPosition 10 8 (fst (exampleWorld 0)) (pressAt 800 400)) m a)
  /\ exists w0 w1 w2,
       mousePressEvent 10 8 (pressAt 800 400) (exampleWorld 0) = Some w0
       /\ mouseMoveEvent 10 8 (moveTo 600 300) w0 = Some w1
       /\ mouseMoveEvent 10 8 (moveTo 700 200) w1 = Some w2
       /\ selectedMarker (fst w0) = NO_MARKER
       /\ selectedCursorRef w1
          = Some (HorizontalCursor,
                  Cursor VERTICAL (eventPosition 10 8 (fst (exampleWorld 0)) (moveTo 600 300))
                         (eventPosition 10 8 (fst (exampleWorld 0)) (moveTo 600 300)))
       /\ selectedMarker (fst w1) = 1%N
       /\ selectedCursorRef w2
          = Some (HorizontalCursor,
                  Cursor VERTICAL (eventPosition 10 8 (fst (exampleWorld 0)) (moveTo 600 300))
                         (eventPosition 10 8 (fst (exampleWorld 0)) (moveTo 700 200))).
Proof.
  assert (HT : 0 < 10) by reflexivity.
  assert (HV : 0 < 8) by reflexivity.
  assert (Hb1 : Z.land (buttons (moveTo 600 300)) LeftButton <> 0%Z)
    by (vm_compute; discriminate).
  assert (Hb2 : Z.land (buttons (moveTo 700 200)) LeftButton <> 0%Z)
    by (vm_compute; discriminate).
  assert (Hfar : forall m a, (m < MARKER_COUNT)%N ->
            capturable VERTICAL a = true ->
            snapRadius 10 8 a
            <= axisDistance (Cursor VERTICAL (QPoint 0 0) (QPoint 2 0))
                 (eventPosition 10 8 (fst (exampleWorld 0)) (pressAt 800 400)) m a).
  { intros m a Hm Hc. destruct (marker_cases m Hm) as [-> | ->];
      (destruct a; [vm_compute; discriminate | discriminate Hc]). }
  repeat (split; [first [assumption | reflexivity]|]).
  exact (unanchored_drag 10 8 HT HV (pressAt 800 400) (moveTo 600 300) (moveTo 700 200)
           (exampleWorld 0) HorizontalCursor _ eq_refl eq_refl Hb1 Hb2 eq_refl Hfar).
Defined.

(** C3 as amended at the example settings, the cursor of the first voltage
    channel selected (rectangular, markers at (0, 0) and (5, 0.02)): a press
    at the pixel (501, 397), which is at (0.01, 0.03). *)
Lemma press_anchors_marker_example :
  0 < 10 /\ 0 < 8
  /\ zoomed (fst (exampleWorld 1)) = false
  /\ button (pressAt 501 397) = LeftButton
  /\ selectedCursorRef (exampleWorld 1) = Some (VoltageCursor 0, exampleCursor)
  /\ exists w' m a,
       mousePressEvent 10 8 (pressAt 501 397) (exampleWorld 1) = Some w'
       /\ (m < MARKER_COUNT)%N
       /\ capturable (shape exampleCursor) a = true
       /\ axisDistance exampleCursor
            (eventPosition 10 8 (fst (exampleWorld 1)) (pressAt 501 397)) m a
          < snapRadius 10 8 a
       /\ selectedMarker (fst w') = m
       /\ selectedCursorRef w'
          = Some (VoltageCursor 0,
                  setPosition exampleCursor m
                    (eventPosition 10 8 (fst (exampleWorld 1)) (pressAt 501 397))).
Proof.
  assert (HT : 0 < 10) by reflexivity.
  assert (HV : 0 < 8) by reflexivity.
  repeat (split; [first [assumption | reflexivity]|]).
  destruct (press_anchors_marker_in_snap_area 10 8 HT HV (pressAt 501 397) (exampleWorld 1)
              (VoltageCursor 0) exampleCursor eq_refl eq_refl eq_refl)
    as (w' & Hpress & Hhit & _).
  destruct Hhit as (m & a & Hm & Hc & Hs & _ & Hsel & Hpos).
  { exists 0%N, AxisX. repeat split. }
  exists w', m, a. repeat split; assumption.
Defined.

(** The claim C3 as it is written fails in two ways.  With the cursor of the
    time markers selected (vertical, markers at x = 0 and x = 2), a press at
    the pixel (510, 400) is at x = 0.1, exactly one hundredth of the full
    scale from marker 0 and nearer to it than to marker 1: no marker is
    anchored.  With the rectangular cursor of the first voltage channel
    selected (markers at (0, 0) and (5, 0.02)), a press at the pixel
    (501, 397) is at (0.01, 0.03): marker 0 is within one hundredth of the
    full scale on the x axis and the nearest marker on that axis, and yet
    marker 1 is anchored and moved, marker 0 stays. *)
Lemma press_at_the_radius_and_across_axes :
  (capturable VERTICAL AxisX = true
   /\ axisDistance (h_cursor (horizontal exampleScope))
        (eventPosition 10 8 (exampleView 0) (pressAt 510 400)) 0 AxisX
      == snapRadius 10 8 AxisX
   /\ axisDistance (h_cursor (horizontal exampleScope))
        (eventPosition 10 8 (exampleView 0) (pressAt 510 400)) 0 AxisX
      < axisDistance (h_cursor (horizontal exampleScope))
          (eventPosition 10 8 (exampleView 0) (pressAt 510 400)) 1 AxisX
   /\ mousePressEvent 10 8 (pressAt 510 400) (exampleWorld 0) = Some (exampleWorld 0))
  /\ (capturable RECTANGULAR AxisX = true
      /\ axisDistance exampleCursor
           (eventPosition 10 8 (exampleView 1) (pressAt 501 397)) 0 AxisX
         < snapRadius 10 8 AxisX
      /\ axisDistance exampleCursor
           (eventPosition 10 8 (exampleView 1) (pressAt 501 397)) 0 AxisX
         < axisDistance exampleCursor
             (eventPosition 10 8 (exampleView 1) (pressAt 501 397)) 1 AxisX
      /\ exists w', mousePressEvent 10 8 (pressAt 501 397) (exampleWorld 1) = Some w'
           /\ selectedMarker (fst w') = 1%N
           /\ deref (snd w') (VoltageCursor 0)
              = Some (Cursor RECTANGULAR (QPoint 0 0)
                        (eventPosition 10 8 (exampleView 1) (pressAt 501 397)))).
Proof.
  split.
  - repeat split.
  - split; [reflexivity|]. split; [reflexivity|]. split; [reflexivity|].
    eexists. split; [reflexivity|]. split; reflexivity.
Qed.

(** C10 as amended at the example settings: a press at the pixel (701, 400),
    which is at x = 2.01, on marker 1 of the cursor of the time markers. *)
Lemma marker_writes_are_signalled_example :
  selectedCursorRef (exampleWorld 0)
  = Some (HorizontalCursor, Cursor VERTICAL (QPoint 0 0) (QPoint 2 0))
  /\ exists w', mousePressEvent 10 8 (pressAt 701 400) (exampleWorld 0) = Some w'
       /\ notified (newEffects (exampleWorld 0) w') = true.
Proof.
  split; [reflexivity|].
  destruct (marker_writes_are_signalled 10 8 (pressAt 701 400) (exampleWorld 0)
              HorizontalCursor _ eq_refl)
    as (_ & _ & w' & Hpress & Hzero & _).
  exists w'. split; [exact Hpress|]. exact (Hzero eq_refl).
Defined.

(** The claim C10 as it is written fails for a press with the cursor of a
    channel selected: the press at the pixel (501, 397) moves marker 1 of the
    cursor of the first voltage channel, and no signal follows the write. *)
Lemma press_on_channel_cursor_is_not_signalled :
  selectedCursor (exampleView 1) = 1%nat
  /\ exists w', mousePressEvent 10 8 (pressAt 501 397) (exampleWorld 1) = Some w'
       /\ deref (snd (exampleWorld 1)) (VoltageCursor 0)
          = Some (Cursor RECTANGULAR (QPoint 0 0) (QPoint 5 (1 # 50)))
       /\ deref (snd w') (VoltageCursor 0)
          = Some (Cursor RECTANGULAR (QPoint 0 0) (QPoint (10 # 1000) (24 # 800)))
       /\ newEffects (exampleWorld 1) w' = [markerWritten 1 1]
       /\ notified (newEffects (exampleWorld 1) w') = false.
Proof.
  split; [reflexivity|].
  eexists. split; [reflexivity|]. repeat split.
Qed.

(** The claim C9 as it is written fails for a cursor of shape [NONE]: the
    second voltage channel of the example settings is used, its markers are
    at (0, 0) and (2, 1), and its two labels are empty. *)
Lemma no_measurement_shown_without_shape :
  voltage exampleScope !! 1%nat
  = Some (Voltage (Cursor NONE (QPoint 0 0) (QPoint 2 1)) true (1 # 2))
  /\ exists info,
       voltageCursors (updateMarkerDetails 8 exampleWidget) !! 1%nat = Some info
       /\ selectorEnabled info = true
       /\ deltaXLabel info = Empty
       /\ deltaYLabel info = Empty.
Proof.
  split; [reflexivity|]. eexists. split; [reflexivity|]. repeat split.
Qed.

(** ** Further properties at the settings of the examples *)

(** The drag of the examples keeps the selection of the time markers. *)
Lemma pointer_events_keep_the_selection_valid_example :
  validSelection (exampleWorld 0)
  /\ markerOrNone (selectedMarker (fst (exampleWorld 0)))
  /\ exists w',
       handleAll 10 8 exampleDrag (exampleWorld 0) = Some w'
       /\ validSelection w'
       /\ selectedCursor (fst w') = selectedCursor (fst (exampleWorld 0))
       /\ markerOrNone (selectedMarker (fst w')).
Proof.
  assert (Hvalid : validSelection (exampleWorld 0))
    by (split; [reflexivity|vm_compute; lia]).
  assert (Hmarker : markerOrNone (selectedMarker (fst (exampleWorld 0))))
    by (left; reflexivity).
  split; [exact Hvalid|]. split; [exact Hmarker|].
  exact (pointer_events_keep_the_selection_valid 10 8 exampleDrag (exampleWorld 0)
           Hvalid Hmarker).
Defined.

(** The drag of the examples with the cursor of the second voltage channel
    selected. *)
Lemma pointer_events_move_markers_example :
  selectedCursorRef (exampleWorld 2)
  = Some (VoltageCursor 1, Cursor NONE (QPoint 0 0) (QPoint 2 1))
  /\ exists w' c',
       handleAll 10 8 exampleDrag (exampleWorld 2) = Some w'
       /\ selectedCursorRef w' = Some (VoltageCursor 1, c')
       /\ shape c' = shape (Cursor NONE (QPoint 0 0) (QPoint 2 1))
       /\ (forall m,
             position c' m = position (Cursor NONE (QPoint 0 0) (QPoint 2 1)) m
             \/ exists ev, ev ∈ exampleDrag
                           /\ position c' m
                              = eventPosition 10 8 (fst (exampleWorld 2)) (eventOf ev))
       /\ (forall r', r' <> VoltageCursor 1 ->
             deref (snd w') r' = deref (snd (exampleWorld 2)) r')
       /\ sameChannels (snd (exampleWorld 2)) (snd w').
Proof.
  assert (Hsel : selectedCursorRef (exampleWorld 2)
                 = Some (VoltageCursor 1, Cursor NONE (QPoint 0 0) (QPoint 2 1)))
    by reflexivity.
  split; [exact Hsel|].
  exact (pointer_events_move_markers_of_the_selected_cursor_only 10 8 exampleDrag
           (exampleWorld 2) _ _ Hsel).
Defined.

(** Events of the right button at the example settings. *)
Lemma pointer_events_without_effect_example :
  (zoomed (fst (exampleWorld 0)) = true
   \/ Forall (fun ev => withoutLeftButton ev = true) rightButtonEvents)
  /\ handleAll 10 8 rightButtonEvents (exampleWorld 0) = Some (exampleWorld 0).
Proof.
  assert (H : zoomed (fst (exampleWorld 0)) = true
              \/ Forall (fun ev => withoutLeftButton ev = true) rightButtonEvents)
    by (right; repeat constructor).
  split; [exact H|].
  exact (pointer_events_without_effect 10 8 rightButtonEvents (exampleWorld 0) H).
Defined.

(** A press on the time marker at x = 0, which anchors it, a move to the
    pixel (600, 300) and the release at the pixel (650, 300). *)
Lemma drag_of_the_anchored_marker_example :
  zoomed (fst (exampleWorld 0)) = false
  /\ button (pressAt 500 400) = LeftButton
  /\ Z.land (buttons (moveTo 600 300)) LeftButton <> 0%Z
  /\ button (pressAt 650 300) = LeftButton
  /\ selectedCursorRef (exampleWorld 0)
     = Some (HorizontalCursor, Cursor VERTICAL (QPoint 0 0) (QPoint 2 0))
  /\ exists w0 w1 w2 c2,
       mousePressEvent 10 8 (pressAt 500 400) (exampleWorld 0) = Some w0
       /\ selectedMarker (fst w0) = 0%N
       /\ mouseMoveEvent 10 8 (moveTo 600 300) w0 = Some w1
       /\ mouseReleaseEvent 10 8 (pressAt 650 300) w1 = Some w2
       /\ selectedCursorRef w2 = Some (HorizontalCursor, c2)
       /\ position c2 0 = eventPosition 10 8 (fst (exampleWorld 0)) (pressAt 650 300)
       /\ position c2 1 = QPoint 2 0
       /\ selectedMarker (fst w2) = NO_MARKER.
Proof.
  assert (Hb : Z.land (buttons (moveTo 600 300)) LeftButton <> 0%Z)
    by (vm_compute; discriminate).
  assert (Hsel : selectedCursorRef (exampleWorld 0)
                 = Some (HorizontalCursor, Cursor VERTICAL (QPoint 0 0) (QPoint 2 0)))
    by reflexivity.
  split; [reflexivity|]. split; [reflexivity|]. split; [exact Hb|].
  split; [reflexivity|]. split; [exact Hsel|].
  destruct (drag_of_the_anchored_marker 10 8 (pressAt 500 400) (moveTo 600 300)
              (pressAt 650 300) (exampleWorld 0) _ _
              eq_refl eq_refl Hb eq_refl Hsel) as (w0 & Hpress & Hdrag).
  assert (Hm0 : selectedMarker (fst w0) = 0%N).
  { assert (E : match mousePressEvent 10 8 (pressAt 500 400) (exampleWorld 0) with
                 | Some w => selectedMarker (fst w)
                 | None => NO_MARKER
                 end = 0%N) by (vm_compute; reflexivity).
    rewrite Hpress in E. exact E. }
  destruct Hdrag as (_ & w1 & w2 & c2 & Hmove & Hrel & _ & _ & _ & Hsel2 & Hp & Hother
                     & _ & Hnone).
  { rewrite Hm0. discriminate. }
  exists w0, w1, w2, c2.
  split; [exact Hpress|]. split; [exact Hm0|]. split; [exact Hmove|].
  split; [exact Hrel|]. split; [exact Hsel2|].
  split; [rewrite Hm0 in Hp; exact Hp|].
  split; [|exact Hnone].
  rewrite (Hother 1%N); [reflexivity|reflexivity|rewrite Hm0; discriminate].
Defined.

(** The pixel in the middle of the example view. *)
Lemma pointer_in_the_view_example :
  0 < 10 /\ 0 < 8
  /\ (0 <= ev_x (pressAt 500 400) < width (exampleView 0))%Z
  /\ (0 <= ev_y (pressAt 500 400) < height (exampleView 0))%Z
  /\ (- 10 / 2 <= px (eventPosition 10 8 (exampleView 0) (pressAt 500 400)) <= 10 / 2)
  /\ (- 8 / 2 <= py (eventPosition 10 8 (exampleView 0) (pressAt 500 400)) <= 8 / 2)
  /\ (ev_x (pressAt 500 400) = Z.quot (width (exampleView 0)) 2 ->
      px (eventPosition 10 8 (exampleView 0) (pressAt 500 400)) == 0)
  /\ (ev_y (pressAt 500 400) = Z.quot (height (exampleView 0)) 2 ->
      py (eventPosition 10 8 (exampleView 0) (pressAt 500 400)) == 0).
Proof.
  assert (HT : 0 < 10) by reflexivity.
  assert (HV : 0 < 8) by reflexivity.
  assert (Hx : (0 <= ev_x (pressAt 500 400) < width (exampleView 0))%Z)
    by (cbn; lia).
  assert (Hy : (0 <= ev_y (pressAt 500 400) < height (exampleView 0))%Z)
    by (cbn; lia).
  split; [exact HT|]. split; [exact HV|]. split; [exact Hx|]. split; [exact Hy|].
  exact (pointer_in_the_view_is_in_the_grid 10 8 (exampleView 0) (pressAt 500 400)
           HT HV Hx Hy).
Defined.

(** Three frames shown on a history of four slots under a capacity of
    two: during the first call the history holds four, then three, then two
    slots, and two from then on. *)
Lemma history_after_a_change_of_capacity_example :
  (1 <= digitalPhosphorDraws shrunkHistory)%nat
  /\ shaderCompileSuccess shrunkHistory = true
  /\ [1; 2; 3]%nat <> []
  /\ length <$> showDataStages 1%nat shrunkHistory = [4; 3; 2; 2; 2; 2; 2]%nat
  /\ exists v',
       showAll [1; 2; 3]%nat shrunkHistory = Some v'
       /\ m_GraphHistory v'
          = take (digitalPhosphorDraws shrunkHistory)
                 ((Some <$> reverse [1; 2; 3]%nat) ++ m_GraphHistory shrunkHistory)
       /\ length (m_GraphHistory v')
          = Nat.min (digitalPhosphorDraws shrunkHistory)
                    (length [1; 2; 3]%nat + length (m_GraphHistory shrunkHistory))
       /\ digitalPhosphorDraws v' = digitalPhosphorDraws shrunkHistory
       /\ Forall (fun h => (length h <= Nat.max (digitalPhosphorDraws shrunkHistory)
                                                (length (m_GraphHistory shrunkHistory)))%nat)
                 (showAllStages [1; 2; 3]%nat shrunkHistory)
       /\ (forall k,
             (digitalPhosphorDraws shrunkHistory <= k
              <= length (m_GraphHistory shrunkHistory))%nat ->
             take k (m_GraphHistory shrunkHistory)
             ∈ showAllStages [1; 2; 3]%nat shrunkHistory)
       /\ (forall data rest v1,
             [1; 2; 3]%nat = data :: rest ->
             showData data shrunkHistory = Some v1 ->
             Forall (fun h => (length h <= digitalPhosphorDraws shrunkHistory)%nat)
                    (showAllStages rest v1)).
Proof.
  assert (HC : (1 <= digitalPhosphorDraws shrunkHistory)%nat) by (cbn; lia).
  assert (Hne : [1; 2; 3]%nat <> []) by discriminate.
  split; [exact HC|]. split; [reflexivity|]. split; [exact Hne|]. split; [reflexivity|].
  exact (history_after_a_change_of_capacity [1; 2; 3]%nat shrunkHistory HC eq_refl Hne).
Defined.

(** The zoom of the example settings, whose window is from x = 0 to
    x = 2. *)
Lemma zoomed_view_example :
  ~ getMarker exampleScope 0 == getMarker exampleScope 1
  /\ exists m,
       zoomMatrix 10 exampleScope = Some m
       /\ applyX m (fst (zoomWindow exampleScope)) == - 10 / 2
       /\ applyX m (snd (zoomWindow exampleScope)) == 10 / 2
       /\ forall pos, exists z,
            mainToZoom 10 exampleScope pos = Some z
            /\ applyX m (positionToX 10 pos) == positionToX 10 z.
Proof.
  assert (Hne : ~ getMarker exampleScope 0 == getMarker exampleScope 1)
    by (vm_compute; discriminate).
  split; [exact Hne|].
  exact (proj1 (zoomed_view_shows_the_zoom_window 10 exampleScope) Hne).
Defined.

(** The trigger of the example settings, at x = 1, lies within the zoom
    window. *)
Lemma zoom_trigger_slider_example :
  ~ getMarker (scope exampleWidget) 0 == getMarker (scope exampleWidget) 1
  /\ minimum (zoomTriggerPositionSlider exampleWidget) = 0
  /\ maximum (zoomTriggerPositionSlider exampleWidget) = 1
  /\ fst (zoomWindow (scope exampleWidget))
     <= positionToX 10 (trigger_position (scope exampleWidget))
     <= snd (zoomWindow (scope exampleWidget))
  /\ exists w',
       adaptTriggerPositionSlider 10 exampleWidget = Some w'
       /\ enabled (zoomTriggerPositionSlider w') = true.
Proof.
  assert (Hne : ~ getMarker (scope exampleWidget) 0 == getMarker (scope exampleWidget) 1)
    by (vm_compute; discriminate).
  assert (Hin : fst (zoomWindow (scope exampleWidget))
                <= positionToX 10 (trigger_position (scope exampleWidget))
                <= snd (zoomWindow (scope exampleWidget)))
    by (split; vm_compute; discriminate).
  split; [exact Hne|]. split; [reflexivity|]. split; [reflexivity|].
  split; [exact Hin|].
  destruct (zoom_trigger_slider_is_enabled_inside_the_window 10 exampleWidget
              Hne eq_refl eq_refl) as (w' & Hw' & Henabled & _).
  exists w'. split; [exact Hw'|exact (Henabled Hin)].
Defined.

(** The slider of the zoom view moved to a quarter of its range. *)
Lemma trigger_position_from_the_zoom_view_example :
  0 < 10
  /\ ~ getMarker (scope exampleWidget) 0 == getMarker (scope exampleWidget) 1
  /\ exists mainSlider' w' t,
       updateTriggerPosition 10 8 0 (1 # 4) false
         (setupTriggerPositionSlider exampleScope) exampleWidget
       = Some (mainSlider', w', [t])
       /\ trigger_position (scope w') = zoomToMain 10 (scope exampleWidget) (1 # 4)
       /\ (exists z', mainToZoom 10 (scope w') (trigger_position (scope w')) = Some z'
                      /\ z' == 1 # 4)
       /\ value mainSlider' = trigger_position (scope w')
       /\ zoomTriggerPositionSlider w' = zoomTriggerPositionSlider exampleWidget
       /\ horizontal (scope w') = horizontal (scope exampleWidget)
       /\ t == trigger_position (scope w')
               * timebase (horizontal (scope exampleWidget)) * 10
       /\ (0 <= 1 # 4 <= 1 ->
           fst (zoomWindow (scope exampleWidget))
           <= positionToX 10 (trigger_position (scope w'))
           <= snd (zoomWindow (scope exampleWidget))).
Proof.
  assert (HT : 0 < 10) by reflexivity.
  assert (Hne : ~ getMarker (scope exampleWidget) 0 == getMarker (scope exampleWidget) 1)
    by (vm_compute; discriminate).
  split; [exact HT|]. split; [exact Hne|].
  exact (trigger_position_from_the_zoom_view 10 8 (1 # 4)
           (setupTriggerPositionSlider exampleScope) exampleWidget HT Hne).
Defined.

(** The slider of the main view moved to three quarters of its range. *)
Lemma trigger_position_from_the_main_view_example :
  ~ getMarker (scope exampleWidget) 0 == getMarker (scope exampleWidget) 1
  /\ minimum (zoomTriggerPositionSlider exampleWidget)
     <= maximum (zoomTriggerPositionSlider exampleWidget)
  /\ (exists w' z,
        updateTriggerPosition 10 8 0 (3 # 4) true
          (setupTriggerPositionSlider exampleScope) exampleWidget
        = Some (setupTriggerPositionSlider exampleScope, w',
                [(3 # 4) * timebase (horizontal (scope exampleWidget)) * 10])
        /\ scope w' = setTriggerPosition (scope exampleWidget) (3 # 4)
        /\ mainToZoom 10 (scope exampleWidget) (3 # 4) = Some z
        /\ sliderFollows (zoomTriggerPositionSlider exampleWidget)
                         (zoomTriggerPositionSlider w') z)
  /\ (forall index mainView, index <> 0%Z ->
        updateTriggerPosition 10 8 index (3 # 4) mainView
          (setupTriggerPositionSlider exampleScope) exampleWidget
        = Some (setupTriggerPositionSlider exampleScope, exampleWidget, [])).
Proof.
  assert (Hne : ~ getMarker (scope exampleWidget) 0 == getMarker (scope exampleWidget) 1)
    by (vm_compute; discriminate).
  assert (Hrange : minimum (zoomTriggerPositionSlider exampleWidget)
                   <= maximum (zoomTriggerPositionSlider exampleWidget))
    by (vm_compute; discriminate).
  split; [exact Hne|]. split; [exact Hrange|].
  exact (trigger_position_from_the_main_view 10 8 (3 # 4)
           (setupTriggerPositionSlider exampleScope) exampleWidget Hne Hrange).
Defined.

(** The trigger of the example settings, at three fifths, is shown as
    60 %; a trigger position of 30000000 has no percentage that is an
    [int]. *)
Lemma pretrigger_percent_example :
  0 <= trigger_position exampleScope
  /\ trigger_position exampleScope * 100 + (1 # 2) < inject_Z INT_MAX + 1
  /\ pretriggerPercent exampleScope = Some 60%Z
  /\ 0 <= trigger_position (setTriggerPosition exampleScope 30000000)
  /\ inject_Z INT_MAX + 1
     <= trigger_position (setTriggerPosition exampleScope 30000000) * 100 + (1 # 2)
  /\ pretriggerPercent (setTriggerPosition exampleScope 30000000) = None
  /\ exists percent,
       pretriggerPercent exampleScope = Some percent
       /\ (trigger_position exampleScope * 100 - (1 # 2) < inject_Z percent
           <= trigger_position exampleScope * 100 + (1 # 2))
       /\ (trigger_position exampleScope <= 1 -> (0 <= percent <= 100)%Z).
Proof.
  assert (Hpos : 0 <= trigger_position exampleScope) by (vm_compute; discriminate).
  assert (Hsmall : trigger_position exampleScope * 100 + (1 # 2) < inject_Z INT_MAX + 1)
    by (vm_compute; reflexivity).
  assert (Hpos' : 0 <= trigger_position (setTriggerPosition exampleScope 30000000))
    by (vm_compute; discriminate).
  assert (Hlarge : inject_Z INT_MAX + 1
                   <= trigger_position (setTriggerPosition exampleScope 30000000) * 100
                      + (1 # 2))
    by (vm_compute; discriminate).
  split; [exact Hpos|]. split; [exact Hsmall|]. split; [reflexivity|].
  split; [exact Hpos'|]. split; [exact Hlarge|].
  split.
  - exact (proj2 (pretrigger_percent_is_rounded
                    (setTriggerPosition exampleScope 30000000) Hpos') Hlarge).
  - exact (proj1 (pretrigger_percent_is_rounded exampleScope Hpos) Hsmall).
Defined.

(** The vertices of the six cursors of the example settings. *)
Lemma marker_update_example :
  length (vaMarker (exampleView 0)) = length (makeCursorInfo exampleScope)
  /\ (forall i r, makeCursorInfo exampleScope !! i = Some r ->
        exists c, deref exampleScope r = Some c
          /\ vaMarker (markerUpdated 10 8 exampleScope (exampleView 0)) !! i
             = Some (cursorVertices 10 8 c)
          /\ length (cursorVertices 10 8 c) = 4%nat)
  /\ length (vaMarker (markerUpdated 10 8 exampleScope (exampleView 0)))
     = length (vaMarker (exampleView 0))
  /\ cursorInfo (markerUpdated 10 8 exampleScope (exampleView 0))
     = cursorInfo (exampleView 0)
  /\ selectedCursor (markerUpdated 10 8 exampleScope (exampleView 0))
     = selectedCursor (exampleView 0)
  /\ selectedMarker (markerUpdated 10 8 exampleScope (exampleView 0))
     = selectedMarker (exampleView 0)
  /\ effects (markerUpdated 10 8 exampleScope (exampleView 0)) = effects (exampleView 0).
Proof.
  assert (Hlen : length (vaMarker (exampleView 0)) = length (makeCursorInfo exampleScope))
    by reflexivity.
  split; [exact Hlen|].
  exact (marker_update_writes_the_vertices_of_every_cursor 10 8 exampleScope
           (exampleView 0) Hlen).
Defined.

(** The cursors drawn for the example settings with the cursor of the first
    voltage channel selected: five of the six, the second spectrum channel
    not being used. *)
Lemma cursors_in_use_example :
  4%nat = 4%nat
  /\ length (vaMarker (exampleView 1)) = length (makeCursorInfo exampleScope)
  /\ length (render None 1 (drawMarkers 4 exampleScope
                              (markerUpdated 10 8 exampleScope (exampleView 1)))) = 5%nat
  /\ let gl' := markerUpdated 10 8 exampleScope (exampleView 1) in
     let drawn := render None 1 (drawMarkers 4 exampleScope gl') in
     (forall p, p ∈ drawn ->
        exists i r c,
          makeCursorInfo exampleScope !! i = Some r
          /\ cursorUsed exampleScope r = true
          /\ deref exampleScope r = Some c
          /\ p = mkPrimitive GL_LINE_LOOP (i * 4) 4 (Some (colorOf r))
                             (if (i =? selectedCursor (exampleView 1))%nat then 3 else 1)%Z
          /\ verticesOf p (mjoin (vaMarker gl')) = cursorVertices 10 8 c)
     /\ (forall i r, makeCursorInfo exampleScope !! i = Some r ->
           cursorUsed exampleScope r = true ->
           mkPrimitive GL_LINE_LOOP (i * 4) 4 (Some (colorOf r))
                       (if (i =? selectedCursor (exampleView 1))%nat then 3 else 1)%Z
           ∈ drawn).
Proof.
  assert (Hlen : length (vaMarker (exampleView 1)) = length (makeCursorInfo exampleScope))
    by reflexivity.
  split; [reflexivity|]. split; [exact Hlen|]. split; [reflexivity|].
  exact (cursors_in_use_are_drawn_from_their_vertices 10 8 4 exampleScope (exampleView 1)
           None 1 eq_refl Hlen).
Defined.

(** The first spectrum channel of the example settings: a rectangular
    cursor from (0, 0) to (5, 1/50) at 1000 Hz and 20 dB a division. *)
Lemma spectrum_cursor_measurements_example :
  spectrum (scope exampleWidget) !! 0%nat = Some (Spectrum exampleCursor true 20)
  /\ s_used (Spectrum exampleCursor true 20) = true
  /\ (0 < length (spectrumCursors exampleWidget))%nat
  /\ exists info,
       spectrumCursors (updateMarkerDetails 8 exampleWidget) !! 0%nat = Some info
       /\ selectorEnabled info = true
       /\ shapeLabel info = Text "#"
       /\ deltaXLabel info = Value ((5 - 0) * 1000) UNIT_HERTZ 4
       /\ deltaYLabel info = Value (((1 # 50) - 0) * 20 * 8) UNIT_DECIBEL 4.
Proof.
  assert (Hlt : (0 < length (spectrumCursors exampleWidget))%nat) by (cbn; lia).
  split; [reflexivity|]. split; [reflexivity|]. split; [exact Hlt|].
  destruct (spectrum_cursor_measurements 8 exampleWidget 0 (Spectrum exampleCursor true 20)
              eq_refl eq_refl Hlt) as (info & Hinfo & Hsel & Hrect & _).
  destruct (Hrect eq_refl) as (Hshape & Hx & Hy).
  exists info. split; [exact Hinfo|]. split; [exact Hsel|].
  split; [exact Hshape|]. split; [exact Hx|exact Hy].
Defined.

(** The rows of the channels of the idle settings, which showed texts
    before. *)
Lemma rows_of_unused_channels_example :
  voltage (scope idleWidget) !! 0%nat = Some (Voltage exampleCursor false (1 # 2))
  /\ spectrum (scope idleWidget) !! 0%nat = Some (Spectrum exampleCursor false 20)
  /\ (0 < length (voltageCursors idleWidget))%nat
  /\ (0 < length (spectrumCursors idleWidget))%nat
  /\ voltageCursors idleWidget !! 0%nat = Some staleInfo
  /\ voltageCursors (updateMarkerDetails 8 idleWidget) !! 0%nat
     = Some (mkCursorInfo false Empty Empty Empty)
  /\ spectrumCursors (updateMarkerDetails 8 idleWidget) !! 0%nat
     = Some (mkCursorInfo false Empty Empty Empty).
Proof.
  assert (Hv : (0 < length (voltageCursors idleWidget))%nat) by (cbn; lia).
  assert (Hs : (0 < length (spectrumCursors idleWidget))%nat) by (cbn; lia).
  split; [reflexivity|]. split; [reflexivity|]. split; [exact Hv|]. split; [exact Hs|].
  split; [reflexivity|].
  split.
  - exact (proj1 (rows_of_unused_channels_are_cleared 8 idleWidget 0) _
             eq_refl eq_refl Hv).
  - exact (proj2 (rows_of_unused_channels_are_cleared 8 idleWidget 0) _
             eq_refl eq_refl Hs).
Defined.

(** The widget of the examples and one over the same settings whose table
    showed other texts. *)
Lemma cursor_table_example :
  scope staleWidget = scope exampleWidget
  /\ length (voltageCursors exampleWidget) = length (voltage (scope exampleWidget))
  /\ length (voltageCursors staleWidget) = length (voltage (scope exampleWidget))
  /\ length (spectrumCursors exampleWidget) = length (spectrum (scope exampleWidget))
  /\ length (spectrumCursors staleWidget) = length (spectrum (scope exampleWidget))
  /\ voltageCursors staleWidget <> voltageCursors exampleWidget
  /\ voltageCursors (updateMarkerDetails 8 staleWidget)
     = voltageCursors (updateMarkerDetails 8 exampleWidget)
  /\ spectrumCursors (updateMarkerDetails 8 staleWidget)
     = spectrumCursors (updateMarkerDetails 8 exampleWidget)
  /\ deltaXLabel (markerInfo (updateMarkerDetails 8 staleWidget))
     = deltaXLabel (markerInfo (updateMarkerDetails 8 exampleWidget))
  /\ deltaYLabel (markerInfo (updateMarkerDetails 8 staleWidget))
     = deltaYLabel (markerInfo (updateMarkerDetails 8 exampleWidget))
  /\ updateMarkerDetails 8 (updateMarkerDetails 8 exampleWidget)
     = updateMarkerDetails 8 exampleWidget.
Proof.
  split; [reflexivity|]. split; [reflexivity|]. split; [reflexivity|].
  split; [reflexivity|]. split; [reflexivity|]. split; [discriminate|].
  exact (cursor_table_shows_the_settings_only 8 exampleWidget staleWidget
           eq_refl eq_refl eq_refl eq_refl eq_refl).
Defined.

(** The second time marker of the example settings moved from x = 2 to
    x = 4; the other one is at x = 0. *)
Lemma moved_time_marker_example :
  (1 < MARKER_COUNT)%N
  /\ ~ 4 == getMarker (scope exampleWidget) (1 - 1)
  /\ exists w' time freq,
       updateMarker 10 8 1 4 exampleWidget = Some w'
       /\ getMarker (scope w') 1 = 4
       /\ getMarker (scope w') (1 - 1) = getMarker (scope exampleWidget) (1 - 1)
       /\ deltaXLabel (markerInfo w') = Value time UNIT_SECONDS 4
       /\ deltaYLabel (markerInfo w') = Value freq UNIT_HERTZ 4
       /\ time == Qabs (4 - getMarker (scope exampleWidget) (1 - 1))
                  * timebase (horizontal (scope exampleWidget))
       /\ freq == Qabs (4 - getMarker (scope exampleWidget) (1 - 1))
                  * frequencybase (horizontal (scope exampleWidget))
       /\ selectorEnabled (markerInfo w') = selectorEnabled (markerInfo exampleWidget)
       /\ shapeLabel (markerInfo w') = shapeLabel (markerInfo exampleWidget).
Proof.
  assert (Hlt : (1 < MARKER_COUNT)%N) by reflexivity.
  assert (Hne : ~ 4 == getMarker (scope exampleWidget) (1 - 1))
    by (vm_compute; discriminate).
  split; [exact Hlt|]. split; [exact Hne|].
  exact (moved_time_marker_measurements 10 8 1 4 exampleWidget Hlt Hne).
Defined.

(** A click on the shape button of the second voltage channel of the
    example settings, whose cursor is off. *)
Lemma voltage_shape_button_example :
  voltage (scope exampleWidget) !! 1%nat
  = Some (Voltage (Cursor NONE (QPoint 0 0) (QPoint 2 1)) true (1 # 2))
  /\ (1 < length (voltageCursors exampleWidget))%nat
  /\ length (vaMarker (exampleView 0)) = length (makeCursorInfo (scope exampleWidget))
  /\ exists gl' w' v' info,
       voltageShapeClicked 10 8 1 (exampleView 0, exampleWidget) = Some (gl', w')
       /\ voltage (scope w') !! 1%nat = Some v'
       /\ shape (v_cursor v') = RECTANGULAR
       /\ voltageCursors w' !! 1%nat = Some info
       /\ shapeLabel info = Text "#"
       /\ vaMarker gl' !! 2%nat = Some (cursorVertices 10 8 (v_cursor v')).
Proof.
  assert (Hrow : (1 < length (voltageCursors exampleWidget))%nat) by (cbn; lia).
  assert (Hlen : length (vaMarker (exampleView 0))
                 = length (makeCursorInfo (scope exampleWidget))) by reflexivity.
  split; [reflexivity|]. split; [exact Hrow|]. split; [exact Hlen|].
  destruct (voltage_shape_button_switches_the_cursor 10 8 1 (exampleView 0) exampleWidget
              (Voltage (Cursor NONE (QPoint 0 0) (QPoint 2 1)) true (1 # 2))
              eq_refl Hrow Hlen)
    as (gl' & w' & v' & info & Hclick & Hv' & _ & Hon & _ & _ & _ & _ & Hinfo & Hlabel & Hva).
  exists gl', w', v', info.
  split; [exact Hclick|]. split; [exact Hv'|]. split; [exact (Hon eq_refl eq_refl)|].
  split; [exact Hinfo|]. split; [|exact Hva].
  rewrite (Hlabel eq_refl), (Hon eq_refl eq_refl). reflexivity.
Defined.

(** A click on the shape button of the first spectrum channel of the
    example settings, whose cursor is a rectangle. *)
Lemma spectrum_shape_button_example :
  spectrum (scope exampleWidget) !! 0%nat = Some (Spectrum exampleCursor true 20)
  /\ (0 < length (spectrumCursors exampleWidget))%nat
  /\ length (vaMarker (exampleView 0)) = length (makeCursorInfo (scope exampleWidget))
  /\ exists gl' w' sp' info,
       spectrumShapeClicked 10 8 0 (exampleView 0, exampleWidget) = Some (gl', w')
       /\ spectrum (scope w') !! 0%nat = Some sp'
       /\ shape (s_cursor sp') = NONE
       /\ spectrumCursors w' !! 0%nat = Some info
       /\ shapeLabel info = Text "OFF"
       /\ vaMarker gl' !! 4%nat = Some (cursorVertices 10 8 (s_cursor sp')).
Proof.
  assert (Hrow : (0 < length (spectrumCursors exampleWidget))%nat) by (cbn; lia).
  assert (Hlen : length (vaMarker (exampleView 0))
                 = length (makeCursorInfo (scope exampleWidget))) by reflexivity.
  assert (Hshape : shape (s_cursor (Spectrum exampleCursor true 20)) <> NONE)
    by discriminate.
  split; [reflexivity|]. split; [exact Hrow|]. split; [exact Hlen|].
  destruct (spectrum_shape_button_switches_the_cursor 10 8 0 (exampleView 0) exampleWidget
              (Spectrum exampleCursor true 20) eq_refl Hrow Hlen)
    as (gl' & w' & sp' & info & Hclick & Hsp' & _ & _ & Hoff & _ & _ & _ & Hinfo & Hlabel
        & Hva).
  exists gl', w', sp', info.
  split; [exact Hclick|]. split; [exact Hsp'|]. split; [exact (Hoff eq_refl Hshape)|].
  split; [exact Hinfo|]. split; [|exact Hva].
  rewrite (Hlabel eq_refl), (Hoff eq_refl Hshape). reflexivity.
Defined.

(** The first dot of the grid of ten by eight divisions with five dots in a
    division. *)
Lemma grid_dots_example :
  (0 < 5)%Z
  /\ ((-1) # 1, (-1) # 5, 0) ∈ gridDots (generateGrid 10 8 5)
  /\ length (gridDots (generateGrid 10 8 5)) = 544%nat
  /\ insideBorder 10 8 ((-1) # 1, (-1) # 5, 0).
Proof.
  assert (Hsub : (0 < 5)%Z) by lia.
  assert (Hin : ((-1) # 1, (-1) # 5, 0) ∈ gridDots (generateGrid 10 8 5))
    by (apply (list_elem_of_lookup_2 _ 0%nat); vm_compute; reflexivity).
  split; [exact Hsub|]. split; [exact Hin|]. split; [vm_compute; reflexivity|].
  exact (grid_dots_lie_within_the_border 10 8 5 _ Hsub Hin).
Defined.

(** The crossing of the first horizontal line below the axis with the first
    vertical line right of it. *)
Lemma every_dot_of_the_grid_lines_example :
  (0 < 5)%Z
  /\ isSign 1 /\ isSign (-1)
  /\ 1%Z ∈ intsBelow (8 / 2)
  /\ 5%Z ∈ intsBelow (10 / 2 * inject_Z 5)
  /\ Z.rem 5 5 = 0%Z
  /\ exists u, u ∈ gridDots (generateGrid 10 8 5)
               /\ samePlace u (mirrored 1 (-1) (subPosition 5 5) (inject_Z 1)).
Proof.
  assert (Hsub : (0 < 5)%Z) by lia.
  assert (Hsx : isSign 1) by (left; reflexivity).
  assert (Hsy : isSign (-1)) by (right; reflexivity).
  assert (Hdiv : 1%Z ∈ intsBelow (8 / 2))
    by (apply (list_elem_of_lookup_2 _ 0%nat); vm_compute; reflexivity).
  assert (Hdot : 5%Z ∈ intsBelow (10 / 2 * inject_Z 5))
    by (apply (list_elem_of_lookup_2 _ 4%nat); vm_compute; reflexivity).
  split; [exact Hsub|]. split; [exact Hsx|]. split; [exact Hsy|].
  split; [exact Hdiv|]. split; [exact Hdot|]. split; [reflexivity|].
  exact (proj1 (every_dot_of_the_grid_lines_is_drawn 10 8 5 1 5 1 (-1) Hsub Hsx Hsy)
           Hdiv Hdot).
Defined.
